(** * nautobot-app-ssot: the developer task runner, migration 0003 and
      the app descriptor, embedded and verified.

    The development follows the three source files:
    - [tasks.py]: the Invoke tasks ([is_truthy], [docker_compose],
      [destroy], [dbshell], [import_db], [backup_db], ...);
    - [migrations/0003_alter_synclogentry_textfields.py];
    - [nautobot_ssot/__init__.py] ([NautobotSSOTAppConfig]).

    Python strings are modelled as [string], the bytes of their UTF-8
    encoding (all the text the tasks write themselves is ASCII).  Python
    dictionaries are association lists in insertion order, and the effects
    of a task (commands handed to [context.run], lines printed, sleeps) are
    a trace threaded through a small monad. *)

From Stdlib Require Import String Ascii List ZArith Bool Lia DecimalString DecimalZ.
Import ListNotations.
Open Scope string_scope.

(** ** Python values and built-ins used by the tasks *)

Module Py.

(** The values a configuration entry or a task argument can hold. *)
Inductive value : Type :=
| VBool (b : bool)
| VInt (z : Z)
| VStr (s : string)
| VNone.

(** [str(arg)].  For an [int] this is its decimal numeral.  (CPython from
    3.11 on refuses to convert an [int] of more than 4300 digits, a limit
    that [sys.set_int_max_str_digits] moves: the statements that quote the
    numeral of an integer are made for integers within that limit.) *)
Definition str (v : value) : string :=
  match v with
  | VBool true => "True"
  | VBool false => "False"
  | VInt z => NilZero.string_of_int (Z.to_int z)
  | VStr s => s
  | VNone => "None"
  end.

(** [str.lower()], character by character, on the letters A to Z.  (The
    tasks only compare a lower-cased string with ASCII words.) *)
Definition lower_char (c : ascii) : ascii :=
  let n := nat_of_ascii c in
  if (65 <=? n)%nat && (n <=? 90)%nat then ascii_of_nat (n + 32) else c.

Fixpoint lower (s : string) : string :=
  match s with
  | EmptyString => EmptyString
  | String c rest => String (lower_char c) (lower rest)
  end.

(** [x in (a, b, ...)] on strings. *)
Definition str_in (x : string) (xs : list string) : bool :=
  existsb (String.eqb x) xs.

(** Truth value of a string: [bool(s)]. *)
Definition truthy (s : string) : bool :=
  match s with EmptyString => false | _ => true end.

(** [a or b] on strings. *)
Definition or_else (a b : string) : string :=
  if truthy a then a else b.

(** [sep.join(tokens)] *)
Definition join (sep : string) (tokens : list string) : string :=
  String.concat sep tokens.

(** [str.isspace()] for an ASCII character. *)
Definition is_space (c : ascii) : bool :=
  let n := nat_of_ascii c in
  ((9 <=? n)%nat && (n <=? 13)%nat) || ((28 <=? n)%nat && (n <=? 32)%nat).

(** The bytes 128 to 191 continue a UTF-8 sequence; a lead byte announces
    how many of them follow. *)
Definition is_continuation (c : ascii) : bool :=
  let n := nat_of_ascii c in (128 <=? n)%nat && (n <=? 191)%nat.

Definition continuation_bytes (c : ascii) : nat :=
  let n := nat_of_ascii c in
  if (194 <=? n)%nat && (n <=? 223)%nat then 1
  else if (224 <=? n)%nat && (n <=? 239)%nat then 2
  else if (240 <=? n)%nat && (n <=? 244)%nat then 3
  else 0.

(** The characters of a string, each as its bytes.  A byte that does not
    start a well-formed sequence is a character of its own, the one with
    that code. *)
Fixpoint characters (s : string) : list string :=
  match s with
  | EmptyString => []
  | String c rest =>
      let alone := String c EmptyString :: characters rest in
      match continuation_bytes c, rest with
      | 1%nat, String c1 rest1 =>
          if is_continuation c1
          then String c (String c1 EmptyString) :: characters rest1
          else alone
      | 2%nat, String c1 (String c2 rest2) =>
          if is_continuation c1 && is_continuation c2
          then String c (String c1 (String c2 EmptyString)) :: characters rest2
          else alone
      | 3%nat, String c1 (String c2 (String c3 rest3)) =>
          if is_continuation c1 && is_continuation c2 && is_continuation c3
          then String c (String c1 (String c2 (String c3 EmptyString)))
               :: characters rest3
          else alone
      | _, _ => alone
      end
  end.

(** [str.isspace()] for one character: the code points 9 to 13, 28 to 32,
    133, 160, 0x1680, 0x2000 to 0x200A, 0x2028, 0x2029, 0x202F, 0x205F and
    0x3000, the ones above 127 by the bytes of their encoding. *)
Definition is_whitespace (ch : string) : bool :=
  match map nat_of_ascii (list_ascii_of_string ch) with
  | [n] =>
      ((9 <=? n) && (n <=? 13)) || ((28 <=? n) && (n <=? 32))
      || (n =? 133) || (n =? 160)
  | [a; b] => (a =? 194) && ((b =? 133) || (b =? 160))
  | [a; b; c] =>
      ((a =? 225) && (b =? 154) && (c =? 128))
      || ((a =? 226) && (b =? 128)
          && (((128 <=? c) && (c <=? 138)) || (c =? 168) || (c =? 169)
              || (c =? 175)))
      || ((a =? 226) && (b =? 129) && (c =? 159))
      || ((a =? 227) && (b =? 128) && (c =? 128))
  | _ => false
  end%nat.

Fixpoint drop_whitespace (chars : list string) : list string :=
  match chars with
  | [] => []
  | ch :: rest => if is_whitespace ch then drop_whitespace rest else chars
  end.

(** [str.strip()]: the whitespace characters at both ends are taken off. *)
Definition strip (s : string) : string :=
  String.concat EmptyString
    (rev (drop_whitespace (rev (drop_whitespace (characters s))))).

(** [needle in haystack] on strings. *)
Fixpoint contains (needle haystack : string) : bool :=
  String.prefix needle haystack ||
  match haystack with
  | EmptyString => false
  | String _ rest => contains needle rest
  end.

(** [str.endswith] for a one-character suffix. *)
Fixpoint ends_with_char (c : ascii) (s : string) : bool :=
  match s with
  | EmptyString => false
  | String d EmptyString => Ascii.eqb c d
  | String _ rest => ends_with_char c rest
  end.

(** [os.path.join(a, b)] (posixpath). *)
Definition path_join (a b : string) : string :=
  if String.prefix "/" b then b
  else if negb (truthy a) || ends_with_char "/" a then a ++ b
  else a ++ "/" ++ b.

(** A [dict] with string keys, in insertion order. *)
Definition dict (V : Type) : Type := list (string * V).

Fixpoint dict_get {V} (k : string) (d : dict V) : option V :=
  match d with
  | [] => None
  | (k', v) :: rest => if String.eqb k k' then Some v else dict_get k rest
  end.

(** [d[k] = v]: an existing key keeps its position. *)
Fixpoint dict_set {V} (k : string) (v : V) (d : dict V) : dict V :=
  match d with
  | [] => [(k, v)]
  | (k', v') :: rest =>
      if String.eqb k k' then (k', v) :: rest
      else (k', v') :: dict_set k v rest
  end.

(** [{**d, **extra}] *)
Definition dict_update {V} (d extra : dict V) : dict V :=
  fold_left (fun acc kv => dict_set (fst kv) (snd kv) acc) extra d.

End Py.

Import Py.

(** ** Exceptions and results *)

Inductive exn : Type :=
| ValueError (msg : string)
| KeyError (key : string)
| UnexpectedExit (command : string).

(** What running a piece of code gives: a value, a raised exception, or a
    polling loop that was still running when its step budget ran out. *)
Inductive result (A : Type) : Type :=
| Ret (a : A)
| Raise (e : exn)
| Running.

Arguments Ret {A} a.
Arguments Raise {A} e.
Arguments Running {A}.

(** ** [is_truthy] *)

Definition is_truthy (arg : value) : result bool :=
  match arg with
  | VBool b => Ret b                      (* isinstance(arg, bool) *)
  | _ =>
      let val := lower (str arg) in
      if str_in val ["y"; "yes"; "t"; "true"; "on"; "1"] then Ret true
      else if str_in val ["n"; "no"; "f"; "false"; "off"; "0"] then Ret false
      else Raise (ValueError ("Invalid truthy value: `" ++ str arg ++ "`"))
  end.

(** ** Effects of a task

    A task talks to the outside through [context.run] (a shell command),
    [print] and [sleep].  The trace records them in order.  What a command
    answers is decided by the [world], which sees the trace so far. *)

(** Keyword arguments travelling to [docker_compose] and [context.run]. *)
Record kwargs : Type := {
  kw_env : option (dict string);
  kw_service : option string;
  kw_pty : option bool;
  kw_echo : option bool;
  kw_hide : option value
}.

Definition no_kwargs : kwargs :=
  {| kw_env := None; kw_service := None; kw_pty := None;
     kw_echo := None; kw_hide := None |}.

Record invocation : Type := {
  inv_command : string;
  inv_kwargs : kwargs
}.

Inductive event : Type :=
| Run (i : invocation)
| Print (line : string)
| Sleep (seconds : Z).

(** The result object of [context.run]. *)
Record run_result : Type := {
  exited : Z;
  stdout : string
}.

Record world : Type := {
  respond : list event -> invocation -> run_result;
  absolute : string -> string;      (* [Path(p).absolute()] *)
  is_file : string -> bool          (* [Path.is_file()] *)
}.

Definition io (A : Type) : Type := world -> list event -> result A * list event.

Definition ret {A} (a : A) : io A := fun _ tr => (Ret a, tr).

Definition bind {A B} (m : io A) (k : A -> io B) : io B :=
  fun w tr =>
    match m w tr with
    | (Ret a, tr') => k a w tr'
    | (Raise e, tr') => (Raise e, tr')
    | (Running, tr') => (Running, tr')
    end.

Definition raise {A} (e : exn) : io A := fun _ tr => (Raise e, tr).

Definition lift {A} (r : result A) : io A := fun _ tr => (r, tr).

Definition out_of_steps {A} : io A := fun _ tr => (Running, tr).

Definition ask : io world := fun w tr => (Ret w, tr).

Definition print (line : string) : io unit :=
  fun _ tr => (Ret tt, (tr ++ [Print line])%list).

Definition sleep (seconds : Z) : io unit :=
  fun _ tr => (Ret tt, (tr ++ [Sleep seconds])%list).

(** [context.run(command, **kwargs)]: a non-zero exit status raises. *)
Definition context_run (command : string) (kw : kwargs) : io run_result :=
  fun w tr =>
    let i := {| inv_command := command; inv_kwargs := kw |} in
    let r := respond w tr i in
    if (exited r =? 0)%Z then (Ret r, (tr ++ [Run i])%list)
    else (Raise (UnexpectedExit command), (tr ++ [Run i])%list).

Declare Scope io_scope.
Delimit Scope io_scope with io.
Notation "x <- m ;; k" := (bind m (fun x => k))
  (at level 100, m at next level, right associativity) : io_scope.
Notation "m ;; k" := (bind m (fun _ => k))
  (at level 100, right associativity) : io_scope.
Open Scope io_scope.

(** The commands handed to [context.run], in order. *)
Fixpoint commands (tr : list event) : list string :=
  match tr with
  | [] => []
  | Run i :: rest => inv_command i :: commands rest
  | _ :: rest => commands rest
  end.

(** ** The task context

    [context.nautobot_ssot], as [namespace.configure] declares it. *)

Record settings : Type := {
  nautobot_ver : string;
  project_name : string;
  python_ver : string;
  local : value;
  compose_dir : string;
  compose_files : list string;
  compose_http_timeout : string
}.

(** The configured defaults; [here] is [os.path.dirname(__file__)]. *)
Definition namespace_defaults (here : string) : settings :=
  {| nautobot_ver := "2.1.0";
     project_name := "nautobot-ssot";
     python_ver := "3.11";
     local := VBool false;
     compose_dir := path_join here "development";
     compose_files :=
       [ "docker-compose.base.yml";
         "docker-compose.redis.yml";
         "docker-compose.postgres.yml";
         "docker-compose.dev.yml" ];
     compose_http_timeout := "86400" |}.

(** The double-quote character. *)
Definition dq : string :=
  String (Ascii false true false false false true false false) EmptyString.

Definition _is_compose_included (context : settings) (name : string) : bool :=
  str_in ("docker-compose." ++ name ++ ".yml") (compose_files context).

Definition docker_compose (context : settings) (command : string) (kw : kwargs)
  : io run_result :=
  let build_env :=
    dict_update
      [ ("COMPOSE_HTTP_TIMEOUT", compose_http_timeout context);
        ("NAUTOBOT_VER", nautobot_ver context);
        ("PYTHON_VER", python_ver context) ]
      (match kw_env kw with Some e => e | None => [] end) in
  let compose_command_tokens :=
    List.app
      [ "docker compose";
        "--project-name " ++ project_name context;
        "--project-directory " ++ dq ++ compose_dir context ++ dq ]
      (List.app
         (map (fun compose_file =>
                 " -f " ++ dq ++ path_join (compose_dir context) compose_file ++ dq)
              (compose_files context))
         (command ::
          match kw_service kw with Some service => [service] | None => [] end)) in
  print ("Running docker compose command " ++ dq ++ command ++ dq) ;;
  let compose_command := join " " compose_command_tokens in
  context_run compose_command
    {| kw_env := Some build_env; kw_service := None; kw_pty := kw_pty kw;
       kw_echo := kw_echo kw; kw_hide := kw_hide kw |}.

(** The [while True] loop polls once per step of [steps]. *)
Fixpoint _await_healthy_container (steps : nat) (context : settings)
  (container_id : string) : io unit :=
  match steps with
  | O => out_of_steps
  | S steps' =>
      result <- context_run
        ("docker inspect --format='{{.State.Health.Status}}' " ++ container_id)
        {| kw_env := None; kw_service := None; kw_pty := Some false;
           kw_echo := Some false; kw_hide := Some (VBool true) |} ;;
      if String.eqb (strip (stdout result)) "healthy" then ret tt
      else
        print ("Waiting for `" ++ container_id ++ "` container to become healthy ...") ;;
        sleep 1 ;;
        _await_healthy_container steps' context container_id
  end.

Definition _await_healthy_service (steps : nat) (context : settings)
  (service : string) : io unit :=
  r <- docker_compose context ("ps -q -- " ++ service)
         {| kw_env := None; kw_service := None; kw_pty := Some false;
            kw_echo := Some false; kw_hide := Some (VBool true) |} ;;
  let container_id := strip (stdout r) in
  _await_healthy_container steps context container_id.

Definition run_command (context : settings) (command : string) (kw : kwargs)
  : io unit :=
  is_local <- lift (is_truthy (local context)) ;;
  if is_local then
    context_run command kw ;; ret tt
  else
    let docker_compose_status := "ps --services --filter status=running" in
    results <- docker_compose context docker_compose_status
                 {| kw_env := None; kw_service := None; kw_pty := None;
                    kw_echo := None; kw_hide := Some (VStr "out") |} ;;
    let compose_command :=
      if contains "nautobot" (stdout results)
      then "exec nautobot " ++ command
      else "run --rm --entrypoint '" ++ command ++ "' nautobot" in
    let pty := match kw_pty kw with Some p => p | None => true end in
    docker_compose context compose_command
      {| kw_env := kw_env kw; kw_service := kw_service kw; kw_pty := Some pty;
         kw_echo := kw_echo kw; kw_hide := kw_hide kw |} ;;
    ret tt.

(** ** Start / stop *)

Definition start (context : settings) (service : string) : io unit :=
  print "Starting Nautobot in detached mode..." ;;
  docker_compose context "up --detach"
    {| kw_env := None; kw_service := Some service; kw_pty := None;
       kw_echo := None; kw_hide := None |} ;;
  ret tt.

Definition destroy (steps : nat) (context : settings) (volumes : bool)
  (import_db_file : string) : io unit :=
  print "Destroying Nautobot..." ;;
  docker_compose context
    ("down --remove-orphans " ++ (if volumes then "--volumes" else ""))
    no_kwargs ;;
  if negb (truthy import_db_file) then ret tt
  else if negb volumes then
    raise (ValueError
      "Cannot specify `--no-volumes` and `--import-db-file` arguments at the same time.")
  else
    print ("Importing database file: " ++ import_db_file ++ "...") ;;
    w <- ask ;;
    let input_path := absolute w import_db_file in
    if negb (is_file w input_path) then
      raise (ValueError ("File not found: " ++ input_path))
    else
      let command :=
        [ "run"; "--rm"; "--detach";
          "--volume='" ++ input_path ++ ":/docker-entrypoint-initdb.d/dump.sql'";
          "--"; "db" ] in
      r <- docker_compose context (join " " command)
             {| kw_env := None; kw_service := None; kw_pty := Some false;
                kw_echo := Some false; kw_hide := Some (VBool true) |} ;;
      let container_id := strip (stdout r) in
      _await_healthy_container steps context container_id ;;
      print "Stopping database container..." ;;
      context_run ("docker stop " ++ container_id)
        {| kw_env := None; kw_service := None; kw_pty := Some false;
           kw_echo := Some false; kw_hide := Some (VBool true) |} ;;
      print "Database import complete, you can start Nautobot with the following command:" ;;
      print "invoke start".

(** ** Database tasks *)

Definition dbshell (context : settings)
  (db_name input_file output_file query : string) : io unit :=
  if truthy input_file && truthy query then
    raise (ValueError "Cannot specify both, `input_file` and `query` arguments")
  else if truthy output_file && negb (truthy input_file || truthy query) then
    raise (ValueError "`output_file` argument requires `input_file` or `query` argument")
  else
    let env := if truthy query then dict_set "_SQL_QUERY" query [] else [] in
    let command :=
      [ "exec";
        if truthy query then "--env=_SQL_QUERY" else "";
        "-- db sh -c '" ] in
    command <-
      (if _is_compose_included context "mysql" then
         ret (List.app command
                [ "mysql";
                  "--user=$MYSQL_USER";
                  "--password=$MYSQL_PASSWORD";
                  "--database=" ++ or_else db_name "$MYSQL_DATABASE" ])
       else if _is_compose_included context "postgres" then
         ret (List.app command
                [ "psql";
                  "--username=$POSTGRES_USER";
                  "--dbname=" ++ or_else db_name "$POSTGRES_DB" ])
       else raise (ValueError "Unsupported database backend.")) ;;
    let command :=
      List.app command
        [ "'";
          if truthy query then "<<<" ++ dq ++ "$_SQL_QUERY" ++ dq else "";
          if truthy input_file then "< '" ++ input_file ++ "'" else "";
          if truthy output_file then "> '" ++ output_file ++ "'" else "" ] in
    docker_compose context (join " " command)
      {| kw_env := Some env; kw_service := None;
         kw_pty := Some (negb (truthy input_file || truthy output_file || truthy query));
         kw_echo := None; kw_hide := None |} ;;
    ret tt.

Definition import_db (steps : nat) (context : settings)
  (db_name input_file : string) : io unit :=
  docker_compose context "stop -- nautobot worker beat" no_kwargs ;;
  start context "db" ;;
  _await_healthy_service steps context "db" ;;
  let command := [ "exec -- db sh -c '" ] in
  command <-
    (if _is_compose_included context "mysql" then
       let db_name := if negb (truthy db_name) then "$MYSQL_DATABASE" else db_name in
       ret (List.app command
              [ "mysql --user root --password=$MYSQL_ROOT_PASSWORD";
                "--execute=" ++ dq;
                "DROP DATABASE IF EXISTS " ++ db_name ++ ";";
                "CREATE DATABASE " ++ db_name ++ ";";
                if String.eqb db_name "$MYSQL_DATABASE" then ""
                else "GRANT ALL PRIVILEGES ON " ++ db_name
                       ++ ".* TO $MYSQL_USER; FLUSH PRIVILEGES;";
                dq;
                "&&";
                "mysql";
                "--database=" ++ db_name;
                "--user=$MYSQL_USER";
                "--password=$MYSQL_PASSWORD" ])
     else if _is_compose_included context "postgres" then
       let db_name := if negb (truthy db_name) then "$POSTGRES_DB" else db_name in
       ret (List.app command
              [ "dropdb --if-exists --user=$POSTGRES_USER " ++ db_name ++ " &&";
                "createdb --user=$POSTGRES_USER " ++ db_name ++ " &&";
                "psql --user=$POSTGRES_USER --dbname=" ++ db_name ])
     else raise (ValueError "Unsupported database backend.")) ;;
  let command := List.app command [ "'"; "< '" ++ input_file ++ "'" ] in
  docker_compose context (join " " command)
    {| kw_env := None; kw_service := None; kw_pty := Some false;
       kw_echo := None; kw_hide := None |} ;;
  print "Database import complete, you can start Nautobot now: `invoke start`".

(** [n * s] *)
Fixpoint repeat_str (n : nat) (s : string) : string :=
  match n with
  | O => EmptyString
  | S n' => s ++ repeat_str n' s
  end.

Definition backup_db (steps : nat) (context : settings)
  (db_name output_file : string) (readable : bool) : io unit :=
  start context "db" ;;
  _await_healthy_service steps context "db" ;;
  let command := [ "exec -- db sh -c '" ] in
  command <-
    (if _is_compose_included context "mysql" then
       ret (List.app command
              [ "mysqldump";
                "--user=root";
                "--password=$MYSQL_ROOT_PASSWORD";
                if readable then "--skip-extended-insert" else "";
                if truthy db_name then db_name else "$MYSQL_DATABASE" ])
     else if _is_compose_included context "postgres" then
       ret (List.app command
              [ "pg_dump";
                "--username=$POSTGRES_USER";
                "--dbname=" ++ or_else db_name "$POSTGRES_DB";
                if readable then "--inserts" else "" ])
     else raise (ValueError "Unsupported database backend.")) ;;
  let command := List.app command [ "'"; "> '" ++ output_file ++ "'" ] in
  docker_compose context (join " " command)
    {| kw_env := None; kw_service := None; kw_pty := Some false;
       kw_echo := None; kw_hide := None |} ;;
  print (repeat_str 50 "=") ;;
  print "The database backup has been successfully completed and saved to the following file:" ;;
  print output_file ;;
  print "You can import this database backup with the following command:" ;;
  print ("invoke import-db --input-file '" ++ output_file ++ "'") ;;
  print (repeat_str 50 "=").

(** ** Docs *)

Definition docs (context : settings) : io unit :=
  let command := "mkdocs serve -v" in
  is_local <- lift (is_truthy (local context)) ;;
  if is_local then
    print ">>> Serving Documentation at http://localhost:8001" ;;
    run_command context command no_kwargs
  else
    start context "docs".

(** ** The remaining tasks

    Every task of [tasks.py] but [help] (which inspects the task collection
    itself).  A task returns [None]; the decorator [task] only registers it. *)

Definition service_kwargs (service : string) : kwargs :=
  {| kw_env := None; kw_service := Some service; kw_pty := None;
     kw_echo := None; kw_hide := None |}.

Definition pty_kwargs (pty : bool) : kwargs :=
  {| kw_env := None; kw_service := None; kw_pty := Some pty;
     kw_echo := None; kw_hide := None |}.

Definition build (context : settings) (force_rm cache : bool) : io unit :=
  let command := "build" in
  let command := if negb cache then command ++ " --no-cache" else command in
  let command := if force_rm then command ++ " --force-rm" else command in
  print ("Building Nautobot with Python " ++ python_ver context ++ "...") ;;
  docker_compose context command no_kwargs ;;
  ret tt.

Definition generate_packages (context : settings) : io unit :=
  let command := "poetry build" in
  run_command context command no_kwargs.

Definition lock (context : settings) (check : bool) : io unit :=
  run_command context
    ("poetry " ++ (if check then "check" else "lock --no-update")) no_kwargs.

Definition debug (context : settings) (service : string) : io unit :=
  print ("Starting " ++ service ++ " in debug mode...") ;;
  docker_compose context "up" (service_kwargs service) ;;
  ret tt.

Definition restart (context : settings) (service : string) : io unit :=
  print "Restarting Nautobot..." ;;
  docker_compose context "restart" (service_kwargs service) ;;
  ret tt.

Definition stop (context : settings) (service : string) : io unit :=
  print "Stopping Nautobot..." ;;
  docker_compose context
    (if truthy service then "stop" else "down --remove-orphans")
    (service_kwargs service) ;;
  ret tt.

Definition export (context : settings) : io unit :=
  docker_compose context "convert > compose.yaml" no_kwargs ;;
  ret tt.

Definition ps_task (context : settings) (all : bool) : io unit :=
  docker_compose context ("ps " ++ (if all then "--all" else "")) no_kwargs ;;
  ret tt.

Definition vscode (context : settings) : io unit :=
  let command := "code nautobot.code-workspace" in
  context_run command no_kwargs ;;
  ret tt.

(** [tail] is an integer; [if tail:] holds for every value but 0. *)
Definition logs (context : settings) (service : string) (follow : bool)
  (tail : Z) : io unit :=
  let command := "logs " in
  let command := if follow then command ++ "--follow " else command in
  let command :=
    if negb (tail =? 0)%Z then command ++ "--tail=" ++ str (VInt tail) ++ " "
    else command in
  docker_compose context command (service_kwargs service) ;;
  ret tt.

Definition nbshell (context : settings) (file : string) : io unit :=
  let command :=
    [ "nautobot-server";
      "nbshell";
      if truthy file then "< '" ++ file ++ "'" else "" ] in
  run_command context (join " " command) (pty_kwargs (negb (truthy file))).

Definition shell_plus (context : settings) : io unit :=
  let command := "nautobot-server shell_plus" in
  run_command context command no_kwargs.

Definition cli (context : settings) : io unit :=
  run_command context "bash" no_kwargs.

Definition createsuperuser (context : settings) (user : string) : io unit :=
  let command := "nautobot-server createsuperuser --username " ++ user in
  run_command context command no_kwargs.

Definition makemigrations (context : settings) (name : string) : io unit :=
  let command := "nautobot-server makemigrations nautobot_ssot" in
  let command := if truthy name then command ++ " --name " ++ name else command in
  run_command context command no_kwargs.

Definition migrate (context : settings) : io unit :=
  let command := "nautobot-server migrate" in
  run_command context command no_kwargs.

Definition post_upgrade (context : settings) : io unit :=
  let command := "nautobot-server post_upgrade" in
  run_command context command no_kwargs.

Definition exec (context : settings) (service command file : string) : io unit :=
  let command :=
    [ "exec";
      "--";
      service;
      command;
      if truthy file then "< '" ++ file ++ "'" else "" ] in
  docker_compose context (join " " command) (pty_kwargs (negb (truthy file))) ;;
  ret tt.

Definition build_and_check_docs (context : settings) : io unit :=
  let command := "mkdocs build --no-directory-urls --strict" in
  run_command context command no_kwargs.

Definition generate_release_notes (context : settings) (version : string)
  : io unit :=
  let command :=
    "env DJANGO_SETTINGS_MODULE=nautobot.core.settings towncrier build" in
  let command :=
    if truthy version then command ++ " --version " ++ version else command in
  run_command context command no_kwargs.

(** ** Tests *)

Definition black (context : settings) (autoformat : bool) : io unit :=
  let black_command := if autoformat then "black" else "black --check --diff" in
  let command := black_command ++ " ." in
  run_command context command no_kwargs.

Definition flake8 (context : settings) : io unit :=
  let command := "flake8 . --config .flake8" in
  run_command context command no_kwargs.

Definition hadolint (context : settings) : io unit :=
  let command := "hadolint development/Dockerfile" in
  run_command context command no_kwargs.

Definition pylint (context : settings) : io unit :=
  let command :=
    "pylint --init-hook " ++ dq ++ "import nautobot; nautobot.setup()" ++ dq
      ++ " --rcfile pyproject.toml nautobot_ssot" in
  run_command context command no_kwargs.

(** [fix] is a keyword here: the argument is [fix_]. *)
Definition ruff (context : settings) (action : string) (fix_ : bool)
  (output_format : string) : io unit :=
  (if negb (String.eqb action "lint") then
     let command := "ruff format" in
     let command := if negb fix_ then command ++ " --check" else command in
     let command := command ++ " ." in
     run_command context command no_kwargs
   else ret tt) ;;
  (if negb (String.eqb action "format") then
     let command := "ruff check" in
     let command := if fix_ then command ++ " --fix" else command in
     let command := command ++ " --output-format " ++ output_format ++ " ." in
     run_command context command no_kwargs
   else ret tt).

Definition autoformat (context : settings) : io unit :=
  black context true ;;
  ruff context "both" true "text".

Definition bandit (context : settings) : io unit :=
  let command := "bandit --recursive . --configfile .bandit.yml" in
  run_command context command no_kwargs.

Definition yamllint (context : settings) : io unit :=
  let command := "yamllint . --format standard" in
  run_command context command no_kwargs.

Definition check_migrations (context : settings) : io unit :=
  let command := "nautobot-server makemigrations --dry-run --check" in
  run_command context command no_kwargs.

Definition unittest (context : settings) (keepdb : bool) (label : string)
  (failfast buffer : bool) (pattern : string) (verbose : bool) : io unit :=
  let command := "coverage run --module nautobot.core.cli test " ++ label in
  let command := if keepdb then command ++ " --keepdb" else command in
  let command := if failfast then command ++ " --failfast" else command in
  let command := if buffer then command ++ " --buffer" else command in
  let command :=
    if truthy pattern then command ++ " -k='" ++ pattern ++ "'" else command in
  let command := if verbose then command ++ " --verbosity 2" else command in
  run_command context command no_kwargs.

Definition unittest_coverage (context : settings) : io unit :=
  let command :=
    "coverage report --skip-covered --include 'nautobot_ssot/*' --omit *migrations*" in
  run_command context command no_kwargs.

Definition tests (context : settings) (failfast keepdb lint_only : bool)
  : io unit :=
  is_local <- lift (is_truthy (local context)) ;;
  (if negb is_local then
     print "Starting Docker Containers..." ;;
     start context ""
   else ret tt) ;;
  print "Running black..." ;;
  black context false ;;
  print "Running ruff..." ;;
  ruff context "lint" false "text" ;;
  print "Running flake8..." ;;
  flake8 context ;;
  print "Running bandit..." ;;
  bandit context ;;
  print "Running yamllint..." ;;
  yamllint context ;;
  print "Running poetry check..." ;;
  lock context true ;;
  print "Running migrations check..." ;;
  check_migrations context ;;
  print "Running pylint..." ;;
  pylint context ;;
  print "Running mkdocs..." ;;
  build_and_check_docs context ;;
  (if negb lint_only then
     print "Running unit tests..." ;;
     unittest context keepdb "nautobot_ssot" failfast true "" false ;;
     unittest_coverage context
   else ret tt) ;;
  print "All tests have passed!".

(** ** Migration 0003

    The migration file is a list of [AlterField] operations.  The host
    framework's migration runner gives them their meaning: on the project
    state an [AlterField] looks the model up under its lower-cased name
    (a missing model is a [KeyError]) and stores the new field definition
    under the field's name.  The state below is the one of the migration's
    own app, [nautobot_ssot]. *)

Module Migration0003.

Inductive field_kind : Type := CharField | TextField.

(** A field definition; [default := None] is "no default provided". *)
Record field : Type := {
  kind : field_kind;
  max_length : option Z;
  null : bool;
  blank : bool;
  default : option string;
  editable : bool
}.

(** [models.TextField(blank=..., default=..., editable=...)]; the other
    options keep the framework's defaults. *)
Definition models_TextField (blank : bool) (default : option string)
  (editable : bool) : field :=
  {| kind := TextField; max_length := None; null := false;
     blank := blank; default := default; editable := editable |}.

Inductive operation : Type :=
| AlterField (model_name name : string) (f : field).

Record migration : Type := {
  dependencies : list (string * string);
  operations : list operation
}.

Definition Migration : migration :=
  {| dependencies := [ ("nautobot_ssot", "0002_performance_metrics") ];
     operations :=
       [ AlterField "synclogentry" "message"
           (models_TextField true None true);
         AlterField "synclogentry" "object_repr"
           (models_TextField true (Some "") false) ] |}.

(** Model name -> field name -> definition. *)
Definition app_state : Type := dict (dict field).

Definition state_forwards (op : operation) (st : app_state)
  : result app_state :=
  match op with
  | AlterField model_name name f =>
      let key := lower model_name in
      match dict_get key st with
      | None => Raise (KeyError key)
      | Some fields => Ret (dict_set key (dict_set name f fields) st)
      end
  end.

Fixpoint apply_operations (ops : list operation) (st : app_state)
  : result app_state :=
  match ops with
  | [] => Ret st
  | op :: rest =>
      match state_forwards op st with
      | Ret st' => apply_operations rest st'
      | Raise e => Raise e
      | Running => Running
      end
  end.

Definition apply (m : migration) (st : app_state) : result app_state :=
  apply_operations (operations m) st.

(** The field [model.name] of a state. *)
Definition get_field (st : app_state) (model name : string) : option field :=
  match dict_get model st with
  | None => None
  | Some fields => dict_get name fields
  end.

(** The value a new row gets when none is given: the declared default,
    else [None] for a nullable field, else the empty string (both kinds
    here are string-valued).  [None] stands for Python's [None]. *)
Definition get_default (f : field) : option string :=
  match default f with
  | Some d => Some d
  | None => if null f then None else Some ""
  end.

End Migration0003.

(** ** The app descriptor *)

Module AppConfig.

Inductive setting : Type :=
| SStr (s : string)
| SBool (b : bool)
| SInt (z : Z)
| SList (items : list string)
| SDict (entries : dict string).

(** The class attributes of an app configuration object. *)
Record app_config : Type := {
  name : string;
  verbose_name : string;
  version : string;
  author : string;
  description : string;
  base_url : string;
  required_settings : list string;
  min_version : string;
  max_version : string;
  default_settings : dict setting;
  caching_config : dict setting
}.

(** [__version__] is [metadata.version(__name__)]. *)
Definition NautobotSSOTAppConfig (__version__ : string) : app_config :=
  {| name := "nautobot_ssot";
     verbose_name := "Single Source of Truth";
     version := __version__;
     author := "Network to Code, LLC";
     description := "Nautobot app that enables Single Source of Truth.  Allows users to aggregate distributed data sources and/or distribute Nautobot data to other data sources such as databases and SDN controllers.";
     base_url := "ssot";
     required_settings := [];
     min_version := "2.0.0";
     max_version := "2.9999";
     default_settings :=
       [ ("aci_apics", SList []);
         ("aci_tag", SStr "");
         ("aci_tag_color", SStr "");
         ("aci_tag_up", SStr "");
         ("aci_tag_up_color", SStr "");
         ("aci_tag_down", SStr "");
         ("aci_tag_down_color", SStr "");
         ("aci_manufacturer_name", SStr "");
         ("aci_ignore_tenants", SList []);
         ("aci_comments", SStr "");
         ("aci_site", SStr "");
         ("aristacv_apply_import_tag", SBool false);
         ("aristacv_controller_site", SStr "");
         ("aristacv_create_controller", SBool false);
         ("aristacv_cvaas_url", SStr "www.arista.io:443");
         ("aristacv_cvp_host", SStr "");
         ("aristacv_cvp_password", SStr "");
         ("aristacv_cvp_port", SStr "443");
         ("aristacv_cvp_token", SStr "");
         ("aristacv_cvp_user", SStr "");
         ("aristacv_delete_devices_on_sync", SBool false);
         ("aristacv_from_cloudvision_default_device_role", SStr "");
         ("aristacv_from_cloudvision_default_device_role_color", SStr "");
         ("aristacv_from_cloudvision_default_site", SStr "");
         ("aristacv_hostname_patterns", SList []);
         ("aristacv_import_active", SBool false);
         ("aristacv_role_mappings", SDict []);
         ("aristacv_site_mappings", SDict []);
         ("aristacv_verify", SBool true);
         ("device42_host", SStr "");
         ("device42_username", SStr "");
         ("device42_password", SStr "");
         ("device42_defaults", SDict []);
         ("device42_delete_on_sync", SBool false);
         ("device42_use_dns", SBool true);
         ("device42_customer_is_facility", SBool true);
         ("device42_facility_prepend", SStr "");
         ("device42_role_prepend", SStr "");
         ("device42_ignore_tag", SStr "");
         ("device42_hostname_mapping", SList []);
         ("enable_aci", SBool false);
         ("enable_aristacv", SBool false);
         ("enable_device42", SBool false);
         ("enable_infoblox", SBool false);
         ("enable_ipfabric", SBool false);
         ("enable_servicenow", SBool false);
         ("hide_example_jobs", SBool true);
         ("infoblox_default_status", SStr "");
         ("infoblox_enable_rfc1918_network_containers", SBool false);
         ("infoblox_enable_sync_to_infoblox", SBool false);
         ("infoblox_import_objects_ip_addresses", SBool false);
         ("infoblox_import_objects_subnets", SBool false);
         ("infoblox_import_objects_vlan_views", SBool false);
         ("infoblox_import_objects_vlans", SBool false);
         ("infoblox_import_subnets", SList []);
         ("infoblox_password", SStr "");
         ("infoblox_url", SStr "");
         ("infoblox_username", SStr "");
         ("infoblox_verify_ssl", SBool true);
         ("infoblox_wapi_version", SStr "");
         ("ipfabric_api_token", SStr "");
         ("ipfabric_host", SStr "");
         ("ipfabric_ssl_verify", SBool true);
         ("ipfabric_timeout", SInt 15);
         ("ipfabric_nautobot_host", SStr "");
         ("servicenow_instance", SStr "");
         ("servicenow_password", SStr "");
         ("servicenow_username", SStr "") ];
     caching_config := [] |}.

Section Ready.

(** The host platform: its own state, and the base class's [ready]
    method acting on the instance and on that state. *)
Variable Host : Type.
Variable NautobotAppConfig_ready
  : app_config * Host -> result value * (app_config * Host).

(** [def ready(self): super().ready()]: the call's value is dropped and
    the method returns [None]; an exception of the call propagates. *)
Definition ready (self_and_host : app_config * Host)
  : result value * (app_config * Host) :=
  match NautobotAppConfig_ready self_and_host with
  | (Ret _, after) => (Ret VNone, after)
  | (Raise e, after) => (Raise e, after)
  | (Running, after) => (Running, after)
  end.

End Ready.

End AppConfig.

(** ** Vocabulary of the statements *)

(** List append, apart from [++] on strings. *)
Notation "xs +++ ys" := (List.app xs ys)
  (at level 60, right associativity).

(** The command line [docker_compose] builds for [command], with the
    optional trailing [service]. *)
Definition compose_command_line (context : settings) (command : string)
  (service : option string) : string :=
  join " "
    (List.app
       [ "docker compose";
         "--project-name " ++ project_name context;
         "--project-directory " ++ dq ++ compose_dir context ++ dq ]
       (List.app
          (map (fun compose_file =>
                  " -f " ++ dq ++ path_join (compose_dir context) compose_file ++ dq)
               (compose_files context))
          (command :: match service with Some s => [s] | None => [] end))).

(** The steps [import_db] takes before it selects the backend. *)
Definition import_db_prelude (steps : nat) (context : settings) : io unit :=
  docker_compose context "stop -- nautobot worker beat" no_kwargs ;;
  start context "db" ;;
  _await_healthy_service steps context "db".

(** The steps [backup_db] takes before it selects the backend. *)
Definition backup_db_prelude (steps : nat) (context : settings) : io unit :=
  start context "db" ;;
  _await_healthy_service steps context "db".

(** A world in which every command exits with status 0, the health check
    answers [healthy] at once, and every path names a file under [/work]. *)
Definition calm_world : world :=
  {| respond := fun _ i =>
       {| exited := 0;
          stdout := if String.prefix "docker inspect" (inv_command i)
                    then "healthy" else "c0ffee" |};
     absolute := fun p => path_join "/work" p;
     is_file := fun _ => true |}.

(** The shipped configuration, and variants of its [compose_files]. *)
Definition shipped : settings := namespace_defaults "/repo".

Definition with_compose_files (files : list string) : settings :=
  {| nautobot_ver := nautobot_ver shipped;
     project_name := project_name shipped;
     python_ver := python_ver shipped;
     local := local shipped;
     compose_dir := compose_dir shipped;
     compose_files := files;
     compose_http_timeout := compose_http_timeout shipped |}.

Definition with_local (v : value) : settings :=
  {| nautobot_ver := nautobot_ver shipped;
     project_name := project_name shipped;
     python_ver := python_ver shipped;
     local := v;
     compose_dir := compose_dir shipped;
     compose_files := compose_files shipped;
     compose_http_timeout := compose_http_timeout shipped |}.

(** A computation that never raises [ValueError]. *)
Definition never_value_error {A} (m : io A) : Prop :=
  forall w tr msg, fst (m w tr) <> Raise (ValueError msg).

(** A computation that runs no command. *)
Definition silent {A} (m : io A) : Prop :=
  forall w tr, commands (snd (m w tr)) = commands tr.

(** A computation that only adds to the trace. *)
Definition grows {A} (m : io A) : Prop :=
  forall w tr, exists ext, snd (m w tr) = tr +++ ext.

(** [dbshell] reaches its backend selection when its arguments pass the
    two guards before it. *)
Definition dbshell_arguments_ok (input_file output_file query : string) : Prop :=
  (input_file = "" \/ query = "")
  /\ (output_file = "" \/ input_file <> "" \/ query <> "").

(** The backend-independent tokens around the database client:
    in [dbshell] ... *)
Definition dbshell_head (query : string) : list string :=
  [ "exec"; if truthy query then "--env=_SQL_QUERY" else ""; "-- db sh -c '" ].

Definition dbshell_tail (input_file output_file query : string) : list string :=
  [ "'";
    if truthy query then "<<<" ++ dq ++ "$_SQL_QUERY" ++ dq else "";
    if truthy input_file then "< '" ++ input_file ++ "'" else "";
    if truthy output_file then "> '" ++ output_file ++ "'" else "" ].

(** ... and in [import_db] and [backup_db]. *)
Definition dump_head : list string := [ "exec -- db sh -c '" ].

Definition import_tail (input_file : string) : list string :=
  [ "'"; "< '" ++ input_file ++ "'" ].

Definition backup_tail (output_file : string) : list string :=
  [ "'"; "> '" ++ output_file ++ "'" ].

(** The two backends, and the client tokens each task puts between the
    head and the tail of its command. *)
Inductive dialect : Type := MySQL | PostgreSQL.

Definition dbshell_client (d : dialect) (db_name : string) : list string :=
  match d with
  | MySQL =>
      [ "mysql";
        "--user=$MYSQL_USER";
        "--password=$MYSQL_PASSWORD";
        "--database=" ++ or_else db_name "$MYSQL_DATABASE" ]
  | PostgreSQL =>
      [ "psql";
        "--username=$POSTGRES_USER";
        "--dbname=" ++ or_else db_name "$POSTGRES_DB" ]
  end.

Definition import_client (d : dialect) (db_name : string) : list string :=
  match d with
  | MySQL =>
      let db := or_else db_name "$MYSQL_DATABASE" in
      [ "mysql --user root --password=$MYSQL_ROOT_PASSWORD";
        "--execute=" ++ dq;
        "DROP DATABASE IF EXISTS " ++ db ++ ";";
        "CREATE DATABASE " ++ db ++ ";";
        if String.eqb db "$MYSQL_DATABASE" then ""
        else "GRANT ALL PRIVILEGES ON " ++ db
               ++ ".* TO $MYSQL_USER; FLUSH PRIVILEGES;";
        dq;
        "&&";
        "mysql";
        "--database=" ++ db;
        "--user=$MYSQL_USER";
        "--password=$MYSQL_PASSWORD" ]
  | PostgreSQL =>
      let db := or_else db_name "$POSTGRES_DB" in
      [ "dropdb --if-exists --user=$POSTGRES_USER " ++ db ++ " &&";
        "createdb --user=$POSTGRES_USER " ++ db ++ " &&";
        "psql --user=$POSTGRES_USER --dbname=" ++ db ]
  end.

Definition backup_client (d : dialect) (db_name : string) (readable : bool)
  : list string :=
  match d with
  | MySQL =>
      [ "mysqldump";
        "--user=root";
        "--password=$MYSQL_ROOT_PASSWORD";
        if readable then "--skip-extended-insert" else "";
        or_else db_name "$MYSQL_DATABASE" ]
  | PostgreSQL =>
      [ "pg_dump";
        "--username=$POSTGRES_USER";
        "--dbname=" ++ or_else db_name "$POSTGRES_DB";
        if readable then "--inserts" else "" ]
  end.

(** The field definitions migration 0003 declares. *)
Definition message_field : Migration0003.field :=
  Migration0003.models_TextField true None true.

Definition object_repr_field : Migration0003.field :=
  Migration0003.models_TextField true (Some "") false.

(** A state before the migration: both columns are bounded [CharField]s. *)
Definition state_0002 : Migration0003.app_state :=
  [ ("sync", []);
    ("synclogentry",
      [ ("message",
          {| Migration0003.kind := Migration0003.CharField;
             Migration0003.max_length := Some 511%Z;
             Migration0003.null := false;
             Migration0003.blank := true;
             Migration0003.default := None;
             Migration0003.editable := true |});
        ("object_repr",
          {| Migration0003.kind := Migration0003.CharField;
             Migration0003.max_length := Some 200%Z;
             Migration0003.null := false;
             Migration0003.blank := true;
             Migration0003.default := Some "";
             Migration0003.editable := false |}) ]) ].

(** A state that already matches the migration's target. *)
Definition state_0003 : Migration0003.app_state :=
  [ ("sync", []);
    ("synclogentry",
      [ ("message", message_field); ("object_repr", object_repr_field) ]) ].

(** ** Vocabulary for the other tasks *)

(** A string with a whitespace character somewhere. *)
Definition has_space (s : string) : bool :=
  existsb is_space (list_ascii_of_string s).

(** The invocations handed to [context.run], the lines printed and the
    sleeps, each in order. *)
Fixpoint invocations (tr : list event) : list invocation :=
  match tr with
  | [] => []
  | Run i :: rest => i :: invocations rest
  | _ :: rest => invocations rest
  end.

Fixpoint printed (tr : list event) : list string :=
  match tr with
  | [] => []
  | Print line :: rest => line :: printed rest
  | _ :: rest => printed rest
  end.

Fixpoint sleeps (tr : list event) : list Z :=
  match tr with
  | [] => []
  | Sleep n :: rest => n :: sleeps rest
  | _ :: rest => sleeps rest
  end.

(** One health poll of [_await_healthy_container], and one round of the
    loop that found the container not yet healthy. *)
Definition inspect_invocation (container_id : string) : invocation :=
  {| inv_command :=
       "docker inspect --format='{{.State.Health.Status}}' " ++ container_id;
     inv_kwargs :=
       {| kw_env := None; kw_service := None; kw_pty := Some false;
          kw_echo := Some false; kw_hide := Some (VBool true) |} |}.

Definition poll_round (container_id : string) : list event :=
  [ Run (inspect_invocation container_id);
    Print ("Waiting for `" ++ container_id ++ "` container to become healthy ...");
    Sleep 1 ].

Fixpoint rounds (k : nat) (container_id : string) : list event :=
  match k with
  | O => []
  | S k' => poll_round container_id +++ rounds k' container_id
  end.

(** Where [run_command] sends a command. *)
Definition local_mode (context : settings) : Prop :=
  is_truthy (local context) = Ret true.

Definition docker_mode (context : settings) : Prop :=
  is_truthy (local context) = Ret false.

(** A world in which every command exits with status 0. *)
Definition obliging (w : world) : Prop :=
  forall tr i, exited (respond w tr i) = 0%Z.

(** The commands [tests] asks for, in its order. *)
Definition lint_commands : list string :=
  [ "black --check --diff .";
    "ruff check --output-format text .";
    "flake8 . --config .flake8";
    "bandit --recursive . --configfile .bandit.yml";
    "yamllint . --format standard";
    "poetry check";
    "nautobot-server makemigrations --dry-run --check";
    "pylint --init-hook " ++ dq ++ "import nautobot; nautobot.setup()" ++ dq
      ++ " --rcfile pyproject.toml nautobot_ssot";
    "mkdocs build --no-directory-urls --strict" ].

Definition unit_test_commands (failfast keepdb : bool) : list string :=
  [ "coverage run --module nautobot.core.cli test nautobot_ssot"
      ++ (if keepdb then " --keepdb" else "")
      ++ (if failfast then " --failfast" else "")
      ++ " --buffer";
    "coverage report --skip-covered --include 'nautobot_ssot/*' --omit *migrations*" ].

Definition tests_commands (failfast keepdb lint_only : bool) : list string :=
  lint_commands +++ (if lint_only then [] else unit_test_commands failfast keepdb).

(** A local configuration, and a world in which a given command fails. *)
Definition local_settings : settings := with_local (VStr "true").

Definition failing_world (command : string) : world :=
  {| respond := fun _ i =>
       {| exited := if String.eqb (inv_command i) command then 1 else 0;
          stdout := "" |};
     absolute := fun p => path_join "/work" p;
     is_file := fun _ => false |}.

(** A world in which the container is healthy at the [n]-th poll (from 0):
    the answer depends on how many polls the trace already holds. *)
Definition slow_world (n : nat) : world :=
  {| respond := fun tr i =>
       {| exited := 0;
          stdout :=
            if String.prefix "docker inspect" (inv_command i)
            then if Nat.leb n (List.length (sleeps tr)) then "healthy" else "starting"
            else "c0ffee" |};
     absolute := fun p => path_join "/work" p;
     is_file := fun _ => true |}.

(** The invocation [docker_compose] hands to [context.run]. *)
Definition default_env (context : settings) : dict string :=
  [ ("COMPOSE_HTTP_TIMEOUT", compose_http_timeout context);
    ("NAUTOBOT_VER", nautobot_ver context);
    ("PYTHON_VER", python_ver context) ].

Definition caller_env (kw : kwargs) : dict string :=
  match kw_env kw with Some e => e | None => [] end.

Definition compose_invocation (context : settings) (command : string)
  (kw : kwargs) : invocation :=
  {| inv_command := compose_command_line context command (kw_service kw);
     inv_kwargs :=
       {| kw_env := Some (dict_update (default_env context) (caller_env kw));
          kw_service := None; kw_pty := kw_pty kw;
          kw_echo := kw_echo kw; kw_hide := kw_hide kw |} |}.

(** The line [docker_compose] prints before it runs [command]. *)
Definition compose_notice (command : string) : string :=
  "Running docker compose command " ++ dq ++ command ++ dq.

(** The status query of [run_command], and what it asks for next. *)
Definition status_kwargs : kwargs :=
  {| kw_env := None; kw_service := None; kw_pty := None;
     kw_echo := None; kw_hide := Some (VStr "out") |}.

Definition status_command : string := "ps --services --filter status=running".

Definition in_container (command services : string) : string :=
  if contains "nautobot" services
  then "exec nautobot " ++ command
  else "run --rm --entrypoint '" ++ command ++ "' nautobot".

(** The exit statuses the world gives to the commands of [ext], issued one
    after the other from the trace [tr] on. *)
Fixpoint exits (w : world) (tr ext : list event) : list Z :=
  match ext with
  | [] => []
  | Run i :: rest => exited (respond w tr i) :: exits w (tr +++ [Run i]) rest
  | e :: rest => exits w (tr +++ [e]) rest
  end.

(** A computation that runs the commands [cmds] one after the other and
    stops at the first that fails.  It only extends the trace.  When it
    returns, it has issued all of [cmds] and each of them exited with
    status 0.  When it raises, it has issued the first [n + 1] of them, the
    first [n] exited with status 0, the last one did not, and the exception
    is that command's failure.  It does not run out of steps. *)
Definition runs {A} (cmds : list string) (m : io A) : Prop :=
  forall w tr, exists ext,
    snd (m w tr) = tr +++ ext
    /\ match fst (m w tr) with
       | Ret _ =>
           commands ext = cmds
           /\ exits w tr ext = repeat 0%Z (List.length cmds)
       | Raise e =>
           exists n c z,
             nth_error cmds n = Some c
             /\ e = UnexpectedExit c
             /\ commands ext = firstn (S n) cmds
             /\ exits w tr ext = repeat 0%Z n +++ [z]
             /\ z <> 0%Z
       | Running => False
       end.

(** A computation that never prints [line]. *)
Definition mute {A} (line : string) (m : io A) : Prop :=
  forall w tr,
    ~ In line (printed tr) -> ~ In line (printed (snd (m w tr))).

(** A computation that prints [line] exactly when it returns. *)
Definition announces {A} (line : string) (m : io A) : Prop :=
  forall w tr,
    ~ In line (printed tr) ->
    (In line (printed (snd (m w tr))) <-> exists a, fst (m w tr) = Ret a).

(** A computation that always returns. *)
Definition returns {A} (m : io A) : Prop :=
  forall w tr, exists a, fst (m w tr) = Ret a.

(** The keyword arguments [run_command] passes on with the command it sends
    into a container: [pty] defaults to [True]. *)
Definition container_kwargs (kw : kwargs) : kwargs :=
  {| kw_env := kw_env kw; kw_service := kw_service kw;
     kw_pty := Some (match kw_pty kw with Some p => p | None => true end);
     kw_echo := kw_echo kw; kw_hide := kw_hide kw |}.

(** The keyword arguments of [dbshell]'s one command. *)
Definition dbshell_kwargs (input_file output_file query : string) : kwargs :=
  {| kw_env := Some (if truthy query then [("_SQL_QUERY", query)] else []);
     kw_service := None;
     kw_pty := Some (negb (truthy input_file || truthy output_file || truthy query));
     kw_echo := None; kw_hide := None |}.

(** Dropping the value a computation returns. *)
Definition discard {A} (x : result A * list event) : result unit * list event :=
  (match fst x with Ret _ => Ret tt | Raise e => Raise e | Running => Running end,
   snd x).

(** A line that is no notice of [docker_compose] and no notice of the
    health wait. *)
Definition plain (line : string) : Prop :=
  (forall command, line <> compose_notice command)
  /\ (forall container_id,
        line <> "Waiting for `" ++ container_id
                  ++ "` container to become healthy ...").

(** The command lines of [destroy]. *)
Definition down_command (volumes : bool) : string :=
  "down --remove-orphans " ++ (if volumes then "--volumes" else "").


Definition inspect_command (container_id : string) : string :=
  "docker inspect --format='{{.State.Health.Status}}' " ++ container_id.

(** [pty=False, echo=False, hide=True] *)
Definition hidden_kwargs : kwargs :=
  {| kw_env := None; kw_service := None; kw_pty := Some false;
     kw_echo := Some false; kw_hide := Some (VBool true) |}.

(** A world without files in which every command succeeds. *)
Definition empty_disk : world :=
  {| respond := fun _ _ => {| exited := 0; stdout := "c0ffee" |};
     absolute := fun p => path_join "/work" p;
     is_file := fun _ => false |}.

(** A command line that starts with [docker compose]. *)
Definition is_compose (command : string) : Prop :=
  String.prefix "docker compose" command = true.

(** A computation all of whose commands go through docker compose. *)
Definition through_compose {A} (m : io A) : Prop :=
  forall w tr,
    Forall is_compose (commands tr) ->
    Forall is_compose (commands (snd (m w tr))).

(** The string with the given bytes. *)
Definition of_codes (codes : list nat) : string :=
  fold_right (fun n s => String (ascii_of_nat n) s) EmptyString codes.

(** ** [is_truthy] *)

Lemma str_in_In (x : string) (xs : list string) :
  str_in x xs = true <-> In x xs.
Proof.
  unfold str_in. rewrite existsb_exists. split.
  - intros [y [Hin Heq]]. apply String.eqb_eq in Heq. now subst.
  - intros Hin. exists x. split; [assumption | apply String.eqb_refl].
Qed.

Lemma str_in_not_In (x : string) (xs : list string) :
  str_in x xs = false <-> ~ In x xs.
Proof.
  rewrite <- str_in_In. destruct (str_in x xs); split; congruence.
Qed.

Lemma truthy_nonempty (s : string) : truthy s = true <-> s <> "".
Proof. destruct s; simpl; split; congruence. Qed.

Lemma truthy_empty (s : string) : truthy s = false <-> s = "".
Proof. destruct s; simpl; split; congruence. Qed.

(** C1. For a string argument, [is_truthy] returns [True] exactly when the
    lower-cased string is one of y, yes, t, true, on, 1; returns [False]
    exactly when it is one of n, no, f, false, off, 0; and raises
    [ValueError] for every other string. *)
Theorem is_truthy_string (s : string) :
  (is_truthy (VStr s) = Ret true
     <-> In (lower s) ["y"; "yes"; "t"; "true"; "on"; "1"])
  /\ (is_truthy (VStr s) = Ret false
     <-> In (lower s) ["n"; "no"; "f"; "false"; "off"; "0"])
  /\ (is_truthy (VStr s) = Raise (ValueError ("Invalid truthy value: `" ++ s ++ "`"))
     <-> ~ In (lower s)
            ["y"; "yes"; "t"; "true"; "on"; "1";
             "n"; "no"; "f"; "false"; "off"; "0"]).
Proof.
  unfold is_truthy. cbn [str].
  destruct (str_in (lower s) ["y"; "yes"; "t"; "true"; "on"; "1"]) eqn:Ht;
    [ apply str_in_In in Ht | apply str_in_not_In in Ht ].
  - split; [ | split ]; (split; [ try congruence | ]); intros H.
    + reflexivity.
    + exfalso. cbn in Ht, H.
      repeat (destruct Ht as [Ht | Ht]; [ rewrite <- Ht in H; clear Ht | ]);
        intuition discriminate.
    + exfalso. apply H. cbn in Ht |- *. tauto.
  - destruct (str_in (lower s) ["n"; "no"; "f"; "false"; "off"; "0"]) eqn:Hf;
      [ apply str_in_In in Hf | apply str_in_not_In in Hf ];
      (split; [ | split ]); (split; [ try congruence | ]); intros H;
      try contradiction; try reflexivity.
    + exfalso. apply H. cbn in Hf |- *. tauto.
    + intros H'. cbn in Ht, Hf, H'. tauto.
Qed.

(** C8. [is_truthy] is not restricted to strings: a bool is returned
    unchanged, and any other value is first coerced with [str()] and then
    matched like that string; so [is_truthy(1)] is [True] and
    [is_truthy(0)] is [False]. *)
Theorem is_truthy_non_string :
  (forall v : value,
      match v with
      | VBool b => is_truthy v = Ret b
      | _ => is_truthy v = is_truthy (VStr (str v))
      end)
  /\ is_truthy (VInt 1) = Ret true
  /\ is_truthy (VInt 0) = Ret false.
Proof.
  split; [ | split; reflexivity ].
  intros [b | z | s | ]; reflexivity.
Qed.

Example is_truthy_examples :
  is_truthy (VStr "YES") = Ret true
  /\ is_truthy (VStr "Off") = Ret false
  /\ is_truthy (VStr "maybe") = Raise (ValueError "Invalid truthy value: `maybe`")
  /\ is_truthy (VStr "") = Raise (ValueError "Invalid truthy value: ``")
  /\ is_truthy (VInt 2) = Raise (ValueError "Invalid truthy value: `2`")
  /\ is_truthy VNone = Raise (ValueError "Invalid truthy value: `None`")
  /\ is_truthy (VBool false) = Ret false.
Proof. repeat split. Qed.

(** ** The effect monad *)

Lemma commands_app (a b : list event) :
  commands (a ++ b) = (commands a ++ commands b)%list.
Proof.
  induction a as [| e a IH]; [ reflexivity | ].
  destruct e; cbn; rewrite IH; reflexivity.
Qed.

Lemma nve_ret {A} (a : A) : never_value_error (ret a).
Proof. intros w tr msg; cbn; discriminate. Qed.

Lemma nve_out_of_steps {A} : never_value_error (@out_of_steps A).
Proof. intros w tr msg; cbn; discriminate. Qed.

Lemma nve_print (line : string) : never_value_error (print line).
Proof. intros w tr msg; cbn; discriminate. Qed.

Lemma nve_sleep (n : Z) : never_value_error (sleep n).
Proof. intros w tr msg; cbn; discriminate. Qed.

Lemma nve_context_run (command : string) (kw : kwargs) :
  never_value_error (context_run command kw).
Proof.
  intros w tr msg. unfold context_run.
  destruct (exited _ =? 0)%Z; cbn; discriminate.
Qed.

Lemma nve_bind {A B} (m : io A) (k : A -> io B) :
  never_value_error m -> (forall a, never_value_error (k a)) ->
  never_value_error (bind m k).
Proof.
  intros Hm Hk w tr msg. unfold bind.
  specialize (Hm w tr msg).
  destruct (m w tr) as [[a | e |] tr1]; cbn in *.
  - apply Hk.
  - intros Heq. apply Hm. inversion Heq. reflexivity.
  - discriminate.
Qed.

Create HintDb nve.

#[local] Hint Resolve nve_ret nve_out_of_steps nve_print nve_sleep
  nve_context_run : nve.

Ltac nve := repeat (apply nve_bind; [ | intros ? ]); auto with nve.

Lemma nve_docker_compose (context : settings) (command : string) (kw : kwargs) :
  never_value_error (docker_compose context command kw).
Proof. unfold docker_compose. nve. Qed.

#[local] Hint Resolve nve_docker_compose : nve.

Lemma nve_start (context : settings) (service : string) :
  never_value_error (start context service).
Proof. unfold start. nve. Qed.

Lemma nve_await_healthy_container (steps : nat) (context : settings)
  (container_id : string) :
  never_value_error (_await_healthy_container steps context container_id).
Proof.
  induction steps as [| steps IH]; cbn [_await_healthy_container].
  - auto with nve.
  - apply nve_bind; [ auto with nve | intros r ].
    destruct (String.eqb _ _); [ auto with nve | ].
    nve.
Qed.

#[local] Hint Resolve nve_start nve_await_healthy_container : nve.

Lemma nve_await_healthy_service (steps : nat) (context : settings)
  (service : string) :
  never_value_error (_await_healthy_service steps context service).
Proof. unfold _await_healthy_service. nve. Qed.

#[local] Hint Resolve nve_await_healthy_service : nve.

(** What [docker_compose] does: one line printed, one command run. *)
Lemma docker_compose_commands (context : settings) (command : string)
  (kw : kwargs) (w : world) (tr : list event) :
  commands (snd (docker_compose context command kw w tr))
  = (commands tr ++ [compose_command_line context command (kw_service kw)])%list.
Proof.
  unfold docker_compose, bind, print, context_run.
  destruct (exited _ =? 0)%Z; cbn [snd];
    rewrite !commands_app; cbn; rewrite app_nil_r; reflexivity.
Qed.

Lemma docker_compose_result (context : settings) (command : string)
  (kw : kwargs) (w : world) (tr : list event) :
  (exists r, fst (docker_compose context command kw w tr) = Ret r)
  \/ fst (docker_compose context command kw w tr)
     = Raise (UnexpectedExit
                (compose_command_line context command (kw_service kw))).
Proof.
  unfold docker_compose, bind, print, context_run.
  destruct (exited _ =? 0)%Z; cbn [fst]; [ left; eauto | right; reflexivity ].
Qed.

Lemma docker_compose_run (context : settings) (command : string)
  (kw : kwargs) (w : world) (tr : list event) :
  docker_compose context command kw w tr
  = let tr1 := tr +++ [Print (compose_notice command)] in
    let i := compose_invocation context command kw in
    (if (exited (respond w tr1 i) =? 0)%Z then Ret (respond w tr1 i)
     else Raise (UnexpectedExit (inv_command i)),
     tr1 +++ [Run i]).
Proof.
  unfold docker_compose, bind, print, context_run. cbn zeta.
  fold (default_env context). fold (caller_env kw).
  fold (compose_command_line context command (kw_service kw)).
  fold (compose_invocation context command kw). fold (compose_notice command).
  destruct (exited _ =? 0)%Z; reflexivity.
Qed.

Lemma is_compose_included_In (context : settings) (name : string) :
  _is_compose_included context name = true
  <-> In ("docker-compose." ++ name ++ ".yml") (compose_files context).
Proof. unfold _is_compose_included. apply str_in_In. Qed.

Lemma is_compose_included_not_In (context : settings) (name : string) :
  _is_compose_included context name = false
  <-> ~ In ("docker-compose." ++ name ++ ".yml") (compose_files context).
Proof. unfold _is_compose_included. apply str_in_not_In. Qed.

(** ** [dbshell] *)

Lemma dbshell_both (context : settings)
  (db_name input_file output_file query : string) (w : world) :
  input_file <> "" -> query <> "" ->
  dbshell context db_name input_file output_file query w []
  = (Raise (ValueError "Cannot specify both, `input_file` and `query` arguments"),
     []).
Proof.
  intros Hi Hq. apply truthy_nonempty in Hi, Hq.
  unfold dbshell. rewrite Hi, Hq. reflexivity.
Qed.

(** C9. [dbshell] raises [ValueError] whenever [output_file] is non-empty
    while both [input_file] and [query] are empty, and it does so before any
    external command is invoked: the trace is still empty. *)
Theorem dbshell_output_file_requires_source (context : settings)
  (db_name output_file : string) (w : world) :
  output_file <> "" ->
  dbshell context db_name "" output_file "" w []
  = (Raise (ValueError
       "`output_file` argument requires `input_file` or `query` argument"),
     []).
Proof.
  intros Ho. apply truthy_nonempty in Ho.
  unfold dbshell. cbn [truthy andb orb negb]. rewrite Ho. reflexivity.
Qed.

(** A concrete run: [--output-file out.sql] alone, on the shipped
    configuration. *)
Lemma dbshell_output_file_requires_source_witness :
  "out.sql" <> ""
  /\ dbshell shipped "" "" "out.sql" "" calm_world []
     = (Raise (ValueError
          "`output_file` argument requires `input_file` or `query` argument"),
        []).
Proof.
  split; [ discriminate | ].
  apply (dbshell_output_file_requires_source shipped "" "out.sql" calm_world).
  discriminate.
Defined.

(** Whatever [ValueError] [dbshell] raises, it raises with an empty trace. *)
Lemma dbshell_value_error_first (context : settings)
  (db_name input_file output_file query : string) (w : world)
  (msg : string) (tr : list event) :
  dbshell context db_name input_file output_file query w []
  = (Raise (ValueError msg), tr) ->
  tr = [].
Proof.
  unfold dbshell.
  destruct (truthy input_file && truthy query);
    [ intros H; inversion H; reflexivity | ].
  destruct (truthy output_file && negb (truthy input_file || truthy query));
    [ intros H; inversion H; reflexivity | ].
  destruct (_is_compose_included context "mysql");
    [ | destruct (_is_compose_included context "postgres") ].
  3: { intros H; inversion H; reflexivity. }
  all: intros H; exfalso;
    match type of H with
    | ?m ?w0 [] = _ =>
        assert (Hn : never_value_error m) by nve;
        apply (Hn w0 [] msg); rewrite H; reflexivity
    end.
Qed.

Lemma dbshell_guards_pass (input_file output_file query : string) :
  dbshell_arguments_ok input_file output_file query ->
  truthy input_file && truthy query = false
  /\ truthy output_file && negb (truthy input_file || truthy query) = false.
Proof.
  intros [H1 H2]. split.
  - destruct H1 as [-> | ->]; cbn; [ reflexivity | apply andb_false_r ].
  - destruct H2 as [-> | [H | H]]; [ reflexivity | | ];
      apply truthy_nonempty in H; rewrite H; cbn;
      rewrite ?orb_true_r; apply andb_false_r.
Qed.

Lemma silent_ret {A} (a : A) : silent (ret a).
Proof. intros w tr; reflexivity. Qed.

Lemma silent_print (line : string) : silent (print line).
Proof.
  intros w tr. cbn. rewrite commands_app. cbn. apply app_nil_r.
Qed.

Lemma silent_bind {A B} (m : io A) (k : A -> io B) :
  silent m -> (forall a, silent (k a)) -> silent (bind m k).
Proof.
  intros Hm Hk w tr. unfold bind. specialize (Hm w tr).
  destruct (m w tr) as [[a | e |] tr1]; cbn in *;
    [ rewrite Hk | | ]; assumption.
Qed.

Lemma commands_bind_silent {A B} (m : io A) (k : A -> io B)
  (w : world) (tr : list event) :
  (forall a, silent (k a)) ->
  commands (snd (bind m k w tr)) = commands (snd (m w tr)).
Proof.
  intros Hk. unfold bind.
  destruct (m w tr) as [[a | e |] tr1]; cbn; [ apply Hk | | ]; reflexivity.
Qed.

Create HintDb silent.

#[local] Hint Resolve silent_ret silent_print : silent.

Ltac silent := intros; repeat (apply silent_bind; [ | intros ? ]); auto with silent.

Lemma dbshell_unsupported (context : settings)
  (db_name input_file output_file query : string) (w : world) :
  dbshell_arguments_ok input_file output_file query ->
  ~ In "docker-compose.mysql.yml" (compose_files context) ->
  ~ In "docker-compose.postgres.yml" (compose_files context) ->
  dbshell context db_name input_file output_file query w []
  = (Raise (ValueError "Unsupported database backend."), []).
Proof.
  intros Hok Hm Hp. apply dbshell_guards_pass in Hok as [G1 G2].
  apply (is_compose_included_not_In context "mysql") in Hm.
  apply (is_compose_included_not_In context "postgres") in Hp.
  unfold dbshell. rewrite G1, G2, Hm, Hp. reflexivity.
Qed.

Lemma dbshell_mysql (context : settings)
  (db_name input_file output_file query : string) (w : world) :
  dbshell_arguments_ok input_file output_file query ->
  In "docker-compose.mysql.yml" (compose_files context) ->
  commands (snd (dbshell context db_name input_file output_file query w []))
  = [ compose_command_line context
        (join " "
           (dbshell_head query
            +++ [ "mysql";
                  "--user=$MYSQL_USER";
                  "--password=$MYSQL_PASSWORD";
                  "--database=" ++ or_else db_name "$MYSQL_DATABASE" ]
            +++ dbshell_tail input_file output_file query))
        None ].
Proof.
  intros Hok Hm. apply dbshell_guards_pass in Hok as [G1 G2].
  apply (is_compose_included_In context "mysql") in Hm.
  unfold dbshell. rewrite G1, G2, Hm.
  unfold bind at 1. cbn [ret].
  rewrite commands_bind_silent by silent.
  rewrite docker_compose_commands. reflexivity.
Qed.

Lemma dbshell_postgres (context : settings)
  (db_name input_file output_file query : string) (w : world) :
  dbshell_arguments_ok input_file output_file query ->
  ~ In "docker-compose.mysql.yml" (compose_files context) ->
  In "docker-compose.postgres.yml" (compose_files context) ->
  commands (snd (dbshell context db_name input_file output_file query w []))
  = [ compose_command_line context
        (join " "
           (dbshell_head query
            +++ [ "psql";
                  "--username=$POSTGRES_USER";
                  "--dbname=" ++ or_else db_name "$POSTGRES_DB" ]
            +++ dbshell_tail input_file output_file query))
        None ].
Proof.
  intros Hok Hm Hp. apply dbshell_guards_pass in Hok as [G1 G2].
  apply (is_compose_included_not_In context "mysql") in Hm.
  apply (is_compose_included_In context "postgres") in Hp.
  unfold dbshell. rewrite G1, G2, Hm, Hp.
  unfold bind at 1. cbn [ret].
  rewrite commands_bind_silent by silent.
  rewrite docker_compose_commands. reflexivity.
Qed.

(** ** The trace only grows *)

Lemma grows_ret {A} (a : A) : grows (ret a).
Proof. intros w tr. exists []. cbn. now rewrite app_nil_r. Qed.

Lemma grows_raise {A} (e : exn) : grows (@raise A e).
Proof. intros w tr. exists []. cbn. now rewrite app_nil_r. Qed.

Lemma grows_out_of_steps {A} : grows (@out_of_steps A).
Proof. intros w tr. exists []. cbn. now rewrite app_nil_r. Qed.

Lemma grows_print (line : string) : grows (print line).
Proof. intros w tr. eexists. reflexivity. Qed.

Lemma grows_sleep (n : Z) : grows (sleep n).
Proof. intros w tr. eexists. reflexivity. Qed.

Lemma grows_context_run (command : string) (kw : kwargs) :
  grows (context_run command kw).
Proof.
  intros w tr. unfold context_run.
  destruct (exited _ =? 0)%Z; eexists; reflexivity.
Qed.

Lemma grows_bind {A B} (m : io A) (k : A -> io B) :
  grows m -> (forall a, grows (k a)) -> grows (bind m k).
Proof.
  intros Hm Hk w tr. unfold bind. destruct (Hm w tr) as [e1 H1].
  destruct (m w tr) as [[a | e |] tr1]; cbn in *; subst tr1.
  - destruct (Hk a w (tr +++ e1)) as [e2 H2]. exists (e1 +++ e2).
    rewrite H2. now rewrite app_assoc.
  - eauto.
  - eauto.
Qed.

Create HintDb grows.

#[local] Hint Resolve grows_ret grows_raise grows_out_of_steps grows_print
  grows_sleep grows_context_run : grows.

Ltac grows := repeat (apply grows_bind; [ | intros ? ]); auto with grows.

Lemma grows_docker_compose (context : settings) (command : string) (kw : kwargs) :
  grows (docker_compose context command kw).
Proof. unfold docker_compose. grows. Qed.

#[local] Hint Resolve grows_docker_compose : grows.

Lemma grows_start (context : settings) (service : string) :
  grows (start context service).
Proof. unfold start. grows. Qed.

Lemma grows_await_healthy_container (steps : nat) (context : settings)
  (container_id : string) :
  grows (_await_healthy_container steps context container_id).
Proof.
  induction steps as [| steps IH]; cbn [_await_healthy_container].
  - auto with grows.
  - apply grows_bind; [ auto with grows | intros r ].
    destruct (String.eqb _ _); [ auto with grows | ].
    grows.
Qed.

#[local] Hint Resolve grows_start grows_await_healthy_container : grows.

Lemma grows_await_healthy_service (steps : nat) (context : settings)
  (service : string) :
  grows (_await_healthy_service steps context service).
Proof. unfold _await_healthy_service. grows. Qed.

#[local] Hint Resolve grows_await_healthy_service : grows.

(** After a computation that runs the commands [cs], whatever follows keeps
    them at the head of the commands run. *)
Lemma commands_then {A B} (m : io A) (k : A -> io B) (cs : list string)
  (w : world) (tr : list event) :
  (forall w' tr', commands (snd (m w' tr')) = commands tr' +++ cs) ->
  (forall a, grows (k a)) ->
  exists rest, commands (snd (bind m k w tr)) = commands tr +++ cs +++ rest.
Proof.
  intros Hm Hk. unfold bind. specialize (Hm w tr).
  destruct (m w tr) as [[a | e |] tr1]; cbn [snd] in Hm |- *.
  - destruct (Hk a w tr1) as [ext Hext]. rewrite Hext, commands_app, Hm.
    exists (commands ext). now rewrite <- app_assoc.
  - exists []. now rewrite app_nil_r.
  - exists []. now rewrite app_nil_r.
Qed.

Lemma start_commands (context : settings) (service : string)
  (w : world) (tr : list event) :
  commands (snd (start context service w tr))
  = commands tr +++ [compose_command_line context "up --detach" (Some service)].
Proof.
  unfold start. unfold bind at 1. cbn [print].
  rewrite commands_bind_silent by (intros; auto with silent).
  rewrite docker_compose_commands, commands_app. cbn [commands kw_service].
  now rewrite app_nil_r.
Qed.

(** ** [import_db] and [backup_db] *)

Lemma bind3_done {A B C D} (m1 : io A) (m2 : io B) (m3 : io C) (k : io D)
  (w : world) (tr tr0 : list event) (c : C) :
  bind m1 (fun _ => bind m2 (fun _ => m3)) w tr = (Ret c, tr0) ->
  bind m1 (fun _ => bind m2 (fun _ => bind m3 (fun _ => k))) w tr = k w tr0.
Proof.
  unfold bind.
  destruct (m1 w tr) as [[a | e |] t1]; try discriminate.
  destruct (m2 w t1) as [[b | e |] t2]; try discriminate.
  destruct (m3 w t2) as [[c' | e |] t3]; try discriminate.
  intros H; inversion H; reflexivity.
Qed.

Lemma bind2_done {A B C} (m1 : io A) (m2 : io B) (k : io C)
  (w : world) (tr tr0 : list event) (b : B) :
  bind m1 (fun _ => m2) w tr = (Ret b, tr0) ->
  bind m1 (fun _ => bind m2 (fun _ => k)) w tr = k w tr0.
Proof.
  unfold bind.
  destruct (m1 w tr) as [[a | e |] t1]; try discriminate.
  destruct (m2 w t1) as [[b' | e |] t2]; try discriminate.
  intros H; inversion H; reflexivity.
Qed.

Lemma import_db_prelude_first (steps : nat) (context : settings) (w : world) :
  exists rest,
    commands (snd (import_db_prelude steps context w []))
    = compose_command_line context "stop -- nautobot worker beat" None :: rest.
Proof.
  unfold import_db_prelude.
  apply (commands_then _ _ [compose_command_line context
                              "stop -- nautobot worker beat" None] w []).
  - intros. apply docker_compose_commands.
  - intros r. grows.
Qed.

Lemma backup_db_prelude_first (steps : nat) (context : settings) (w : world) :
  exists rest,
    commands (snd (backup_db_prelude steps context w []))
    = compose_command_line context "up --detach" (Some "db") :: rest.
Proof.
  unfold backup_db_prelude.
  apply (commands_then _ _ [compose_command_line context
                              "up --detach" (Some "db")] w []).
  - intros. apply start_commands.
  - intros r. grows.
Qed.

Lemma import_db_unsupported (steps : nat) (context : settings)
  (db_name input_file : string) (w : world) (tr0 : list event) :
  import_db_prelude steps context w [] = (Ret tt, tr0) ->
  ~ In "docker-compose.mysql.yml" (compose_files context) ->
  ~ In "docker-compose.postgres.yml" (compose_files context) ->
  import_db steps context db_name input_file w []
  = (Raise (ValueError "Unsupported database backend."), tr0).
Proof.
  intros Hpre Hm Hp.
  apply (is_compose_included_not_In context "mysql") in Hm.
  apply (is_compose_included_not_In context "postgres") in Hp.
  unfold import_db, import_db_prelude in *.
  rewrite (bind3_done _ _ _ _ _ _ _ _ Hpre).
  rewrite Hm, Hp. reflexivity.
Qed.

Lemma import_db_mysql (steps : nat) (context : settings)
  (db_name input_file : string) (w : world) (tr0 : list event) :
  import_db_prelude steps context w [] = (Ret tt, tr0) ->
  In "docker-compose.mysql.yml" (compose_files context) ->
  commands (snd (import_db steps context db_name input_file w []))
  = commands tr0
    +++ [ compose_command_line context
            (join " "
               (dump_head
                +++ [ "mysql --user root --password=$MYSQL_ROOT_PASSWORD";
                      "--execute=" ++ dq;
                      "DROP DATABASE IF EXISTS "
                        ++ or_else db_name "$MYSQL_DATABASE" ++ ";";
                      "CREATE DATABASE "
                        ++ or_else db_name "$MYSQL_DATABASE" ++ ";";
                      if String.eqb (or_else db_name "$MYSQL_DATABASE")
                                    "$MYSQL_DATABASE"
                      then ""
                      else "GRANT ALL PRIVILEGES ON "
                             ++ or_else db_name "$MYSQL_DATABASE"
                             ++ ".* TO $MYSQL_USER; FLUSH PRIVILEGES;";
                      dq;
                      "&&";
                      "mysql";
                      "--database=" ++ or_else db_name "$MYSQL_DATABASE";
                      "--user=$MYSQL_USER";
                      "--password=$MYSQL_PASSWORD" ]
                +++ import_tail input_file))
            None ].
Proof.
  intros Hpre Hm.
  apply (is_compose_included_In context "mysql") in Hm.
  unfold import_db, import_db_prelude in *.
  rewrite (bind3_done _ _ _ _ _ _ _ _ Hpre).
  rewrite Hm. unfold bind at 1. cbn [ret].
  rewrite commands_bind_silent by silent.
  rewrite docker_compose_commands.
  unfold or_else. destruct (truthy db_name); reflexivity.
Qed.

Lemma import_db_postgres (steps : nat) (context : settings)
  (db_name input_file : string) (w : world) (tr0 : list event) :
  import_db_prelude steps context w [] = (Ret tt, tr0) ->
  ~ In "docker-compose.mysql.yml" (compose_files context) ->
  In "docker-compose.postgres.yml" (compose_files context) ->
  commands (snd (import_db steps context db_name input_file w []))
  = commands tr0
    +++ [ compose_command_line context
            (join " "
               (dump_head
                +++ [ "dropdb --if-exists --user=$POSTGRES_USER "
                        ++ or_else db_name "$POSTGRES_DB" ++ " &&";
                      "createdb --user=$POSTGRES_USER "
                        ++ or_else db_name "$POSTGRES_DB" ++ " &&";
                      "psql --user=$POSTGRES_USER --dbname="
                        ++ or_else db_name "$POSTGRES_DB" ]
                +++ import_tail input_file))
            None ].
Proof.
  intros Hpre Hm Hp.
  apply (is_compose_included_not_In context "mysql") in Hm.
  apply (is_compose_included_In context "postgres") in Hp.
  unfold import_db, import_db_prelude in *.
  rewrite (bind3_done _ _ _ _ _ _ _ _ Hpre).
  rewrite Hm, Hp. unfold bind at 1. cbn [ret].
  rewrite commands_bind_silent by silent.
  rewrite docker_compose_commands.
  unfold or_else. destruct (truthy db_name); reflexivity.
Qed.

Lemma backup_db_unsupported (steps : nat) (context : settings)
  (db_name output_file : string) (readable : bool) (w : world)
  (tr0 : list event) :
  backup_db_prelude steps context w [] = (Ret tt, tr0) ->
  ~ In "docker-compose.mysql.yml" (compose_files context) ->
  ~ In "docker-compose.postgres.yml" (compose_files context) ->
  backup_db steps context db_name output_file readable w []
  = (Raise (ValueError "Unsupported database backend."), tr0).
Proof.
  intros Hpre Hm Hp.
  apply (is_compose_included_not_In context "mysql") in Hm.
  apply (is_compose_included_not_In context "postgres") in Hp.
  unfold backup_db, backup_db_prelude in *.
  rewrite (bind2_done _ _ _ _ _ _ _ Hpre).
  rewrite Hm, Hp. reflexivity.
Qed.

Lemma backup_db_mysql (steps : nat) (context : settings)
  (db_name output_file : string) (readable : bool) (w : world)
  (tr0 : list event) :
  backup_db_prelude steps context w [] = (Ret tt, tr0) ->
  In "docker-compose.mysql.yml" (compose_files context) ->
  commands (snd (backup_db steps context db_name output_file readable w []))
  = commands tr0
    +++ [ compose_command_line context
            (join " "
               (dump_head
                +++ [ "mysqldump";
                      "--user=root";
                      "--password=$MYSQL_ROOT_PASSWORD";
                      if readable then "--skip-extended-insert" else "";
                      or_else db_name "$MYSQL_DATABASE" ]
                +++ backup_tail output_file))
            None ].
Proof.
  intros Hpre Hm.
  apply (is_compose_included_In context "mysql") in Hm.
  unfold backup_db, backup_db_prelude in *.
  rewrite (bind2_done _ _ _ _ _ _ _ Hpre).
  rewrite Hm. unfold bind at 1. cbn [ret].
  rewrite commands_bind_silent by silent.
  rewrite docker_compose_commands. reflexivity.
Qed.

Lemma backup_db_postgres (steps : nat) (context : settings)
  (db_name output_file : string) (readable : bool) (w : world)
  (tr0 : list event) :
  backup_db_prelude steps context w [] = (Ret tt, tr0) ->
  ~ In "docker-compose.mysql.yml" (compose_files context) ->
  In "docker-compose.postgres.yml" (compose_files context) ->
  commands (snd (backup_db steps context db_name output_file readable w []))
  = commands tr0
    +++ [ compose_command_line context
            (join " "
               (dump_head
                +++ [ "pg_dump";
                      "--username=$POSTGRES_USER";
                      "--dbname=" ++ or_else db_name "$POSTGRES_DB";
                      if readable then "--inserts" else "" ]
                +++ backup_tail output_file))
            None ].
Proof.
  intros Hpre Hm Hp.
  apply (is_compose_included_not_In context "mysql") in Hm.
  apply (is_compose_included_In context "postgres") in Hp.
  unfold backup_db, backup_db_prelude in *.
  rewrite (bind2_done _ _ _ _ _ _ _ Hpre).
  rewrite Hm, Hp. unfold bind at 1. cbn [ret].
  rewrite commands_bind_silent by silent.
  rewrite docker_compose_commands. reflexivity.
Qed.

(** A [ValueError] raised through [bind] by a first part that raises none
    comes from the continuation. *)
Lemma bind_value_error {A B} (m : io A) (k : A -> io B)
  (w : world) (tr tr' : list event) (msg : string) :
  never_value_error m ->
  bind m k w tr = (Raise (ValueError msg), tr') ->
  exists a tr1, m w tr = (Ret a, tr1) /\ k a w tr1 = (Raise (ValueError msg), tr').
Proof.
  intros Hm. unfold bind. specialize (Hm w tr msg).
  destruct (m w tr) as [[a | e |] tr1]; cbn in Hm; intros H.
  - eauto.
  - exfalso. apply Hm. inversion H. reflexivity.
  - discriminate.
Qed.

(** The only [ValueError] of [import_db] is the backend one. *)
Lemma import_db_value_error (steps : nat) (context : settings)
  (db_name input_file : string) (w : world) (tr : list event) (msg : string) :
  import_db steps context db_name input_file w [] = (Raise (ValueError msg), tr) ->
  msg = "Unsupported database backend."
  /\ ~ In "docker-compose.mysql.yml" (compose_files context)
  /\ ~ In "docker-compose.postgres.yml" (compose_files context).
Proof.
  unfold import_db. intros H.
  apply bind_value_error in H as (r1 & t1 & _ & H); [ | auto with nve ].
  apply bind_value_error in H as (r2 & t2 & _ & H); [ | auto with nve ].
  apply bind_value_error in H as (r3 & t3 & _ & H); [ | auto with nve ].
  destruct (_is_compose_included context "mysql") eqn:Hm;
    [ | destruct (_is_compose_included context "postgres") eqn:Hp ].
  3: { apply is_compose_included_not_In in Hm, Hp.
       unfold bind, raise in H. inversion H. auto. }
  all: exfalso; unfold bind at 1 in H; cbn [ret] in H;
    match type of H with
    | ?m ?w0 ?t0 = _ =>
        assert (Hn : never_value_error m) by nve;
        apply (Hn w0 t0 msg); rewrite H; reflexivity
    end.
Qed.

(** The only [ValueError] of [backup_db] is the backend one. *)
Lemma backup_db_value_error (steps : nat) (context : settings)
  (db_name output_file : string) (readable : bool) (w : world)
  (tr : list event) (msg : string) :
  backup_db steps context db_name output_file readable w []
  = (Raise (ValueError msg), tr) ->
  msg = "Unsupported database backend."
  /\ ~ In "docker-compose.mysql.yml" (compose_files context)
  /\ ~ In "docker-compose.postgres.yml" (compose_files context).
Proof.
  unfold backup_db. intros H.
  apply bind_value_error in H as (r1 & t1 & _ & H); [ | auto with nve ].
  apply bind_value_error in H as (r2 & t2 & _ & H); [ | auto with nve ].
  destruct (_is_compose_included context "mysql") eqn:Hm;
    [ | destruct (_is_compose_included context "postgres") eqn:Hp ].
  3: { apply is_compose_included_not_In in Hm, Hp.
       unfold bind, raise in H. inversion H. auto. }
  all: exfalso; unfold bind at 1 in H; cbn [ret] in H;
    match type of H with
    | ?m ?w0 ?t0 = _ =>
        assert (Hn : never_value_error m) by nve;
        apply (Hn w0 t0 msg); rewrite H; reflexivity
    end.
Qed.

(** C3. The database helpers reject mutually exclusive arguments: with both
    [input_file] and [query] non-empty, [dbshell] raises [ValueError] and
    invokes no external command.  [import_db] and [backup_db] take no pair
    of mutually exclusive arguments: whatever their arguments, the only
    [ValueError] they raise is the one for an unsupported backend. *)
Theorem mutually_exclusive_arguments_rejected (context : settings)
  (db_name input_file output_file query : string) (w : world) :
  input_file <> "" -> query <> "" ->
  dbshell context db_name input_file output_file query w []
  = (Raise (ValueError "Cannot specify both, `input_file` and `query` arguments"),
     [])
  /\ (forall steps db file msg tr,
        import_db steps context db file w [] = (Raise (ValueError msg), tr) ->
        msg = "Unsupported database backend."
        /\ ~ In "docker-compose.mysql.yml" (compose_files context)
        /\ ~ In "docker-compose.postgres.yml" (compose_files context))
  /\ (forall steps db file readable msg tr,
        backup_db steps context db file readable w []
        = (Raise (ValueError msg), tr) ->
        msg = "Unsupported database backend."
        /\ ~ In "docker-compose.mysql.yml" (compose_files context)
        /\ ~ In "docker-compose.postgres.yml" (compose_files context)).
Proof.
  intros Hi Hq. split; [ now apply dbshell_both | split ].
  - intros steps db file msg tr. apply import_db_value_error.
  - intros steps db file readable msg tr. apply backup_db_value_error.
Qed.

Lemma mutually_exclusive_arguments_rejected_witness :
  "dump.sql" <> "" /\ "SELECT 1" <> ""
  /\ dbshell shipped "" "dump.sql" "" "SELECT 1" calm_world []
     = (Raise (ValueError
          "Cannot specify both, `input_file` and `query` arguments"),
        []).
Proof.
  split; [ discriminate | split; [ discriminate | ] ].
  apply (mutually_exclusive_arguments_rejected
           shipped "" "dump.sql" "" "SELECT 1" calm_world);
    discriminate.
Defined.

(** In a calm world one poll is enough: the container commands that
    [import_db] and [backup_db] run first complete, whatever the
    configuration. *)
Lemma calm_import_db_prelude (context : settings) :
  fst (import_db_prelude 1 context calm_world []) = Ret tt.
Proof. reflexivity. Qed.

Lemma calm_backup_db_prelude (context : settings) :
  fst (backup_db_prelude 1 context calm_world []) = Ret tt.
Proof. reflexivity. Qed.

(** ** Backend selection *)

(** [import_db] and [backup_db] first run their container commands; what
    they do next starts from the trace those commands left, and a failure
    among them ends the task. *)
Lemma bind3_split {A B C D} (m1 : io A) (m2 : io B) (m3 : io C) (k : io D)
  (w : world) (tr : list event) :
  bind m1 (fun _ => bind m2 (fun _ => bind m3 (fun _ => k))) w tr
  = match bind m1 (fun _ => bind m2 (fun _ => m3)) w tr with
    | (Ret _, t) => k w t
    | (Raise e, t) => (Raise e, t)
    | (Running, t) => (Running, t)
    end.
Proof.
  unfold bind.
  destruct (m1 w tr) as [[a | e |] t1]; try reflexivity;
    destruct (m2 w t1) as [[b | e |] t2]; try reflexivity;
    destruct (m3 w t2) as [[c | e |] t3]; reflexivity.
Qed.

Lemma bind2_split {A B C} (m1 : io A) (m2 : io B) (k : io C)
  (w : world) (tr : list event) :
  bind m1 (fun _ => bind m2 (fun _ => k)) w tr
  = match bind m1 (fun _ => m2) w tr with
    | (Ret _, t) => k w t
    | (Raise e, t) => (Raise e, t)
    | (Running, t) => (Running, t)
    end.
Proof.
  unfold bind.
  destruct (m1 w tr) as [[a | e |] t1]; try reflexivity;
    destruct (m2 w t1) as [[b | e |] t2]; reflexivity.
Qed.

Lemma import_db_prelude_fails (steps : nat) (context : settings)
  (db_name input_file : string) (w : world) :
  match import_db_prelude steps context w [] with
  | (Ret _, _) => True
  | (Raise e, tr) =>
      import_db steps context db_name input_file w [] = (Raise e, tr)
  | (Running, tr) =>
      import_db steps context db_name input_file w [] = (Running, tr)
  end.
Proof.
  unfold import_db, import_db_prelude. rewrite bind3_split.
  destruct (bind _ _ w []) as [[[] | e |] t]; [ exact I | reflexivity .. ].
Qed.

Lemma backup_db_prelude_fails (steps : nat) (context : settings)
  (db_name output_file : string) (readable : bool) (w : world) :
  match backup_db_prelude steps context w [] with
  | (Ret _, _) => True
  | (Raise e, tr) =>
      backup_db steps context db_name output_file readable w [] = (Raise e, tr)
  | (Running, tr) =>
      backup_db steps context db_name output_file readable w [] = (Running, tr)
  end.
Proof.
  unfold backup_db, backup_db_prelude. rewrite bind2_split.
  destruct (bind _ _ w []) as [[[] | e |] t]; [ exact I | reflexivity .. ].
Qed.

(** Whatever its arguments, a [dbshell] that finds no backend raises a
    [ValueError] with an empty trace. *)
Lemma dbshell_without_backend (context : settings)
  (db_name input_file output_file query : string) (w : world) :
  ~ In "docker-compose.mysql.yml" (compose_files context) ->
  ~ In "docker-compose.postgres.yml" (compose_files context) ->
  exists msg,
    dbshell context db_name input_file output_file query w []
    = (Raise (ValueError msg), []).
Proof.
  intros Hm Hp.
  apply (is_compose_included_not_In context "mysql") in Hm.
  apply (is_compose_included_not_In context "postgres") in Hp.
  unfold dbshell.
  destruct (truthy input_file && truthy query); [ eexists; reflexivity | ].
  destruct (truthy output_file && negb (truthy input_file || truthy query));
    [ eexists; reflexivity | ].
  rewrite Hm, Hp. eexists. reflexivity.
Qed.

(** Arguments that do not pass the guards of [dbshell] are rejected there. *)
Lemma dbshell_arguments_rejected (context : settings)
  (db_name input_file output_file query : string) (w : world) :
  ~ dbshell_arguments_ok input_file output_file query ->
  exists msg,
    dbshell context db_name input_file output_file query w []
    = (Raise (ValueError msg), []).
Proof.
  intros Hnot. unfold dbshell.
  destruct (truthy input_file && truthy query) eqn:G1;
    [ eexists; reflexivity | ].
  destruct (truthy output_file && negb (truthy input_file || truthy query))
    eqn:G2; [ eexists; reflexivity | ].
  exfalso. apply Hnot. split.
  - destruct input_file; [ now left | ]. destruct query; [ now right | ].
    discriminate G1.
  - destruct output_file; [ now left | ].
    destruct input_file; [ | right; left; discriminate ].
    destruct query; [ discriminate G2 | right; right; discriminate ].
Qed.

(** C4, as stated, fails: without a backend file [import_db] does not raise
    the [ValueError] when one of the container commands it runs first fails
    (here [stop]: the task ends with that command's failure), and [dbshell]
    raises another [ValueError] when its arguments do not pass its guards,
    which come first. *)
Lemma backend_guard_not_reached :
  ~ In "docker-compose.mysql.yml"
      (compose_files (with_compose_files ["docker-compose.base.yml"]))
  /\ ~ In "docker-compose.postgres.yml"
         (compose_files (with_compose_files ["docker-compose.base.yml"]))
  /\ fst (import_db 1 (with_compose_files ["docker-compose.base.yml"])
            "" "dump.sql"
            (failing_world
               (compose_command_line
                  (with_compose_files ["docker-compose.base.yml"])
                  "stop -- nautobot worker beat" None))
            [])
     = Raise (UnexpectedExit
                (compose_command_line
                   (with_compose_files ["docker-compose.base.yml"])
                   "stop -- nautobot worker beat" None))
  /\ fst (dbshell (with_compose_files ["docker-compose.base.yml"])
            "" "dump.sql" "" "SELECT 1" calm_world [])
     = Raise (ValueError
                "Cannot specify both, `input_file` and `query` arguments").
Proof.
  split; [ cbn; intuition discriminate | ].
  split; [ cbn; intuition discriminate | ].
  split; vm_compute; reflexivity.
Qed.

(** C4, amended.  With neither [docker-compose.mysql.yml] nor
    [docker-compose.postgres.yml] among [compose_files], each of [dbshell],
    [import_db] and [backup_db] raises
    [ValueError("Unsupported database backend.")] when control reaches its
    backend selection, and has then issued no database command: [dbshell]
    whenever its arguments pass its two guards (it raises a [ValueError]
    with an empty trace in any case), [import_db] and [backup_db] whenever
    the container commands they run first have completed, with exactly the
    trace of those commands.  With exactly one of the two files present, the
    command issued at that point is the one of that backend's dialect.
    Whatever the configuration, a failure among the container commands ends
    [import_db] and [backup_db] with that failure and that trace. *)
Theorem backend_selection (steps : nat) (context : settings) (w : world) :
  (~ In "docker-compose.mysql.yml" (compose_files context) ->
   ~ In "docker-compose.postgres.yml" (compose_files context) ->
   (forall db_name input_file output_file query,
       (exists msg,
           dbshell context db_name input_file output_file query w []
           = (Raise (ValueError msg), []))
       /\ (dbshell_arguments_ok input_file output_file query ->
           dbshell context db_name input_file output_file query w []
           = (Raise (ValueError "Unsupported database backend."), [])))
   /\ (forall db_name dump_file tr_i,
         import_db_prelude steps context w [] = (Ret tt, tr_i) ->
         import_db steps context db_name dump_file w []
         = (Raise (ValueError "Unsupported database backend."), tr_i))
   /\ (forall db_name dump_file readable tr_b,
         backup_db_prelude steps context w [] = (Ret tt, tr_b) ->
         backup_db steps context db_name dump_file readable w []
         = (Raise (ValueError "Unsupported database backend."), tr_b)))
  /\ (forall d : dialect,
        (d = MySQL
         /\ In "docker-compose.mysql.yml" (compose_files context)
         /\ ~ In "docker-compose.postgres.yml" (compose_files context))
        \/ (d = PostgreSQL
            /\ ~ In "docker-compose.mysql.yml" (compose_files context)
            /\ In "docker-compose.postgres.yml" (compose_files context)) ->
        (forall db_name input_file output_file query,
            dbshell_arguments_ok input_file output_file query ->
            commands
              (snd (dbshell context db_name input_file output_file query w []))
            = [ compose_command_line context
                  (join " " (dbshell_head query
                             +++ dbshell_client d db_name
                             +++ dbshell_tail input_file output_file query))
                  None ])
        /\ (forall db_name dump_file tr_i,
              import_db_prelude steps context w [] = (Ret tt, tr_i) ->
              commands (snd (import_db steps context db_name dump_file w []))
              = commands tr_i
                +++ [ compose_command_line context
                        (join " " (dump_head
                                   +++ import_client d db_name
                                   +++ import_tail dump_file))
                        None ])
        /\ (forall db_name dump_file readable tr_b,
              backup_db_prelude steps context w [] = (Ret tt, tr_b) ->
              commands
                (snd (backup_db steps context db_name dump_file readable w []))
              = commands tr_b
                +++ [ compose_command_line context
                        (join " " (dump_head
                                   +++ backup_client d db_name readable
                                   +++ backup_tail dump_file))
                        None ]))
  /\ (forall db_name dump_file,
        match import_db_prelude steps context w [] with
        | (Ret _, _) => True
        | (Raise e, tr) =>
            import_db steps context db_name dump_file w [] = (Raise e, tr)
        | (Running, tr) =>
            import_db steps context db_name dump_file w [] = (Running, tr)
        end)
  /\ (forall db_name dump_file readable,
        match backup_db_prelude steps context w [] with
        | (Ret _, _) => True
        | (Raise e, tr) =>
            backup_db steps context db_name dump_file readable w []
            = (Raise e, tr)
        | (Running, tr) =>
            backup_db steps context db_name dump_file readable w []
            = (Running, tr)
        end).
Proof.
  split; [ | split; [ | split ] ].
  - intros Hm Hp. split; [ | split ].
    + intros db_name input_file output_file query. split.
      * now apply dbshell_without_backend.
      * intros Hok. now apply dbshell_unsupported.
    + intros db_name dump_file tr_i Hi. now apply import_db_unsupported.
    + intros db_name dump_file readable tr_b Hb. now apply backup_db_unsupported.
  - intros d [(-> & Hm & _) | (-> & Hm & Hp)]; (split; [ | split ]).
    + intros db_name input_file output_file query Hok. now apply dbshell_mysql.
    + intros db_name dump_file tr_i Hi.
      exact (import_db_mysql steps context db_name dump_file w tr_i Hi Hm).
    + intros db_name dump_file readable tr_b Hb. now apply backup_db_mysql.
    + intros db_name input_file output_file query Hok.
      now apply dbshell_postgres.
    + intros db_name dump_file tr_i Hi.
      exact (import_db_postgres steps context db_name dump_file w tr_i Hi Hm Hp).
    + intros db_name dump_file readable tr_b Hb. now apply backup_db_postgres.
  - intros db_name dump_file. apply import_db_prelude_fails.
  - intros db_name dump_file readable. apply backup_db_prelude_fails.
Qed.

(** Without any backend file the three tasks raise, in a world where every
    command succeeds. *)
Lemma backend_selection_witness :
  dbshell_arguments_ok "" "" "SELECT 1"
  /\ import_db_prelude 1 (with_compose_files ["docker-compose.base.yml"])
       calm_world []
     = (Ret tt,
        snd (import_db_prelude 1 (with_compose_files ["docker-compose.base.yml"])
               calm_world []))
  /\ backup_db_prelude 1 (with_compose_files ["docker-compose.base.yml"])
       calm_world []
     = (Ret tt,
        snd (backup_db_prelude 1 (with_compose_files ["docker-compose.base.yml"])
               calm_world []))
  /\ dbshell (with_compose_files ["docker-compose.base.yml"])
       "" "" "" "SELECT 1" calm_world []
     = (Raise (ValueError "Unsupported database backend."), [])
  /\ fst (import_db 1 (with_compose_files ["docker-compose.base.yml"])
            "" "dump.sql" calm_world [])
     = Raise (ValueError "Unsupported database backend.")
  /\ fst (backup_db 1 (with_compose_files ["docker-compose.base.yml"])
            "" "dump.sql" true calm_world [])
     = Raise (ValueError "Unsupported database backend.").
Proof.
  assert (Hok : dbshell_arguments_ok "" "" "SELECT 1").
  { split; [ left; reflexivity | left; reflexivity ]. }
  assert (Hi : import_db_prelude 1 (with_compose_files ["docker-compose.base.yml"])
                 calm_world []
               = (Ret tt,
                  snd (import_db_prelude 1
                         (with_compose_files ["docker-compose.base.yml"])
                         calm_world []))) by (vm_compute; reflexivity).
  assert (Hb : backup_db_prelude 1 (with_compose_files ["docker-compose.base.yml"])
                 calm_world []
               = (Ret tt,
                  snd (backup_db_prelude 1
                         (with_compose_files ["docker-compose.base.yml"])
                         calm_world []))) by (vm_compute; reflexivity).
  destruct (backend_selection 1 (with_compose_files ["docker-compose.base.yml"])
              calm_world)
    as [Hnone _].
  destruct Hnone as (H1 & H2 & H3).
  - cbn. intuition discriminate.
  - cbn. intuition discriminate.
  - split; [ exact Hok | ]. split; [ exact Hi | ]. split; [ exact Hb | ].
    split; [ exact (proj2 (H1 "" "" "" "SELECT 1") Hok) | ]. split.
    + rewrite (H2 "" "dump.sql" _ Hi). reflexivity.
    + rewrite (H3 "" "dump.sql" true _ Hb). reflexivity.
Defined.

(** C10. When [compose_files] holds both [docker-compose.mysql.yml] and
    [docker-compose.postgres.yml], each of [dbshell], [import_db] and
    [backup_db] issues the MySQL command whenever it issues a database
    command at all: the mysql membership test comes first and the postgres
    branch is not taken.  This is so for all arguments and every world:
    [dbshell] issues it when its arguments pass its guards and otherwise
    raises with an empty trace; [import_db] and [backup_db] issue it when
    the container commands they run first have completed and otherwise end
    with the failure of those commands. *)
Theorem mysql_takes_precedence (steps : nat) (context : settings) (w : world) :
  In "docker-compose.mysql.yml" (compose_files context) ->
  In "docker-compose.postgres.yml" (compose_files context) ->
  (forall db_name input_file output_file query,
      (dbshell_arguments_ok input_file output_file query ->
       commands (snd (dbshell context db_name input_file output_file query w []))
       = [ compose_command_line context
             (join " " (dbshell_head query
                        +++ dbshell_client MySQL db_name
                        +++ dbshell_tail input_file output_file query))
             None ])
      /\ (~ dbshell_arguments_ok input_file output_file query ->
          exists msg,
            dbshell context db_name input_file output_file query w []
            = (Raise (ValueError msg), [])))
  /\ (forall db_name dump_file,
        match import_db_prelude steps context w [] with
        | (Ret _, tr_i) =>
            commands (snd (import_db steps context db_name dump_file w []))
            = commands tr_i
              +++ [ compose_command_line context
                      (join " " (dump_head
                                 +++ import_client MySQL db_name
                                 +++ import_tail dump_file))
                      None ]
        | (Raise e, tr) =>
            import_db steps context db_name dump_file w [] = (Raise e, tr)
        | (Running, tr) =>
            import_db steps context db_name dump_file w [] = (Running, tr)
        end)
  /\ (forall db_name dump_file readable,
        match backup_db_prelude steps context w [] with
        | (Ret _, tr_b) =>
            commands
              (snd (backup_db steps context db_name dump_file readable w []))
            = commands tr_b
              +++ [ compose_command_line context
                      (join " " (dump_head
                                 +++ backup_client MySQL db_name readable
                                 +++ backup_tail dump_file))
                      None ]
        | (Raise e, tr) =>
            backup_db steps context db_name dump_file readable w []
            = (Raise e, tr)
        | (Running, tr) =>
            backup_db steps context db_name dump_file readable w []
            = (Running, tr)
        end).
Proof.
  intros Hm _. split; [ | split ].
  - intros db_name input_file output_file query. split.
    + intros Hok. now apply dbshell_mysql.
    + apply dbshell_arguments_rejected.
  - intros db_name dump_file.
    pose proof (import_db_prelude_fails steps context db_name dump_file w)
      as Hfail.
    destruct (import_db_prelude steps context w []) as [[[] | e |] tr] eqn:Hi;
      [ | exact Hfail | exact Hfail ].
    exact (import_db_mysql steps context db_name dump_file w tr Hi Hm).
  - intros db_name dump_file readable.
    pose proof (backup_db_prelude_fails steps context db_name dump_file
                  readable w) as Hfail.
    destruct (backup_db_prelude steps context w []) as [[[] | e |] tr] eqn:Hb;
      [ | exact Hfail | exact Hfail ].
    now apply backup_db_mysql.
Qed.

Lemma mysql_takes_precedence_witness :
  In "docker-compose.mysql.yml"
     (compose_files (with_compose_files
        ["docker-compose.postgres.yml"; "docker-compose.mysql.yml"]))
  /\ In "docker-compose.postgres.yml"
        (compose_files (with_compose_files
           ["docker-compose.postgres.yml"; "docker-compose.mysql.yml"]))
  /\ commands
       (snd (dbshell (with_compose_files
                        ["docker-compose.postgres.yml"; "docker-compose.mysql.yml"])
               "" "" "" "" calm_world []))
     = [ compose_command_line
           (with_compose_files
              ["docker-compose.postgres.yml"; "docker-compose.mysql.yml"])
           (join " " (dbshell_head ""
                      +++ dbshell_client MySQL ""
                      +++ dbshell_tail "" "" ""))
           None ].
Proof.
  assert (Hm : In "docker-compose.mysql.yml"
                 (compose_files (with_compose_files
                    ["docker-compose.postgres.yml"; "docker-compose.mysql.yml"])))
    by (cbn; tauto).
  assert (Hp : In "docker-compose.postgres.yml"
                 (compose_files (with_compose_files
                    ["docker-compose.postgres.yml"; "docker-compose.mysql.yml"])))
    by (cbn; tauto).
  split; [ exact Hm | split; [ exact Hp | ] ].
  refine (proj1 (proj1 (mysql_takes_precedence 1
            (with_compose_files
               ["docker-compose.postgres.yml"; "docker-compose.mysql.yml"])
            calm_world Hm Hp) "" "" "" "") _).
  split; left; reflexivity.
Defined.

(** ** Where the guards stand *)

Lemma run_command_truthy_guard (context : settings) (command : string)
  (kw : kwargs) (w : world) (e : exn) :
  is_truthy (local context) = Raise e ->
  run_command context command kw w [] = (Raise e, []).
Proof.
  intros H. unfold run_command, bind, lift. rewrite H. reflexivity.
Qed.

Lemma docs_truthy_guard (context : settings) (w : world) (e : exn) :
  is_truthy (local context) = Raise e ->
  docs context w [] = (Raise e, []).
Proof.
  intros H. unfold docs, bind, lift. rewrite H. reflexivity.
Qed.

Example run_command_rejects_maybe :
  run_command (with_local (VStr "maybe")) "poetry build" no_kwargs calm_world []
  = (Raise (ValueError "Invalid truthy value: `maybe`"), []).
Proof. reflexivity. Qed.

(** [destroy] without volumes and with a file to import: the [down] command
    has run when the guard raises. *)
Lemma destroy_no_volumes (steps : nat) (context : settings)
  (import_db_file : string) (w : world) :
  import_db_file <> "" ->
  commands (snd (destroy steps context false import_db_file w []))
  = [ compose_command_line context "down --remove-orphans " None ]
  /\ (fst (destroy steps context false import_db_file w [])
      = Raise (ValueError
          "Cannot specify `--no-volumes` and `--import-db-file` arguments at the same time.")
      \/ fst (destroy steps context false import_db_file w [])
         = Raise (UnexpectedExit
                    (compose_command_line context "down --remove-orphans " None))).
Proof.
  intros Hf. apply truthy_nonempty in Hf.
  destruct (destroy steps context false import_db_file w []) as [rd trd] eqn:E.
  cbn [fst snd]. unfold destroy in E.
  unfold bind at 1 in E. cbn [print] in E. unfold bind at 1 in E.
  pose proof (docker_compose_commands context
                ("down --remove-orphans " ++ "") no_kwargs w
                ([] +++ [Print "Destroying Nautobot..."])) as Hc.
  pose proof (docker_compose_result context
                ("down --remove-orphans " ++ "") no_kwargs w
                ([] +++ [Print "Destroying Nautobot..."])) as Hr.
  destruct (docker_compose context ("down --remove-orphans " ++ "")
              no_kwargs w ([] +++ [Print "Destroying Nautobot..."]))
    as [[r | e |] tr1]; cbn [fst snd] in Hc, Hr.
  - rewrite Hf in E. cbn [negb raise] in E. inversion E; subst.
    split; [ exact Hc | left; reflexivity ].
  - inversion E; subst. split; [ exact Hc | ].
    destruct Hr as [[r Hr] | Hr]; [ discriminate | ].
    right. inversion Hr. reflexivity.
  - destruct Hr as [[r Hr] | Hr]; discriminate.
Qed.

(** C2, as stated, fails: [destroy] with [volumes=False] and a file to
    import raises its [ValueError] after the [down] command has run, and
    [import_db] without a supported backend raises after its container
    commands have run. *)
Lemma guards_after_commands :
  fst (destroy 1 shipped false "dump.sql" calm_world [])
  = Raise (ValueError
      "Cannot specify `--no-volumes` and `--import-db-file` arguments at the same time.")
  /\ commands (snd (destroy 1 shipped false "dump.sql" calm_world [])) <> []
  /\ commands (snd (destroy 1 shipped false "dump.sql" calm_world []))
     = [ compose_command_line shipped "down --remove-orphans " None ]
  /\ fst (import_db 1 (with_compose_files ["docker-compose.base.yml"])
            "" "dump.sql" calm_world [])
     = Raise (ValueError "Unsupported database backend.")
  /\ commands (snd (import_db 1 (with_compose_files ["docker-compose.base.yml"])
                      "" "dump.sql" calm_world []))
     = [ compose_command_line (with_compose_files ["docker-compose.base.yml"])
           "stop -- nautobot worker beat" None;
         compose_command_line (with_compose_files ["docker-compose.base.yml"])
           "up --detach" (Some "db");
         compose_command_line (with_compose_files ["docker-compose.base.yml"])
           "ps -q -- db" None;
         "docker inspect --format='{{.State.Health.Status}}' c0ffee" ].
Proof.
  split; [ vm_compute; reflexivity | ].
  split; [ vm_compute; discriminate | ].
  split; [ vm_compute; reflexivity | ].
  split; vm_compute; reflexivity.
Qed.

(** Once [local] is a valid truthy value, [run_command] raises no
    [ValueError]. *)
Lemma nve_run_command (context : settings) (command : string) (kw : kwargs)
  (b : bool) :
  is_truthy (local context) = Ret b ->
  never_value_error (run_command context command kw).
Proof.
  intros Hb w tr msg. unfold run_command. unfold bind at 1, lift. rewrite Hb.
  revert w tr msg.
  change (never_value_error
            (if b then context_run command kw ;; ret tt
             else
               results <- docker_compose context
                            "ps --services --filter status=running"
                            {| kw_env := None; kw_service := None;
                               kw_pty := None; kw_echo := None;
                               kw_hide := Some (VStr "out") |} ;;
               docker_compose context
                 (if contains "nautobot" (stdout results)
                  then "exec nautobot " ++ command
                  else "run --rm --entrypoint '" ++ command ++ "' nautobot")
                 {| kw_env := kw_env kw; kw_service := kw_service kw;
                    kw_pty := Some (match kw_pty kw with
                                    | Some p => p
                                    | None => true
                                    end);
                    kw_echo := kw_echo kw; kw_hide := kw_hide kw |} ;;
               ret tt)).
  destruct b; nve.
Qed.

Ltac nve_task :=
  repeat
    lazymatch goal with
    | |- never_value_error (run_command _ _ _) =>
        eapply nve_run_command; eassumption
    | |- never_value_error (if ?b then _ else _) => destruct b
    | |- never_value_error (bind _ _) => apply nve_bind; [ | intros ? ]
    | |- never_value_error _ => solve [ auto with nve ]
    end.

(** A [ValueError] out of a computation that raises none is absurd. *)
Ltac no_value_error H :=
  exfalso;
  match type of H with
  | ?m ?w0 ?t0 = (Raise (ValueError ?msg), _) =>
      let Hn := fresh "Hn" in
      assert (Hn : never_value_error m) by nve_task;
      apply (Hn w0 t0 msg); rewrite H; reflexivity
  end.

Lemma run_command_value_error_first (context : settings) (command : string)
  (kw : kwargs) (w : world) (msg : string) (tr : list event) :
  run_command context command kw w [] = (Raise (ValueError msg), tr) ->
  tr = [].
Proof.
  intros H. destruct (is_truthy (local context)) as [b | e |] eqn:Ht.
  - no_value_error H.
  - rewrite (run_command_truthy_guard context command kw w e Ht) in H.
    now inversion H.
  - unfold run_command, bind, lift in H. rewrite Ht in H. discriminate.
Qed.

Lemma docs_value_error_first (context : settings) (w : world)
  (msg : string) (tr : list event) :
  docs context w [] = (Raise (ValueError msg), tr) -> tr = [].
Proof.
  intros H. destruct (is_truthy (local context)) as [b | e |] eqn:Ht.
  - unfold docs in H. unfold bind at 1, lift in H. rewrite Ht in H.
    no_value_error H.
  - rewrite (docs_truthy_guard context w e Ht) in H. now inversion H.
  - unfold docs, bind, lift in H. rewrite Ht in H. discriminate.
Qed.

Lemma tests_truthy_guard (context : settings)
  (failfast keepdb lint_only : bool) (w : world) (e : exn) :
  is_truthy (local context) = Raise e ->
  tests context failfast keepdb lint_only w [] = (Raise e, []).
Proof.
  intros H. unfold tests, bind, lift. rewrite H. reflexivity.
Qed.

Lemma tests_value_error_first (context : settings)
  (failfast keepdb lint_only : bool) (w : world)
  (msg : string) (tr : list event) :
  tests context failfast keepdb lint_only w [] = (Raise (ValueError msg), tr) ->
  tr = [].
Proof.
  intros H. destruct (is_truthy (local context)) as [b | e |] eqn:Ht.
  - unfold tests in H. unfold bind at 1, lift in H. rewrite Ht in H.
    unfold black, ruff, flake8, bandit, yamllint, lock, check_migrations,
      pylint, build_and_check_docs, unittest, unittest_coverage in H.
    no_value_error H.
  - rewrite (tests_truthy_guard context failfast keepdb lint_only w e Ht) in H.
    now inversion H.
  - unfold tests, bind, lift in H. rewrite Ht in H. discriminate.
Qed.

(** The two guards of [destroy] stand after the [down] command. *)
Lemma destroy_value_error (steps : nat) (context : settings) (volumes : bool)
  (import_db_file : string) (w : world) (msg : string) (tr : list event) :
  destroy steps context volumes import_db_file w []
  = (Raise (ValueError msg), tr) ->
  commands tr = [ compose_command_line context (down_command volumes) None ]
  /\ import_db_file <> ""
  /\ ((volumes = false
       /\ msg = "Cannot specify `--no-volumes` and `--import-db-file` arguments at the same time.")
      \/ (volumes = true
          /\ is_file w (absolute w import_db_file) = false
          /\ msg = "File not found: " ++ absolute w import_db_file)).
Proof.
  intros H. unfold destroy in H.
  unfold bind at 1 in H. cbn [print] in H. unfold bind at 1 in H.
  fold (down_command volumes) in H.
  rewrite docker_compose_run in H. cbn zeta in H.
  destruct (exited _ =? 0)%Z; [ | discriminate ].
  destruct (truthy import_db_file) eqn:Hf; cbn [negb] in H; [ | discriminate ].
  apply truthy_nonempty in Hf.
  destruct volumes; cbn [negb] in H.
  - unfold bind at 1 in H. cbn [print] in H.
    unfold bind at 1 in H. cbn [ask] in H.
    destruct (is_file w (absolute w import_db_file)) eqn:Hfile;
      cbn [negb] in H.
    + no_value_error H.
    + inversion H; subst; clear H.
      cbn [app commands compose_invocation inv_command no_kwargs kw_service].
      split; [ reflexivity | ]. split; [ exact Hf | ].
      right. repeat split.
  - inversion H; subst; clear H.
    cbn [app commands compose_invocation inv_command no_kwargs kw_service].
    split; [ reflexivity | ]. split; [ exact Hf | ].
    left. split; reflexivity.
Qed.

Lemma nve_import_db_prelude (steps : nat) (context : settings) :
  never_value_error (import_db_prelude steps context).
Proof. unfold import_db_prelude. nve. Qed.

Lemma nve_backup_db_prelude (steps : nat) (context : settings) :
  never_value_error (backup_db_prelude steps context).
Proof. unfold backup_db_prelude. nve. Qed.

(** The backend guard of [import_db] stands after its container commands. *)
Lemma import_db_value_error_after_prelude (steps : nat) (context : settings)
  (db_name input_file : string) (w : world) (msg : string) (tr : list event) :
  import_db steps context db_name input_file w []
  = (Raise (ValueError msg), tr) ->
  import_db_prelude steps context w [] = (Ret tt, tr).
Proof.
  intros H.
  pose proof (nve_import_db_prelude steps context w [] msg) as Hn.
  unfold import_db in H. rewrite bind3_split in H.
  fold (import_db_prelude steps context) in H.
  destruct (import_db_prelude steps context w []) as [[[] | e |] t];
    cbn [fst] in Hn.
  - destruct (_is_compose_included context "mysql");
      [ | destruct (_is_compose_included context "postgres") ].
    3: { unfold bind, raise in H. now inversion H. }
    all: unfold bind at 1 in H; cbn [ret] in H; no_value_error H.
  - inversion H; subst. now elim Hn.
  - discriminate.
Qed.

(** The backend guard of [backup_db] stands after its container commands. *)
Lemma backup_db_value_error_after_prelude (steps : nat) (context : settings)
  (db_name output_file : string) (readable : bool) (w : world)
  (msg : string) (tr : list event) :
  backup_db steps context db_name output_file readable w []
  = (Raise (ValueError msg), tr) ->
  backup_db_prelude steps context w [] = (Ret tt, tr).
Proof.
  intros H.
  pose proof (nve_backup_db_prelude steps context w [] msg) as Hn.
  unfold backup_db in H. rewrite bind2_split in H.
  fold (backup_db_prelude steps context) in H.
  destruct (backup_db_prelude steps context w []) as [[[] | e |] t];
    cbn [fst] in Hn.
  - destruct (_is_compose_included context "mysql");
      [ | destruct (_is_compose_included context "postgres") ].
    3: { unfold bind, raise in H. now inversion H. }
    all: unfold bind at 1 in H; cbn [ret] in H; no_value_error H.
  - inversion H; subst. now elim Hn.
  - discriminate.
Qed.

(** C2, amended.  Every input-validation guard raises where it stands in
    its function.  Whenever [dbshell] (mutually exclusive arguments, an
    output file without a source, an unsupported backend), [run_command],
    [docs] or [tests] (an invalid truthy string) raises [ValueError], nothing
    has been invoked or printed; and an invalid [local] does make the last
    three raise so.  Whenever [destroy] raises [ValueError] (for
    [--no-volumes] with a file to import, or for a file that does not
    exist), exactly the [down --remove-orphans] command has been invoked.
    Whenever [import_db] or [backup_db] raises [ValueError] (an unsupported
    backend), the container commands the task runs first, starting with
    [stop -- nautobot worker beat] and with [up --detach db], have been
    invoked and have completed, and nothing after them. *)
Theorem guards_raise_where_they_stand (steps : nat) (context : settings)
  (w : world) :
  (forall db_name input_file output_file query msg tr,
      dbshell context db_name input_file output_file query w []
      = (Raise (ValueError msg), tr) ->
      tr = [])
  /\ (forall msg tr,
        (forall command kw,
            run_command context command kw w [] = (Raise (ValueError msg), tr) ->
            tr = [])
        /\ (docs context w [] = (Raise (ValueError msg), tr) -> tr = [])
        /\ (forall failfast keepdb lint_only,
              tests context failfast keepdb lint_only w []
              = (Raise (ValueError msg), tr) ->
              tr = []))
  /\ (forall e,
        is_truthy (local context) = Raise e ->
        (forall command kw, run_command context command kw w [] = (Raise e, []))
        /\ docs context w [] = (Raise e, [])
        /\ (forall failfast keepdb lint_only,
              tests context failfast keepdb lint_only w [] = (Raise e, [])))
  /\ (forall volumes import_db_file msg tr,
        destroy steps context volumes import_db_file w []
        = (Raise (ValueError msg), tr) ->
        commands tr
        = [ compose_command_line context (down_command volumes) None ]
        /\ import_db_file <> ""
        /\ ((volumes = false
             /\ msg = "Cannot specify `--no-volumes` and `--import-db-file` arguments at the same time.")
            \/ (volumes = true
                /\ is_file w (absolute w import_db_file) = false
                /\ msg = "File not found: " ++ absolute w import_db_file)))
  /\ (forall import_db_file,
        import_db_file <> "" ->
        commands (snd (destroy steps context false import_db_file w []))
        = [ compose_command_line context "down --remove-orphans " None ]
        /\ (fst (destroy steps context false import_db_file w [])
            = Raise (ValueError
                "Cannot specify `--no-volumes` and `--import-db-file` arguments at the same time.")
            \/ fst (destroy steps context false import_db_file w [])
               = Raise (UnexpectedExit
                          (compose_command_line context
                             "down --remove-orphans " None))))
  /\ (forall db_name dump_file msg tr,
        import_db steps context db_name dump_file w []
        = (Raise (ValueError msg), tr) ->
        msg = "Unsupported database backend."
        /\ import_db_prelude steps context w [] = (Ret tt, tr)
        /\ exists rest,
             commands tr
             = compose_command_line context "stop -- nautobot worker beat" None
               :: rest)
  /\ (forall db_name dump_file readable msg tr,
        backup_db steps context db_name dump_file readable w []
        = (Raise (ValueError msg), tr) ->
        msg = "Unsupported database backend."
        /\ backup_db_prelude steps context w [] = (Ret tt, tr)
        /\ exists rest,
             commands tr
             = compose_command_line context "up --detach" (Some "db") :: rest).
Proof.
  split; [ | split; [ | split; [ | split; [ | split; [ | split ] ] ] ] ].
  - intros db_name input_file output_file query msg tr.
    apply dbshell_value_error_first.
  - intros msg tr. split; [ | split ].
    + intros command kw. apply run_command_value_error_first.
    + apply docs_value_error_first.
    + intros failfast keepdb lint_only. apply tests_value_error_first.
  - intros e He. split; [ | split ].
    + intros command kw. now apply run_command_truthy_guard.
    + now apply docs_truthy_guard.
    + intros failfast keepdb lint_only. now apply tests_truthy_guard.
  - intros volumes import_db_file msg tr. apply destroy_value_error.
  - intros import_db_file Hf. now apply destroy_no_volumes.
  - intros db_name dump_file msg tr H.
    pose proof (import_db_value_error _ _ _ _ _ _ _ H) as (Hmsg & _).
    pose proof (import_db_value_error_after_prelude _ _ _ _ _ _ _ H) as Hpre.
    split; [ exact Hmsg | ]. split; [ exact Hpre | ].
    destruct (import_db_prelude_first steps context w) as [rest Hrest].
    rewrite Hpre in Hrest. eauto.
  - intros db_name dump_file readable msg tr H.
    pose proof (backup_db_value_error _ _ _ _ _ _ _ _ H) as (Hmsg & _).
    pose proof (backup_db_value_error_after_prelude _ _ _ _ _ _ _ _ H) as Hpre.
    split; [ exact Hmsg | ]. split; [ exact Hpre | ].
    destruct (backup_db_prelude_first steps context w) as [rest Hrest].
    rewrite Hpre in Hrest. eauto.
Qed.

(** On the shipped configuration, which has a backend file: [destroy]
    without volumes and with a file to import has run [down] when it
    raises. *)
Lemma guards_raise_where_they_stand_witness :
  destroy 1 shipped false "dump.sql" calm_world []
  = (Raise (ValueError
       "Cannot specify `--no-volumes` and `--import-db-file` arguments at the same time."),
     snd (destroy 1 shipped false "dump.sql" calm_world []))
  /\ commands (snd (destroy 1 shipped false "dump.sql" calm_world []))
     = [ compose_command_line shipped (down_command false) None ].
Proof.
  assert (H : destroy 1 shipped false "dump.sql" calm_world []
              = (Raise (ValueError
                   "Cannot specify `--no-volumes` and `--import-db-file` arguments at the same time."),
                 snd (destroy 1 shipped false "dump.sql" calm_world [])))
    by (vm_compute; reflexivity).
  split; [ exact H | ].
  exact (proj1 (proj1 (proj2 (proj2 (proj2
           (guards_raise_where_they_stand 1 shipped calm_world))))
           false "dump.sql" _ _ H)).
Defined.

(** ** Migration 0003 *)

Lemma dict_get_set_same {V} (k : string) (v : V) (d : dict V) :
  dict_get k (dict_set k v d) = Some v.
Proof.
  induction d as [| [k' v'] d IH]; cbn.
  - now rewrite String.eqb_refl.
  - destruct (String.eqb k k') eqn:E; cbn; rewrite E; [ reflexivity | exact IH ].
Qed.

Lemma dict_get_set_other {V} (k k' : string) (v : V) (d : dict V) :
  k <> k' -> dict_get k (dict_set k' v d) = dict_get k d.
Proof.
  intros Hne. induction d as [| [k0 v0] d IH]; cbn.
  - apply String.eqb_neq in Hne. now rewrite Hne.
  - destruct (String.eqb k' k0) eqn:E; cbn.
    + apply String.eqb_eq in E. subst k0.
      apply String.eqb_neq in Hne. now rewrite Hne.
    + now rewrite IH.
Qed.

Lemma dict_set_same {V} (k : string) (v : V) (d : dict V) :
  dict_get k d = Some v -> dict_set k v d = d.
Proof.
  induction d as [| [k' v'] d IH]; cbn; [ discriminate | ].
  destruct (String.eqb k k'); intros H.
  - now inversion H.
  - now rewrite IH.
Qed.

Section Migration0003Facts.

Import Migration0003.

(** The state after the two operations, when the model exists. *)
Lemma apply_Migration (st : app_state) (fields : dict field) :
  dict_get "synclogentry" st = Some fields ->
  apply Migration st
  = Ret (dict_set "synclogentry"
           (dict_set "object_repr" object_repr_field
              (dict_set "message" message_field fields))
           (dict_set "synclogentry"
              (dict_set "message" message_field fields) st)).
Proof.
  intros H. unfold apply, Migration.
  cbn [operations apply_operations state_forwards].
  change (lower "synclogentry") with "synclogentry".
  rewrite H, dict_get_set_same. reflexivity.
Qed.

(** C5. After migration 0003 the fields [message] and [object_repr] of
    [SyncLogEntry] are both [TextField]s without a length bound whose default
    value is the empty string, and [object_repr] is not editable.  The
    migration applies whenever the model exists in the state.  ([object_repr]
    declares its default; [message] declares none and gets the empty string
    as the default of a non-null text field.) *)
Theorem migration_0003_text_fields (st : app_state) (fields : dict field) :
  dict_get "synclogentry" st = Some fields ->
  exists st' m o,
    apply Migration st = Ret st'
    /\ get_field st' "synclogentry" "message" = Some m
    /\ get_field st' "synclogentry" "object_repr" = Some o
    /\ kind m = TextField /\ max_length m = None /\ get_default m = Some ""
    /\ kind o = TextField /\ max_length o = None /\ get_default o = Some ""
    /\ editable o = false
    /\ default m = None /\ default o = Some "".
Proof.
  intros H. eexists. exists message_field, object_repr_field.
  split; [ apply (apply_Migration st fields H) | ].
  unfold get_field. rewrite !dict_get_set_same.
  rewrite dict_get_set_other by discriminate.
  rewrite dict_get_set_same.
  repeat split.
Qed.

Lemma migration_0003_text_fields_witness :
  dict_get "synclogentry" state_0002 <> None
  /\ exists st' m o,
       apply Migration state_0002 = Ret st'
       /\ get_field st' "synclogentry" "message" = Some m
       /\ get_field st' "synclogentry" "object_repr" = Some o
       /\ kind m = TextField /\ max_length m = None /\ get_default m = Some ""
       /\ kind o = TextField /\ max_length o = None /\ get_default o = Some ""
       /\ editable o = false
       /\ default m = None /\ default o = Some "".
Proof.
  split; [ discriminate | ].
  eapply (migration_0003_text_fields state_0002). reflexivity.
Defined.

(** C6. Migration 0003 is idempotent: on a state whose [message] and
    [object_repr] fields already have the target definitions it changes
    nothing, and applying it a second time changes nothing. *)
Theorem migration_0003_idempotent (st : app_state) :
  get_field st "synclogentry" "message" = Some message_field ->
  get_field st "synclogentry" "object_repr" = Some object_repr_field ->
  apply Migration st = Ret st
  /\ forall st0 st1,
       apply Migration st0 = Ret st1 -> apply Migration st1 = Ret st1.
Proof.
  assert (Hfix : forall s,
             get_field s "synclogentry" "message" = Some message_field ->
             get_field s "synclogentry" "object_repr" = Some object_repr_field ->
             apply Migration s = Ret s).
  { intros s Hm Ho. unfold get_field in Hm, Ho.
    destruct (dict_get "synclogentry" s) as [fields |] eqn:Hf; [ | discriminate ].
    rewrite (apply_Migration s fields Hf).
    rewrite (dict_set_same "message" message_field fields Hm).
    rewrite (dict_set_same "object_repr" object_repr_field fields Ho).
    rewrite (dict_set_same "synclogentry" fields s Hf).
    rewrite (dict_set_same "synclogentry" fields s Hf).
    reflexivity. }
  intros Hm Ho. split; [ now apply Hfix | ].
  intros st0 st1 H01.
  unfold apply, Migration in H01.
  cbn [operations apply_operations state_forwards] in H01.
  change (lower "synclogentry") with "synclogentry" in H01.
  destruct (dict_get "synclogentry" st0) as [fields |] eqn:Hf; [ | discriminate ].
  rewrite dict_get_set_same in H01. inversion H01; subst st1; clear H01.
  apply Hfix; unfold get_field; rewrite !dict_get_set_same.
  - rewrite dict_get_set_other by discriminate. apply dict_get_set_same.
  - reflexivity.
Qed.

Lemma migration_0003_idempotent_witness :
  get_field state_0003 "synclogentry" "message" = Some message_field
  /\ get_field state_0003 "synclogentry" "object_repr" = Some object_repr_field
  /\ apply Migration state_0003 = Ret state_0003.
Proof.
  split; [ reflexivity | split; [ reflexivity | ] ].
  apply (migration_0003_idempotent state_0003); reflexivity.
Defined.

End Migration0003Facts.

(** ** The app descriptor *)

(** C7. [NautobotSSOTAppConfig.ready()] does nothing beyond delegating to
    the base class's [ready()]: the instance and the host are left exactly
    as the base method leaves them, an exception of the base method
    propagates unchanged, and the method itself returns [None]. *)
Theorem ready_only_delegates (Host : Type)
  (NautobotAppConfig_ready
     : AppConfig.app_config * Host
       -> result value * (AppConfig.app_config * Host))
  (self_and_host : AppConfig.app_config * Host) :
  snd (AppConfig.ready Host NautobotAppConfig_ready self_and_host)
  = snd (NautobotAppConfig_ready self_and_host)
  /\ fst (AppConfig.ready Host NautobotAppConfig_ready self_and_host)
     = match fst (NautobotAppConfig_ready self_and_host) with
       | Ret _ => Ret VNone
       | Raise e => Raise e
       | Running => Running
       end.
Proof.
  unfold AppConfig.ready.
  destruct (NautobotAppConfig_ready self_and_host) as [[v | e |] after];
    split; reflexivity.
Qed.

(** * Further properties of the task runner *)

(** ** [is_truthy], beyond the twelve words *)

Lemma is_space_lower_char (c : ascii) : is_space (lower_char c) = is_space c.
Proof. destruct c as [[] [] [] [] [] [] [] []]; reflexivity. Qed.

Lemma has_space_lower (s : string) : has_space (lower s) = has_space s.
Proof.
  unfold has_space. induction s as [| c s IH]; [ reflexivity | ].
  cbn [lower list_ascii_of_string existsb].
  now rewrite is_space_lower_char, IH.
Qed.

(** X1. [is_truthy] does not trim its argument: a string holding a
    whitespace character anywhere (a leading blank, a trailing newline) is
    rejected with [ValueError], whatever else it holds. *)
Theorem is_truthy_never_trims (s : string) :
  has_space s = true ->
  is_truthy (VStr s) = Raise (ValueError ("Invalid truthy value: `" ++ s ++ "`")).
Proof.
  intros Hs. rewrite <- has_space_lower in Hs.
  unfold is_truthy. cbn [str].
  destruct (str_in (lower s) ["y"; "yes"; "t"; "true"; "on"; "1"]) eqn:Ht.
  { apply str_in_In in Ht. cbn in Ht. exfalso.
    repeat (destruct Ht as [Ht | Ht];
            [ rewrite <- Ht in Hs; discriminate Hs | ]).
    exact Ht. }
  destruct (str_in (lower s) ["n"; "no"; "f"; "false"; "off"; "0"]) eqn:Hf.
  { apply str_in_In in Hf. cbn in Hf. exfalso.
    repeat (destruct Hf as [Hf | Hf];
            [ rewrite <- Hf in Hs; discriminate Hs | ]).
    exact Hf. }
  reflexivity.
Qed.

Lemma is_truthy_never_trims_witness :
  has_space " yes" = true
  /\ is_truthy (VStr " yes") = Raise (ValueError "Invalid truthy value: ` yes`").
Proof.
  split; [ reflexivity | ].
  apply (is_truthy_never_trims " yes"). reflexivity.
Defined.

Lemma lower_uint (d : Decimal.uint) :
  lower (NilEmpty.string_of_uint d) = NilEmpty.string_of_uint d.
Proof. induction d; cbn; rewrite ?IHd; reflexivity. Qed.

Lemma lower_int (z : Z) : lower (str (VInt z)) = str (VInt z).
Proof.
  cbn [str]. destruct (Z.to_int z) as [d | d]; cbn [NilZero.string_of_int].
  - destruct d; try reflexivity; apply lower_uint.
  - cbn [lower]. f_equal. destruct d; try reflexivity; apply lower_uint.
Qed.

(** Reading the decimal rendering of an integer back gives that integer. *)
Lemma int_of_str (z : Z) :
  exists d, NilZero.int_of_string (str (VInt z)) = Some d /\ Z.of_int d = z.
Proof.
  cbn [str]. pose proof (DecimalZ.of_to z) as Hz.
  destruct (Z.to_int z) as [[| | | | | | | | | |] | [| | | | | | | | | |]] eqn:E;
    try (eexists; split; [ apply NilZero.isi; discriminate | exact Hz ]).
  - exists (Decimal.Pos (Decimal.D0 Decimal.Nil)). split; [ reflexivity | exact Hz ].
  - exists (Decimal.Neg (Decimal.D0 Decimal.Nil)). split; [ reflexivity | exact Hz ].
Qed.

Lemma str_int_is (z : Z) (word : string) (d : Decimal.signed_int) :
  NilZero.int_of_string word = Some d ->
  str (VInt z) = word -> z = Z.of_int d.
Proof.
  intros Hw Hs. destruct (int_of_str z) as (d' & Hd & Hz).
  rewrite Hs, Hw in Hd. inversion Hd. now subst.
Qed.

Lemma str_int_is_not (z : Z) (word : string) :
  NilZero.int_of_string word = None -> str (VInt z) <> word.
Proof.
  intros Hw Hs. destruct (int_of_str z) as (d' & Hd & _).
  rewrite Hs, Hw in Hd. discriminate.
Qed.

(** X2. Among the integers [is_truthy] accepts exactly 1 (as [True]) and
    0 (as [False]), and every other integer, negative ones included, raises
    [ValueError].  For an integer of at most 4300 digits, which [str()]
    converts, the error names it: [Invalid truthy value: `<numeral>`]. *)
Theorem is_truthy_int (z : Z) :
  (is_truthy (VInt z) = Ret true <-> z = 1%Z)
  /\ (is_truthy (VInt z) = Ret false <-> z = 0%Z)
  /\ (z <> 1%Z -> z <> 0%Z ->
      exists msg, is_truthy (VInt z) = Raise (ValueError msg))
  /\ (z <> 1%Z -> z <> 0%Z -> (Z.abs z < 10 ^ 4300)%Z ->
      is_truthy (VInt z)
      = Raise (ValueError ("Invalid truthy value: `" ++ str (VInt z) ++ "`"))).
Proof.
  assert (Hother : z <> 1%Z -> z <> 0%Z ->
            is_truthy (VInt z)
            = Raise (ValueError ("Invalid truthy value: `" ++ str (VInt z) ++ "`"))).
  { intros E1 E0. unfold is_truthy. rewrite lower_int.
    destruct (str_in (str (VInt z)) ["y"; "yes"; "t"; "true"; "on"; "1"]) eqn:Ht.
    { apply str_in_In in Ht. cbn [In] in Ht. exfalso.
      destruct Ht as [H | [H | [H | [H | [H | [H | []]]]]]]; symmetry in H;
        try (now apply str_int_is_not in H).
      apply (str_int_is z "1" (Decimal.Pos (Decimal.D1 Decimal.Nil))) in H;
        [ now apply E1 | reflexivity ]. }
    destruct (str_in (str (VInt z)) ["n"; "no"; "f"; "false"; "off"; "0"]) eqn:Hf.
    { apply str_in_In in Hf. cbn [In] in Hf. exfalso.
      destruct Hf as [H | [H | [H | [H | [H | [H | []]]]]]]; symmetry in H;
        try (now apply str_int_is_not in H).
      apply (str_int_is z "0" (Decimal.Pos (Decimal.D0 Decimal.Nil))) in H;
        [ now apply E0 | reflexivity ]. }
    reflexivity. }
  destruct (Z.eq_dec z 1) as [-> | E1].
  { split; [ split; reflexivity | ].
    split; [ split; discriminate | ].
    split; intros H; now elim H. }
  destruct (Z.eq_dec z 0) as [-> | E0].
  { split; [ split; discriminate | ].
    split; [ split; reflexivity | ].
    split; intros _ H; now elim H. }
  rewrite (Hother E1 E0).
  split; [ split; [ discriminate | intros H; now elim E1 ] | ].
  split; [ split; [ discriminate | intros H; now elim E0 ] | ].
  split; [ intros _ _; eauto | intros _ _ _; reflexivity ].
Qed.

Lemma is_truthy_int_witness :
  (-7 <> 1)%Z /\ (-7 <> 0)%Z /\ (Z.abs (-7) < 10 ^ 4300)%Z
  /\ is_truthy (VInt (-7)) = Raise (ValueError "Invalid truthy value: `-7`").
Proof.
  split; [ discriminate | ]. split; [ discriminate | ].
  split; [ reflexivity | ].
  apply (proj2 (proj2 (proj2 (is_truthy_int (-7))))).
  - discriminate.
  - discriminate.
  - reflexivity.
Defined.

(** ** The health wait *)

Lemma rounds_snoc (k : nat) (container_id : string) :
  rounds k container_id +++ poll_round container_id = rounds (S k) container_id.
Proof.
  induction k as [| k IH]; [ reflexivity | ].
  cbn [rounds]. rewrite <- app_assoc, IH. reflexivity.
Qed.

(** One turn of the loop. *)
Lemma await_healthy_container_step (steps : nat) (context : settings)
  (container_id : string) (w : world) (tr : list event) :
  _await_healthy_container (S steps) context container_id w tr
  = if (exited (respond w tr (inspect_invocation container_id)) =? 0)%Z then
      if String.eqb
           (strip (stdout (respond w tr (inspect_invocation container_id))))
           "healthy"
      then (Ret tt, tr +++ [Run (inspect_invocation container_id)])
      else _await_healthy_container steps context container_id w
             (tr +++ poll_round container_id)
    else (Raise (UnexpectedExit (inv_command (inspect_invocation container_id))),
          tr +++ [Run (inspect_invocation container_id)]).
Proof.
  cbn [_await_healthy_container]. unfold bind at 1. unfold context_run.
  fold (inspect_invocation container_id).
  destruct (exited (respond w tr (inspect_invocation container_id)) =? 0)%Z;
    [ | reflexivity ].
  destruct (String.eqb _ "healthy"); [ reflexivity | ].
  unfold bind, print, sleep, poll_round. now rewrite <- !app_assoc.
Qed.

(** [strip] takes off every whitespace character: a no-break space (the
    bytes 194 160, or the lone byte 160), a next line (133), an em space
    (226 128 131), an ideographic space (227 128 128); and it leaves the
    last byte of another character (195 160, a grave) where it is. *)
Example strip_whitespace :
  strip (of_codes [194; 160] ++ "healthy" ++ of_codes [160; 10])
  = "healthy"
  /\ strip (of_codes [133; 226; 128; 131] ++ "c0ffee"
            ++ of_codes [227; 128; 128; 13; 10])
     = "c0ffee"
  /\ strip (" caf" ++ of_codes [195; 160] ++ " ")
     = "caf" ++ of_codes [195; 160]
  /\ strip "  healthy " = "healthy"
  /\ strip "not healthy" = "not healthy".
Proof. repeat split. Qed.


(** X4. The step budget only matters while the wait is still running: once
    [_await_healthy_container] has ended within [n] steps (healthy, or a
    failed poll), it ends the same way, with the same trace, for every
    larger budget. *)
Theorem await_healthy_container_more_steps (n m : nat) (context : settings)
  (container_id : string) (w : world) (tr : list event) :
  (n <= m)%nat ->
  fst (_await_healthy_container n context container_id w tr) <> Running ->
  _await_healthy_container m context container_id w tr
  = _await_healthy_container n context container_id w tr.
Proof.
  revert m tr. induction n as [| n IH]; intros m tr Hle Hend.
  - exfalso. apply Hend. reflexivity.
  - destruct m as [| m]; [ lia | ].
    rewrite (await_healthy_container_step n) in Hend |- *.
    rewrite (await_healthy_container_step m).
    destruct (exited _ =? 0)%Z; [ | reflexivity ].
    destruct (String.eqb _ "healthy"); [ reflexivity | ].
    apply IH; [ lia | exact Hend ].
Qed.

Lemma await_healthy_container_more_steps_witness :
  (3 <= 7)%nat
  /\ _await_healthy_container 7 shipped "c0ffee" (slow_world 2) []
     = _await_healthy_container 3 shipped "c0ffee" (slow_world 2) [].
Proof.
  split; [ lia | ].
  apply (await_healthy_container_more_steps 3 7 shipped "c0ffee" (slow_world 2) []).
  - lia.
  - vm_compute. discriminate.
Defined.

Example await_healthy_container_two_rounds :
  _await_healthy_container 3 shipped "c0ffee" (slow_world 2) []
  = (Ret tt,
     rounds 2 "c0ffee" +++ [Run (inspect_invocation "c0ffee")]).
Proof. vm_compute. reflexivity. Qed.

Example await_healthy_container_budget_too_small :
  _await_healthy_container 2 shipped "c0ffee" (slow_world 2) []
  = (Running, rounds 2 "c0ffee").
Proof. vm_compute. reflexivity. Qed.

(** ** [docker_compose] *)

Lemma dict_update_cons {V} (d : dict V) (k : string) (v : V) (e : dict V) :
  dict_update d ((k, v) :: e) = dict_update (dict_set k v d) e.
Proof. reflexivity. Qed.

Lemma dict_get_update_absent {V} (k : string) (d e : dict V) :
  ~ In k (map fst e) -> dict_get k (dict_update d e) = dict_get k d.
Proof.
  revert d. induction e as [| [k0 v0] e IH]; intros d Hk; [ reflexivity | ].
  rewrite dict_update_cons, IH.
  - apply dict_get_set_other. intros ->. apply Hk. now left.
  - intros H. apply Hk. now right.
Qed.

Lemma dict_get_update_present {V} (k : string) (v : V) (d e : dict V) :
  NoDup (map fst e) -> dict_get k e = Some v ->
  dict_get k (dict_update d e) = Some v.
Proof.
  revert d. induction e as [| [k0 v0] e IH]; intros d Hnd Hk; [ discriminate | ].
  inversion Hnd as [| ? ? Hnotin Hnd']; subst.
  rewrite dict_update_cons. cbn [dict_get] in Hk.
  destruct (String.eqb k k0) eqn:E.
  - apply String.eqb_eq in E. subst k0. inversion Hk; subst v0.
    rewrite dict_get_update_absent by exact Hnotin.
    apply dict_get_set_same.
  - now apply IH.
Qed.

Lemma dict_get_None {V} (k : string) (d : dict V) :
  dict_get k d = None <-> ~ In k (map fst d).
Proof.
  induction d as [| [k0 v0] d IH]; cbn; [ tauto | ].
  destruct (String.eqb k k0) eqn:E.
  - apply String.eqb_eq in E. subst. split; [ discriminate | tauto ].
  - apply String.eqb_neq in E. rewrite IH. split.
    + intros H [H' | H']; [ now apply E | now apply H ].
    + tauto.
Qed.

(** X5. [docker_compose] runs exactly one command, after one printed
    notice.  The environment it passes holds, for every variable the caller
    supplied, the caller's value, and for every other variable the default
    ([COMPOSE_HTTP_TIMEOUT], [NAUTOBOT_VER], [PYTHON_VER] from the
    configuration); the [service] keyword is consumed, and [pty], [echo] and
    [hide] travel unchanged.  The call fails exactly when the command exits
    with a non-zero status. *)
Theorem docker_compose_environment (context : settings) (command : string)
  (kw : kwargs) (w : world) (tr : list event) :
  NoDup (map fst (caller_env kw)) ->
  exists i env,
    snd (docker_compose context command kw w tr)
    = tr +++ [Print (compose_notice command); Run i]
    /\ inv_command i = compose_command_line context command (kw_service kw)
    /\ kw_env (inv_kwargs i) = Some env
    /\ (forall k v, dict_get k (caller_env kw) = Some v -> dict_get k env = Some v)
    /\ (forall k, dict_get k (caller_env kw) = None ->
                  dict_get k env = dict_get k (default_env context))
    /\ kw_service (inv_kwargs i) = None
    /\ kw_pty (inv_kwargs i) = kw_pty kw
    /\ kw_echo (inv_kwargs i) = kw_echo kw
    /\ kw_hide (inv_kwargs i) = kw_hide kw
    /\ (fst (docker_compose context command kw w tr)
        = Raise (UnexpectedExit (inv_command i))
        <-> exited (respond w (tr +++ [Print (compose_notice command)]) i) <> 0%Z).
Proof.
  intros Hnd. rewrite docker_compose_run. cbn zeta.
  exists (compose_invocation context command kw).
  exists (dict_update (default_env context) (caller_env kw)).
  cbn [fst snd]. repeat match goal with |- _ /\ _ => split end; try reflexivity.
  - now rewrite <- app_assoc.
  - intros k v Hk. now apply dict_get_update_present.
  - intros k Hk. apply dict_get_update_absent. now apply dict_get_None.
  - destruct (exited _ =? 0)%Z eqn:E;
      [ apply Z.eqb_eq in E | apply Z.eqb_neq in E ]; split; intros H;
      try discriminate; try contradiction; try reflexivity; exact E.
Qed.

Lemma docker_compose_environment_witness :
  NoDup (map fst (caller_env
           {| kw_env := Some [("PYTHON_VER", "3.8"); ("_SQL_QUERY", "SELECT 1")];
              kw_service := None; kw_pty := None; kw_echo := None;
              kw_hide := None |}))
  /\ kw_env (inv_kwargs (compose_invocation shipped "ps"
        {| kw_env := Some [("PYTHON_VER", "3.8"); ("_SQL_QUERY", "SELECT 1")];
           kw_service := None; kw_pty := None; kw_echo := None;
           kw_hide := None |}))
     = Some [ ("COMPOSE_HTTP_TIMEOUT", "86400"); ("NAUTOBOT_VER", "2.1.0");
              ("PYTHON_VER", "3.8"); ("_SQL_QUERY", "SELECT 1") ]
  /\ exists i env,
       snd (docker_compose shipped "ps"
              {| kw_env := Some [("PYTHON_VER", "3.8"); ("_SQL_QUERY", "SELECT 1")];
                 kw_service := None; kw_pty := None; kw_echo := None;
                 kw_hide := None |} calm_world [])
       = [] +++ [Print (compose_notice "ps"); Run i]
       /\ kw_env (inv_kwargs i) = Some env
       /\ dict_get "PYTHON_VER" env = Some "3.8".
Proof.
  assert (Hnd : NoDup (map fst (caller_env
           {| kw_env := Some [("PYTHON_VER", "3.8"); ("_SQL_QUERY", "SELECT 1")];
              kw_service := None; kw_pty := None; kw_echo := None;
              kw_hide := None |}))).
  { cbn. repeat constructor; cbn; intuition discriminate. }
  split; [ exact Hnd | ]. split; [ reflexivity | ].
  destruct (docker_compose_environment shipped "ps" _ calm_world [] Hnd)
    as (i & env & Hs & _ & He & Hc & _).
  exists i, env. split; [ exact Hs | ]. split; [ exact He | ].
  apply Hc. reflexivity.
Defined.

Lemma invocations_app (a b : list event) :
  invocations (a +++ b) = invocations a +++ invocations b.
Proof.
  induction a as [| e a IH]; [ reflexivity | ].
  destruct e; cbn; rewrite IH; reflexivity.
Qed.

Lemma printed_app (a b : list event) :
  printed (a +++ b) = printed a +++ printed b.
Proof.
  induction a as [| e a IH]; [ reflexivity | ].
  destruct e; cbn; rewrite IH; reflexivity.
Qed.

Lemma bind_discard {A} (m : io A) (w : world) (tr : list event) :
  bind m (fun _ => ret tt) w tr = discard (m w tr).
Proof.
  unfold bind, discard. destruct (m w tr) as [[a | e |] tr1]; reflexivity.
Qed.

Lemma docker_compose_invocations (context : settings) (command : string)
  (kw : kwargs) (w : world) (tr : list event) :
  invocations (snd (docker_compose context command kw w tr))
  = invocations tr +++ [compose_invocation context command kw].
Proof.
  rewrite docker_compose_run. cbn [snd]. rewrite !invocations_app. cbn.
  now rewrite app_nil_r.
Qed.

(** ** [run_command] *)

Lemma run_command_local_run (context : settings) (command : string)
  (kw : kwargs) (w : world) (tr : list event) :
  local_mode context ->
  run_command context command kw w tr
  = (if (exited (respond w tr {| inv_command := command; inv_kwargs := kw |})
         =? 0)%Z
     then Ret tt else Raise (UnexpectedExit command),
     tr +++ [Run {| inv_command := command; inv_kwargs := kw |}]).
Proof.
  intros H. unfold run_command. unfold bind at 1. unfold lift. rewrite H.
  unfold bind, context_run. destruct (exited _ =? 0)%Z; reflexivity.
Qed.

Lemma run_command_docker_run (context : settings) (command : string)
  (kw : kwargs) (w : world) (tr : list event) :
  docker_mode context ->
  run_command context command kw w tr
  = match docker_compose context status_command status_kwargs w tr with
    | (Ret results, tr1) =>
        discard (docker_compose context
                   (in_container command (stdout results))
                   (container_kwargs kw) w tr1)
    | (Raise e, tr1) => (Raise e, tr1)
    | (Running, tr1) => (Running, tr1)
    end.
Proof.
  intros H. unfold run_command. unfold bind at 1. unfold lift. rewrite H.
  unfold bind at 1. fold status_command. fold status_kwargs.
  destruct (docker_compose context status_command status_kwargs w tr)
    as [[results | e |] tr1]; try reflexivity.
  rewrite bind_discard. reflexivity.
Qed.

Lemma run_command_invalid (context : settings) (command : string)
  (kw : kwargs) (w : world) (tr : list event) (e : exn) :
  is_truthy (local context) = Raise e ->
  run_command context command kw w tr = (Raise e, tr).
Proof.
  intros H. unfold run_command, bind, lift. rewrite H. reflexivity.
Qed.

(** X6. Where [run_command] sends a command.  With a truthy [local] it
    hands exactly that command, with the caller's keyword arguments, to
    [context.run] and nothing else.  With a falsy [local] it never runs the
    command on the host: it first asks docker compose which services run
    (with [hide="out"]); if that query fails nothing else is run; otherwise
    it runs one more docker compose command, [exec nautobot <command>] when
    the answer contains the text [nautobot] anywhere and
    [run --rm --entrypoint '<command>' nautobot] when it does not, with
    [pty] defaulting to [True]. *)
Theorem run_command_dispatch (context : settings) (command : string)
  (kw : kwargs) (w : world) (tr : list event) :
  (local_mode context ->
   invocations (snd (run_command context command kw w tr))
   = invocations tr +++ [ {| inv_command := command; inv_kwargs := kw |} ])
  /\ (docker_mode context ->
      let status :=
        respond w (tr +++ [Print (compose_notice status_command)])
          (compose_invocation context status_command status_kwargs) in
      if (exited status =? 0)%Z then
        invocations (snd (run_command context command kw w tr))
        = invocations tr
          +++ [ compose_invocation context status_command status_kwargs;
                compose_invocation context
                  (in_container command (stdout status))
                  (container_kwargs kw) ]
      else
        run_command context command kw w tr
        = (Raise (UnexpectedExit
                    (compose_command_line context status_command None)),
           tr +++ [ Print (compose_notice status_command);
                    Run (compose_invocation context status_command
                           status_kwargs) ])).
Proof.
  split.
  - intros H. rewrite run_command_local_run by exact H. cbn [snd].
    rewrite invocations_app. reflexivity.
  - intros H. cbn zeta. rewrite run_command_docker_run by exact H.
    rewrite docker_compose_run. cbn zeta.
    destruct (exited _ =? 0)%Z.
    + unfold discard. cbn [snd]. rewrite docker_compose_invocations.
      rewrite !invocations_app. cbn. rewrite app_nil_r.
      now rewrite <- app_assoc.
    + now rewrite <- app_assoc.
Qed.

Example run_command_exec_on_substring :
  in_container "bash" "db
nautobot-worker
" = "exec nautobot bash"
  /\ in_container "bash" "db
redis
" = "run --rm --entrypoint 'bash' nautobot".
Proof. split; reflexivity. Qed.

(** ** [dbshell], [exec] and [nbshell] *)

Lemma dbshell_issues (context : settings)
  (db_name input_file output_file query : string) (d : dialect)
  (w : world) (tr : list event) :
  dbshell_arguments_ok input_file output_file query ->
  (d = MySQL /\ _is_compose_included context "mysql" = true)
  \/ (d = PostgreSQL /\ _is_compose_included context "mysql" = false
      /\ _is_compose_included context "postgres" = true) ->
  dbshell context db_name input_file output_file query w tr
  = discard (docker_compose context
               (join " " (dbshell_head query
                          +++ dbshell_client d db_name
                          +++ dbshell_tail input_file output_file query))
               (dbshell_kwargs input_file output_file query) w tr).
Proof.
  intros Hok Hd. apply dbshell_guards_pass in Hok as [G1 G2].
  unfold dbshell. rewrite G1, G2.
  destruct Hd as [[-> Hm] | (-> & Hm & Hp)]; rewrite Hm; try rewrite Hp;
    unfold bind at 1; cbn [ret]; rewrite bind_discard;
    unfold dbshell_kwargs, dbshell_head, dbshell_tail;
    destruct (truthy query); reflexivity.
Qed.

Lemma dbshell_cases (context : settings)
  (db_name input_file output_file query : string) (w : world)
  (tr : list event) :
  (exists msg,
      dbshell context db_name input_file output_file query w tr
      = (Raise (ValueError msg), tr))
  \/ (exists d,
        dbshell context db_name input_file output_file query w tr
        = discard (docker_compose context
                     (join " " (dbshell_head query
                                +++ dbshell_client d db_name
                                +++ dbshell_tail input_file output_file query))
                     (dbshell_kwargs input_file output_file query) w tr)).
Proof.
  destruct (truthy input_file && truthy query) eqn:G1.
  { left. unfold dbshell. rewrite G1. eexists. reflexivity. }
  destruct (truthy output_file && negb (truthy input_file || truthy query)) eqn:G2.
  { left. unfold dbshell. rewrite G1, G2. eexists. reflexivity. }
  assert (Hok : dbshell_arguments_ok input_file output_file query).
  { split.
    - destruct input_file; [ now left | ]. destruct query; [ now right | ].
      discriminate.
    - destruct output_file; [ now left | right ].
      destruct input_file; [ | left; discriminate ].
      destruct query; [ discriminate | right; discriminate ]. }
  destruct (_is_compose_included context "mysql") eqn:Hm.
  { right. exists MySQL. apply dbshell_issues; auto. }
  destruct (_is_compose_included context "postgres") eqn:Hp.
  { right. exists PostgreSQL. apply dbshell_issues; auto. }
  left. unfold dbshell. rewrite G1, G2, Hm, Hp. eexists. reflexivity.
Qed.

(** X7. The text of a query never enters the command line [dbshell]
    builds: two non-empty queries give the same command, character for
    character, and the query itself reaches the database client only as the
    value of the environment variable [_SQL_QUERY] of that command. *)
Theorem dbshell_query_travels_in_env (context : settings)
  (db_name input_file output_file query1 query2 : string) (w1 w2 : world) :
  query1 <> "" -> query2 <> "" ->
  commands (snd (dbshell context db_name input_file output_file query1 w1 []))
  = commands (snd (dbshell context db_name input_file output_file query2 w2 []))
  /\ forall i,
       In i (invocations
               (snd (dbshell context db_name input_file output_file query1 w1 []))) ->
       exists env,
         kw_env (inv_kwargs i) = Some env
         /\ dict_get "_SQL_QUERY" env = Some query1.
Proof.
  intros H1 H2. apply truthy_nonempty in H1, H2. split.
  - unfold dbshell. rewrite H1, H2. rewrite !andb_true_r, !orb_true_r.
    cbn [negb]. rewrite !andb_false_r.
    destruct (truthy input_file); [ reflexivity | ].
    destruct (_is_compose_included context "mysql");
      [ | destruct (_is_compose_included context "postgres");
          [ | reflexivity ] ];
      unfold bind at 1 3; cbn [ret]; rewrite !bind_discard; unfold discard;
      cbn [snd]; rewrite !docker_compose_commands; reflexivity.
  - intros i Hi.
    destruct (dbshell_cases context db_name input_file output_file query1 w1 [])
      as [[msg E] | [d E]]; rewrite E in Hi; [ contradiction | ].
    unfold discard in Hi. cbn [snd] in Hi.
    rewrite docker_compose_invocations in Hi. cbn in Hi.
    destruct Hi as [<- | []].
    eexists. split; [ reflexivity | ].
    apply dict_get_update_present.
    + cbn. rewrite H1. cbn. repeat constructor. intros [].
    + cbn. rewrite H1. reflexivity.
Qed.

Lemma dbshell_query_travels_in_env_witness :
  "SELECT 1" <> "" /\ "DROP TABLE x" <> ""
  /\ commands (snd (dbshell shipped "" "" "" "SELECT 1" calm_world []))
     = commands (snd (dbshell shipped "" "" "" "DROP TABLE x" calm_world [])).
Proof.
  split; [ discriminate | split; [ discriminate | ] ].
  apply (dbshell_query_travels_in_env shipped "" "" "" "SELECT 1" "DROP TABLE x"
           calm_world calm_world); discriminate.
Defined.

(** X8. A terminal is asked for exactly when the session is interactive:
    the command of [dbshell] has [pty=True] when none of [input_file],
    [output_file] and [query] is given and [pty=False] otherwise; the
    commands of [exec] and [nbshell] have [pty=True] when no [file] is given
    and [pty=False] otherwise (the status query [nbshell] may run first
    through [run_command] carries no [pty] at all). *)
Theorem terminal_only_when_interactive (context : settings) (w : world) :
  (forall db_name input_file output_file query i,
      In i (invocations
              (snd (dbshell context db_name input_file output_file query w []))) ->
      kw_pty (inv_kwargs i)
      = Some (negb (truthy input_file || truthy output_file || truthy query)))
  /\ (forall service command file i,
        In i (invocations (snd (exec context service command file w []))) ->
        kw_pty (inv_kwargs i) = Some (negb (truthy file)))
  /\ (forall file i,
        In i (invocations (snd (nbshell context file w []))) ->
        i = compose_invocation context status_command status_kwargs
        \/ kw_pty (inv_kwargs i) = Some (negb (truthy file))).
Proof.
  split; [ | split ].
  - intros db_name input_file output_file query i Hi.
    destruct (dbshell_cases context db_name input_file output_file query w [])
      as [[msg E] | [d E]]; rewrite E in Hi; [ contradiction | ].
    unfold discard in Hi. cbn [snd] in Hi.
    rewrite docker_compose_invocations in Hi. cbn in Hi.
    destruct Hi as [<- | []]. reflexivity.
  - intros service command file i Hi. unfold exec in Hi.
    rewrite bind_discard in Hi. unfold discard in Hi. cbn [snd] in Hi.
    rewrite docker_compose_invocations in Hi. cbn in Hi.
    destruct Hi as [<- | []]. reflexivity.
  - intros file i Hi. unfold nbshell in Hi.
    destruct (is_truthy (local context)) as [[] | e |] eqn:El.
    + rewrite run_command_local_run in Hi by exact El. cbn in Hi.
      destruct Hi as [<- | []]. right. reflexivity.
    + rewrite run_command_docker_run in Hi by exact El.
      rewrite docker_compose_run in Hi. cbn zeta in Hi.
      destruct (exited _ =? 0)%Z.
      * unfold discard in Hi. cbn [snd] in Hi.
        rewrite docker_compose_invocations, !invocations_app in Hi.
        cbn in Hi. destruct Hi as [<- | [<- | []]]; [ now left | right ].
        reflexivity.
      * cbn [snd] in Hi. rewrite !invocations_app in Hi. cbn in Hi.
        destruct Hi as [<- | []]. now left.
    + rewrite run_command_invalid with (e := e) in Hi by exact El.
      contradiction.
    + unfold run_command, bind, lift in Hi. rewrite El in Hi. contradiction.
Qed.

(** X9. Leaving [db_name] empty is the same as naming the backend's
    default: with the MySQL file configured, [dbshell], [import_db] and
    [backup_db] behave with [db_name=""] exactly as with
    [db_name="$MYSQL_DATABASE"] (in [import_db], no [GRANT] is added in
    either case); without it, exactly as with [db_name="$POSTGRES_DB"]. *)
Theorem default_database_name (steps : nat) (context : settings)
  (input_file output_file query dump_file : string) (readable : bool)
  (w : world) (tr : list event) :
  (In "docker-compose.mysql.yml" (compose_files context) ->
   dbshell context "" input_file output_file query w tr
   = dbshell context "$MYSQL_DATABASE" input_file output_file query w tr
   /\ import_db steps context "" dump_file w tr
      = import_db steps context "$MYSQL_DATABASE" dump_file w tr
   /\ backup_db steps context "" dump_file readable w tr
      = backup_db steps context "$MYSQL_DATABASE" dump_file readable w tr)
  /\ (~ In "docker-compose.mysql.yml" (compose_files context) ->
      dbshell context "" input_file output_file query w tr
      = dbshell context "$POSTGRES_DB" input_file output_file query w tr
      /\ import_db steps context "" dump_file w tr
         = import_db steps context "$POSTGRES_DB" dump_file w tr
      /\ backup_db steps context "" dump_file readable w tr
         = backup_db steps context "$POSTGRES_DB" dump_file readable w tr).
Proof.
  split; intros Hm.
  - apply (is_compose_included_In context "mysql") in Hm.
    unfold dbshell, import_db, backup_db. rewrite Hm.
    repeat split; reflexivity.
  - apply (is_compose_included_not_In context "mysql") in Hm.
    unfold dbshell, import_db, backup_db. rewrite Hm.
    repeat split; reflexivity.
Qed.

(** ** What a task prints when it is done *)

Lemma mute_ret {A} (line : string) (a : A) : mute line (ret a).
Proof. intros w tr H. exact H. Qed.

Lemma mute_raise {A} (line : string) (e : exn) : mute line (@raise A e).
Proof. intros w tr H. exact H. Qed.

Lemma mute_lift {A} (line : string) (r : result A) : mute line (lift r).
Proof. intros w tr H. exact H. Qed.

Lemma mute_out_of_steps {A} (line : string) : mute line (@out_of_steps A).
Proof. intros w tr H. exact H. Qed.

Lemma mute_sleep (line : string) (n : Z) : mute line (sleep n).
Proof.
  intros w tr H. cbn. rewrite printed_app. cbn. now rewrite app_nil_r.
Qed.

Lemma mute_context_run (line command : string) (kw : kwargs) :
  mute line (context_run command kw).
Proof.
  intros w tr H. unfold context_run.
  destruct (exited _ =? 0)%Z; cbn; rewrite printed_app; cbn;
    now rewrite app_nil_r.
Qed.

Lemma mute_print (line other : string) :
  line <> other -> mute line (print other).
Proof.
  intros Hne w tr H. cbn. rewrite printed_app. cbn.
  intros Hin. apply in_app_or in Hin. destruct Hin as [Hin | [Heq | []]].
  - now apply H.
  - now apply Hne.
Qed.

Lemma mute_bind {A B} (line : string) (m : io A) (k : A -> io B) :
  mute line m -> (forall a, mute line (k a)) -> mute line (bind m k).
Proof.
  intros Hm Hk w tr H. unfold bind. specialize (Hm w tr H).
  destruct (m w tr) as [[a | e |] tr1]; cbn in Hm |- *;
    [ now apply Hk | assumption | assumption ].
Qed.

Ltac plain :=
  split; intros ? H; cbn in H; discriminate H.

Lemma mute_docker_compose (line : string) (context : settings)
  (command : string) (kw : kwargs) :
  plain line -> mute line (docker_compose context command kw).
Proof.
  intros [Hn _]. unfold docker_compose.
  apply mute_bind; [ apply mute_print, Hn | intros _ ].
  apply mute_context_run.
Qed.

Lemma mute_start (line : string) (context : settings) (service : string) :
  plain line -> line <> "Starting Nautobot in detached mode..." ->
  mute line (start context service).
Proof.
  intros Hp Hs. unfold start.
  apply mute_bind; [ now apply mute_print | intros _ ].
  apply mute_bind; [ now apply mute_docker_compose | intros _ ].
  apply mute_ret.
Qed.

Lemma mute_await_healthy_container (line : string) (steps : nat)
  (context : settings) (container_id : string) :
  plain line ->
  mute line (_await_healthy_container steps context container_id).
Proof.
  intros Hp. induction steps as [| steps IH]; cbn [_await_healthy_container].
  - apply mute_out_of_steps.
  - apply mute_bind; [ apply mute_context_run | intros r ].
    destruct (String.eqb _ _); [ apply mute_ret | ].
    apply mute_bind; [ apply mute_print, Hp | intros _ ].
    apply mute_bind; [ apply mute_sleep | intros _ ]. exact IH.
Qed.

Lemma mute_await_healthy_service (line : string) (steps : nat)
  (context : settings) (service : string) :
  plain line -> mute line (_await_healthy_service steps context service).
Proof.
  intros Hp. unfold _await_healthy_service.
  apply mute_bind; [ now apply mute_docker_compose | intros r ].
  now apply mute_await_healthy_container.
Qed.

Lemma mute_run_command (line : string) (context : settings)
  (command : string) (kw : kwargs) :
  plain line -> mute line (run_command context command kw).
Proof.
  intros Hp. unfold run_command.
  apply mute_bind; [ apply mute_lift | intros [] ].
  - apply mute_bind; [ apply mute_context_run | intros _; apply mute_ret ].
  - apply mute_bind; [ now apply mute_docker_compose | intros r ].
    apply mute_bind; [ now apply mute_docker_compose | intros _ ].
    apply mute_ret.
Qed.

Lemma announces_print (line : string) : announces line (print line).
Proof.
  intros w tr H. cbn. rewrite printed_app. cbn. split.
  - intros _. now exists tt.
  - intros _. apply in_or_app. right. now left.
Qed.

Lemma announces_bind {A B} (line : string) (m : io A) (k : A -> io B) :
  mute line m -> (forall a, announces line (k a)) ->
  announces line (bind m k).
Proof.
  intros Hm Hk w tr H. unfold bind. specialize (Hm w tr H).
  destruct (m w tr) as [[a | e |] tr1]; cbn in Hm |- *.
  - now apply Hk.
  - split; [ contradiction | intros [b Hb]; discriminate ].
  - split; [ contradiction | intros [b Hb]; discriminate ].
Qed.

Lemma announces_then {A B} (line : string) (m : io A) (k : A -> io B) :
  announces line m -> (forall a, returns (k a)) -> (forall a, grows (k a)) ->
  announces line (bind m k).
Proof.
  intros Hm Hr Hg w tr H. unfold bind. specialize (Hm w tr H).
  destruct (m w tr) as [[a | e |] tr1]; cbn in Hm |- *.
  - destruct (Hr a w tr1) as [b Hb]. destruct (Hg a w tr1) as [ext Hext].
    split; [ intros _; eauto | intros _ ].
    rewrite Hext, printed_app. apply in_or_app. left. apply Hm. eauto.
  - split; [ intros Hin; apply Hm in Hin; destruct Hin; discriminate
           | intros [b Hb]; discriminate ].
  - split; [ intros Hin; apply Hm in Hin; destruct Hin; discriminate
           | intros [b Hb]; discriminate ].
Qed.

Lemma returns_print (line : string) : returns (print line).
Proof. intros w tr. now exists tt. Qed.

Lemma returns_bind {A B} (m : io A) (k : A -> io B) :
  returns m -> (forall a, returns (k a)) -> returns (bind m k).
Proof.
  intros Hm Hk w tr. unfold bind. destruct (Hm w tr) as [a Ha].
  destruct (m w tr) as [[a' | e |] tr1]; cbn in Ha; try discriminate.
  apply Hk.
Qed.

(** X10. [import_db] prints [Database import complete, ...] exactly when it
    returns, and [backup_db] prints its banner [The database backup has
    been successfully completed ...] exactly when it returns: a failed
    command, an unsupported backend or a container that never gets healthy
    leaves the message unprinted. *)
Theorem database_tasks_report_success (steps : nat) (context : settings)
  (db_name dump_file : string) (readable : bool) (w : world) :
  (In "Database import complete, you can start Nautobot now: `invoke start`"
      (printed (snd (import_db steps context db_name dump_file w [])))
   <-> fst (import_db steps context db_name dump_file w []) = Ret tt)
  /\ (In "The database backup has been successfully completed and saved to the following file:"
         (printed (snd (backup_db steps context db_name dump_file readable w [])))
      <-> fst (backup_db steps context db_name dump_file readable w []) = Ret tt).
Proof.
  assert (Hunit : forall r : result unit, (exists a, r = Ret a) <-> r = Ret tt).
  { intros r. split; [ intros [[] H]; exact H | intros H; eauto ]. }
  split; rewrite <- Hunit.
  - assert (Hp : plain "Database import complete, you can start Nautobot now: `invoke start`")
      by plain.
    apply (announces_bind _ _ _) ; [ | | intros Hin; exact Hin ].
    + now apply mute_docker_compose.
    + intros _. apply announces_bind;
        [ apply mute_start; [ exact Hp | discriminate ] | intros _ ].
      apply announces_bind; [ now apply mute_await_healthy_service | intros _ ].
      apply announces_bind.
      * destruct (_is_compose_included context "mysql");
          [ apply mute_ret | ].
        destruct (_is_compose_included context "postgres");
          [ apply mute_ret | apply mute_raise ].
      * intros command. apply announces_bind;
          [ now apply mute_docker_compose | intros _; apply announces_print ].
  - assert (Hp : plain "The database backup has been successfully completed and saved to the following file:")
      by plain.
    apply (announces_bind _ _ _) ; [ | | intros Hin; exact Hin ].
    + apply mute_start; [ exact Hp | discriminate ].
    + intros _. apply announces_bind;
        [ now apply mute_await_healthy_service | intros _ ].
      apply announces_bind.
      * destruct (_is_compose_included context "mysql");
          [ apply mute_ret | ].
        destruct (_is_compose_included context "postgres");
          [ apply mute_ret | apply mute_raise ].
      * intros command. apply announces_bind;
          [ now apply mute_docker_compose | intros _ ].
        apply announces_bind; [ apply mute_print; discriminate | intros _ ].
        apply announces_then; [ apply announces_print | | ].
        -- intros _. repeat (apply returns_bind; [ apply returns_print | intros _ ]).
           apply returns_print.
        -- intros _. grows.
Qed.

Ltac mute_task :=
  repeat first
    [ apply mute_ret
    | apply mute_print; discriminate
    | apply mute_run_command; assumption
    | apply mute_start; [ assumption | discriminate ]
    | apply mute_bind; [ | intros ? ]
    | match goal with
      | |- mute _ (if ?b then _ else _) => destruct b
      end ].

(** X11. [tests] prints [All tests have passed!] exactly when it returns:
    whichever linter or test command fails, or whenever [local] is not a
    valid truthy value, the run ends there and the message is not printed.
    This holds in local and in container mode. *)
Theorem tests_report_success (context : settings)
  (failfast keepdb lint_only : bool) (w : world) :
  In "All tests have passed!"
     (printed (snd (tests context failfast keepdb lint_only w [])))
  <-> fst (tests context failfast keepdb lint_only w []) = Ret tt.
Proof.
  assert (Hunit : forall r : result unit, (exists a, r = Ret a) <-> r = Ret tt).
  { intros r. split; [ intros [[] H]; exact H | intros H; eauto ]. }
  rewrite <- Hunit.
  assert (Hp : plain "All tests have passed!") by plain.
  apply (announces_bind _ _ _); [ | | intros Hin; exact Hin ].
  - apply mute_lift.
  - intros is_local. unfold tests.
    repeat (apply announces_bind;
            [ unfold black, ruff, flake8, bandit, yamllint, lock,
                check_migrations, pylint, build_and_check_docs, unittest,
                unittest_coverage;
              mute_task
            | intros ? ]).
    apply announces_print.
Qed.

(** ** The order of the commands *)

Lemma exits_app (w : world) (tr a b : list event) :
  exits w tr (a +++ b) = exits w tr a +++ exits w (tr +++ a) b.
Proof.
  revert tr. induction a as [| e a IH]; intros tr.
  - cbn. now rewrite app_nil_r.
  - destruct e; cbn [app exits]; rewrite IH, <- app_assoc; reflexivity.
Qed.

Lemma runs_ret {A} (a : A) : runs [] (ret a).
Proof.
  intros w tr. exists []. cbn. split; [ now rewrite app_nil_r | ].
  split; reflexivity.
Qed.

Lemma runs_print (line : string) : runs [] (print line).
Proof.
  intros w tr. exists [Print line]. cbn. split; [ reflexivity | ].
  split; reflexivity.
Qed.

Lemma runs_run_command (context : settings) (command : string) (kw : kwargs) :
  local_mode context -> runs [command] (run_command context command kw).
Proof.
  intros H w tr. rewrite run_command_local_run by exact H.
  exists [Run {| inv_command := command; inv_kwargs := kw |}].
  split; [ reflexivity | ].
  destruct (exited _ =? 0)%Z eqn:E; cbn [fst].
  - apply Z.eqb_eq in E. cbn. rewrite E. split; reflexivity.
  - apply Z.eqb_neq in E.
    exists 0%nat, command,
      (exited (respond w tr {| inv_command := command; inv_kwargs := kw |})).
    repeat split. exact E.
Qed.

Lemma runs_bind {A B} (cmds1 cmds2 : list string) (m : io A) (k : A -> io B) :
  runs cmds1 m -> (forall a, runs cmds2 (k a)) ->
  runs (cmds1 +++ cmds2) (bind m k).
Proof.
  intros Hm Hk w tr. unfold bind. destruct (Hm w tr) as (e1 & Hs1 & H1).
  destruct (m w tr) as [[a | e |] tr1]; cbn [fst snd] in Hs1, H1 |- *;
    subst tr1.
  - destruct (Hk a w (tr +++ e1)) as (e2 & Hs2 & H2).
    exists (e1 +++ e2). split; [ rewrite Hs2; now rewrite <- app_assoc | ].
    destruct H1 as [Hc1 Hx1].
    destruct (fst (k a w (tr +++ e1))) as [b | e |].
    + destruct H2 as [Hc2 Hx2]. split.
      * now rewrite commands_app, Hc1, Hc2.
      * now rewrite exits_app, Hx1, Hx2, length_app, repeat_app.
    + destruct H2 as (n & c & z & Hn & He & Hc2 & Hx2 & Hz).
      exists (List.length cmds1 + n)%nat, c, z.
      split; [ | split; [ exact He | split; [ | split; [ | exact Hz ] ] ] ].
      * rewrite nth_error_app2 by lia.
        replace (List.length cmds1 + n - List.length cmds1)%nat with n by lia.
        exact Hn.
      * rewrite commands_app, Hc1, Hc2.
        replace (S (List.length cmds1 + n)) with (List.length cmds1 + S n)%nat
          by lia.
        now rewrite firstn_app_2.
      * now rewrite exits_app, Hx1, Hx2, repeat_app, <- app_assoc.
    + exact H2.
  - exists e1. split; [ reflexivity | ].
    destruct H1 as (n & c & z & Hn & He & Hc & Hx & Hz).
    assert (Hlt : (n < List.length cmds1)%nat).
    { apply nth_error_Some. rewrite Hn. discriminate. }
    exists n, c, z.
    split; [ | split; [ exact He | split; [ | split; assumption ] ] ].
    + rewrite nth_error_app1 by exact Hlt. exact Hn.
    + rewrite Hc, firstn_app.
      replace (S n - List.length cmds1)%nat with 0%nat by lia.
      cbn. now rewrite app_nil_r.
  - contradiction.
Qed.

Lemma runs_bind_eq {A B} (cmds cmds1 cmds2 : list string)
  (m : io A) (k : A -> io B) :
  runs cmds1 m -> cmds = cmds1 +++ cmds2 -> (forall a, runs cmds2 (k a)) ->
  runs cmds (bind m k).
Proof. intros Hm -> Hk. now apply runs_bind. Qed.

Ltac runs_step :=
  lazymatch goal with
  | |- runs _ (bind _ _) =>
      eapply runs_bind_eq;
      [ runs_step | cbn [app]; reflexivity | intros ?; runs_step ]
  | |- runs _ (run_command _ _ _) => apply runs_run_command; assumption
  | |- runs _ (print _) => apply runs_print
  | |- runs _ (ret _) => apply runs_ret
  end.

(** X12. With a truthy [local], [tests] runs the linters on the host in
    the order black, ruff, flake8, bandit, yamllint, poetry check, the
    migrations check, pylint, mkdocs, and then, unless [lint_only] is set,
    the unit tests ([--keepdb] before [--failfast], always [--buffer]) and
    the coverage report; it starts no container.  It returns exactly when
    it has issued all of these commands and each exited with status 0;
    otherwise it stops at the first command whose exit status is not 0,
    issues nothing after it and raises that command's failure.  With
    [lint_only] the flags [failfast] and [keepdb] change nothing. *)
Theorem tests_local_order (context : settings)
  (failfast keepdb lint_only : bool) :
  local_mode context ->
  runs (tests_commands failfast keepdb lint_only)
       (tests context failfast keepdb lint_only).
Proof.
  intros Hl. unfold tests.
  assert (Hstart : forall A (k : bool -> io A) cs,
             runs cs (k true) ->
             runs cs (bind (lift (is_truthy (local context))) k)).
  { intros A k cs Hk w tr. unfold bind, lift. rewrite Hl. exact (Hk w tr). }
  apply Hstart. cbn [negb].
  apply (runs_bind [] _); [ apply runs_ret | intros _ ].
  unfold black, ruff, flake8, bandit, yamllint, lock, check_migrations,
    pylint, build_and_check_docs, unittest, unittest_coverage.
  cbn [String.eqb Ascii.eqb Bool.eqb negb truthy].
  unfold tests_commands, lint_commands, unit_test_commands.
  destruct lint_only, failfast, keepdb; cbn [negb app]; runs_step.
Qed.

Lemma tests_local_order_witness :
  local_mode local_settings
  /\ runs (tests_commands true false false)
          (tests local_settings true false false).
Proof.
  split; [ reflexivity | ].
  apply (tests_local_order local_settings true false false). reflexivity.
Defined.

Example tests_stop_at_flake8 :
  tests local_settings false false false
    (failing_world "flake8 . --config .flake8") []
  = (Raise (UnexpectedExit "flake8 . --config .flake8"),
     [ Print "Running black...";
       Run {| inv_command := "black --check --diff ."; inv_kwargs := no_kwargs |};
       Print "Running ruff...";
       Run {| inv_command := "ruff check --output-format text .";
              inv_kwargs := no_kwargs |};
       Print "Running flake8...";
       Run {| inv_command := "flake8 . --config .flake8";
              inv_kwargs := no_kwargs |} ]).
Proof. vm_compute. reflexivity. Qed.

(** X13. [ruff] does not validate [action]: every value other than [lint]
    and [format] (a misspelt one included) behaves exactly as [both]. *)
Theorem ruff_unknown_action_is_both (context : settings) (action : string)
  (fix_ : bool) (output_format : string) :
  action <> "lint" -> action <> "format" ->
  ruff context action fix_ output_format
  = ruff context "both" fix_ output_format.
Proof.
  intros Hl Hf. apply String.eqb_neq in Hl, Hf.
  unfold ruff. rewrite Hl, Hf. reflexivity.
Qed.

Lemma ruff_unknown_action_is_both_witness :
  "Lint" <> "lint"
  /\ ruff shipped "Lint" false "text" = ruff shipped "both" false "text".
Proof.
  split; [ discriminate | ].
  apply (ruff_unknown_action_is_both shipped "Lint" false "text");
    discriminate.
Defined.

(** X14. With a truthy [local], [autoformat] rewrites files and checks
    nothing: it runs [black .], then [ruff format .], then
    [ruff check --fix --output-format text .], none of them with [--check]
    or [--diff].  It returns exactly when all three have been issued and
    each exited with status 0; otherwise it stops at the first whose exit
    status is not 0, issues nothing after it and raises that command's
    failure. *)
Theorem autoformat_local_order (context : settings) :
  local_mode context ->
  runs [ "black ."; "ruff format ."; "ruff check --fix --output-format text ." ]
       (autoformat context).
Proof.
  intros Hl. unfold autoformat, black, ruff.
  cbn [String.eqb Ascii.eqb Bool.eqb negb]. runs_step.
Qed.

Lemma autoformat_local_order_witness :
  local_mode local_settings
  /\ runs [ "black ."; "ruff format ."; "ruff check --fix --output-format text ." ]
          (autoformat local_settings).
Proof.
  split; [ reflexivity | ].
  apply (autoformat_local_order local_settings). reflexivity.
Defined.

(** ** Migration 0003: what it leaves alone *)

Lemma dict_set_keys {V} (k : string) (v v0 : V) (d : dict V) :
  dict_get k d = Some v0 -> map fst (dict_set k v d) = map fst d.
Proof.
  induction d as [| [k' v'] d IH]; cbn; [ discriminate | ].
  destruct (String.eqb k k'); intros H; cbn; [ reflexivity | ].
  now rewrite IH.
Qed.

Section Migration0003Frame.

Import Migration0003.

(** X15. Migration 0003 alters two fields and nothing else: every field
    other than [message] and [object_repr] of [synclogentry], and every
    field of every other model, has after it the definition it had before,
    and the models of the state are the same, in the same order. *)
Theorem migration_0003_frame (st st' : app_state) :
  apply Migration st = Ret st' ->
  map fst st' = map fst st
  /\ forall model name,
       model <> "synclogentry" \/ (name <> "message" /\ name <> "object_repr") ->
       get_field st' model name = get_field st model name.
Proof.
  intros H.
  destruct (dict_get "synclogentry" st) as [fields |] eqn:Hf.
  - rewrite (apply_Migration st fields Hf) in H. inversion H; subst st'; clear H.
    split.
    + rewrite (dict_set_keys "synclogentry" _ (dict_set "message" message_field fields))
        by apply dict_get_set_same.
      now rewrite (dict_set_keys "synclogentry" _ fields).
    + intros model name Hother. unfold get_field.
      destruct (String.eqb model "synclogentry") eqn:Em.
      * apply String.eqb_eq in Em. subst model.
        destruct Hother as [Hm | [Hn1 Hn2]]; [ now elim Hm | ].
        rewrite dict_get_set_same, Hf.
        rewrite !dict_get_set_other by assumption. reflexivity.
      * apply String.eqb_neq in Em.
        now rewrite !dict_get_set_other by assumption.
  - unfold apply, Migration in H.
    cbn [operations apply_operations state_forwards] in H.
    change (lower "synclogentry") with "synclogentry" in H.
    rewrite Hf in H. discriminate.
Qed.

Lemma migration_0003_frame_witness :
  (exists st', apply Migration state_0002 = Ret st')
  /\ map fst state_0003 = map fst state_0002
  /\ forall model name,
       model <> "synclogentry" \/ (name <> "message" /\ name <> "object_repr") ->
       get_field state_0003 model name = get_field state_0002 model name.
Proof.
  split; [ eexists; reflexivity | ].
  apply (migration_0003_frame state_0002 state_0003). reflexivity.
Defined.

(** X16. On a state without the model [synclogentry] migration 0003 does
    not apply: its first operation raises [KeyError] naming the model, and
    no state is produced. *)
Theorem migration_0003_needs_model (st : app_state) :
  dict_get "synclogentry" st = None ->
  apply Migration st = Raise (KeyError "synclogentry").
Proof.
  intros H. unfold apply, Migration.
  cbn [operations apply_operations state_forwards].
  change (lower "synclogentry") with "synclogentry".
  now rewrite H.
Qed.

Lemma migration_0003_needs_model_witness :
  dict_get "synclogentry" [("sync", [("id", message_field)])] = None
  /\ apply Migration [("sync", [("id", message_field)])]
     = Raise (KeyError "synclogentry").
Proof.
  split; [ reflexivity | ].
  apply (migration_0003_needs_model [("sync", [("id", message_field)])]).
  reflexivity.
Defined.

End Migration0003Frame.

(** ** [destroy] *)



Lemma commands_rounds (k : nat) (container_id : string) :
  commands (rounds k container_id) = repeat (inspect_command container_id) k.
Proof.
  induction k as [| k IH]; [ reflexivity | ].
  cbn [rounds repeat]. rewrite commands_app, IH. reflexivity.
Qed.

(** A wait that returns has polled some [k + 1] times. *)
Lemma await_healthy_container_returns (steps : nat) (context : settings)
  (container_id : string) (w : world) (tr : list event) :
  fst (_await_healthy_container steps context container_id w tr) = Ret tt ->
  exists k, (k < steps)%nat
    /\ snd (_await_healthy_container steps context container_id w tr)
       = tr +++ rounds k container_id +++ [Run (inspect_invocation container_id)].
Proof.
  revert tr. induction steps as [| steps IH]; intros tr H.
  - discriminate.
  - rewrite await_healthy_container_step in H |- *.
    destruct (exited _ =? 0)%Z; [ | discriminate ].
    destruct (String.eqb _ "healthy").
    + exists 0%nat. split; [ lia | reflexivity ].
    + destruct (IH _ H) as (k & Hk & Hs). exists (S k). split; [ lia | ].
      rewrite Hs. cbn [rounds]. now rewrite <- !app_assoc.
Qed.


(** X18. [destroy] looks for the file to import only after it has taken the
    containers down and removed the volumes: when [import_db_file] does not
    name a file, the [down --remove-orphans --volumes] command has been
    issued, and nothing after it, by the time
    [ValueError("File not found: <absolute path>")] is raised. *)
Theorem destroy_file_not_found (steps : nat) (context : settings)
  (import_db_file : string) (w : world) :
  import_db_file <> "" ->
  is_file w (absolute w import_db_file) = false ->
  commands (snd (destroy steps context true import_db_file w []))
  = [ compose_command_line context "down --remove-orphans --volumes" None ]
  /\ (fst (destroy steps context true import_db_file w [])
      = Raise (ValueError ("File not found: " ++ absolute w import_db_file))
      \/ fst (destroy steps context true import_db_file w [])
         = Raise (UnexpectedExit
             (compose_command_line context "down --remove-orphans --volumes" None))).
Proof.
  intros Hf Hno. apply truthy_nonempty in Hf.
  destruct (destroy steps context true import_db_file w []) as [rd trd] eqn:E.
  cbn [fst snd]. unfold destroy in E.
  unfold bind at 1 in E. cbn [print] in E. unfold bind at 1 in E.
  rewrite docker_compose_run in E. cbn zeta in E.
  destruct (exited _ =? 0)%Z.
  - rewrite Hf in E. cbn [negb] in E.
    unfold bind at 1 in E. cbn [print] in E.
    unfold bind at 1 in E. cbn [ask] in E.
    rewrite Hno in E. cbn [negb raise] in E.
    inversion E; subst; clear E.
    cbn [app commands compose_invocation inv_command no_kwargs kw_service].
    split; [ reflexivity | left; reflexivity ].
  - inversion E; subst; clear E.
    cbn [app commands compose_invocation inv_command no_kwargs kw_service].
    split; [ reflexivity | right; reflexivity ].
Qed.

Lemma destroy_file_not_found_witness :
  is_file empty_disk (absolute empty_disk "dump.sql") = false
  /\ commands (snd (destroy 1 shipped true "dump.sql" empty_disk []))
     = [ compose_command_line shipped "down --remove-orphans --volumes" None ]
  /\ (fst (destroy 1 shipped true "dump.sql" empty_disk [])
      = Raise (ValueError ("File not found: " ++ absolute empty_disk "dump.sql"))
      \/ fst (destroy 1 shipped true "dump.sql" empty_disk [])
         = Raise (UnexpectedExit
             (compose_command_line shipped "down --remove-orphans --volumes" None))).
Proof.
  split; [ reflexivity | ].
  apply (destroy_file_not_found 1 shipped "dump.sql" empty_disk).
  - discriminate.
  - reflexivity.
Defined.



Example destroy_imports_commands :
  commands (snd (destroy 5 shipped true "dump.sql" (slow_world 2) []))
  = [ compose_command_line shipped "down --remove-orphans --volumes" None;
      compose_command_line shipped
        "run --rm --detach --volume='/work/dump.sql:/docker-entrypoint-initdb.d/dump.sql' -- db"
        None;
      inspect_command "c0ffee"; inspect_command "c0ffee"; inspect_command "c0ffee";
      "docker stop c0ffee" ].
Proof. vm_compute. reflexivity. Qed.

(** ** Container mode *)

Lemma is_compose_command_line (context : settings) (command : string)
  (service : option string) :
  is_compose (compose_command_line context command service).
Proof.
  unfold is_compose, compose_command_line, join. cbn [app String.concat].
  destruct (map _ (compose_files context) +++ _); reflexivity.
Qed.

Lemma through_compose_ret {A} (a : A) : through_compose (ret a).
Proof. intros w tr H. exact H. Qed.

Lemma through_compose_lift {A} (r : result A) : through_compose (lift r).
Proof. intros w tr H. exact H. Qed.

Lemma through_compose_print (line : string) : through_compose (print line).
Proof.
  intros w tr H. cbn. rewrite commands_app. cbn. now rewrite app_nil_r.
Qed.

Lemma through_compose_bind {A B} (m : io A) (k : A -> io B) :
  through_compose m -> (forall a, through_compose (k a)) ->
  through_compose (bind m k).
Proof.
  intros Hm Hk w tr H. unfold bind. specialize (Hm w tr H).
  destruct (m w tr) as [[a | e |] tr1]; cbn [snd] in Hm |- *;
    [ now apply Hk | exact Hm | exact Hm ].
Qed.

Lemma through_compose_docker_compose (context : settings) (command : string)
  (kw : kwargs) :
  through_compose (docker_compose context command kw).
Proof.
  intros w tr H. rewrite docker_compose_run. cbn zeta. cbn [snd].
  rewrite !commands_app. cbn [commands]. rewrite app_nil_r.
  apply Forall_app. split; [ exact H | ].
  constructor; [ apply is_compose_command_line | constructor ].
Qed.

Lemma through_compose_run_command (context : settings) (command : string)
  (kw : kwargs) :
  docker_mode context -> through_compose (run_command context command kw).
Proof.
  intros Hd w tr. unfold run_command. unfold bind at 1, lift. rewrite Hd.
  revert w tr.
  change (through_compose
            (results <- docker_compose context
                          "ps --services --filter status=running"
                          {| kw_env := None; kw_service := None; kw_pty := None;
                             kw_echo := None; kw_hide := Some (VStr "out") |} ;;
             docker_compose context
               (if contains "nautobot" (stdout results)
                then "exec nautobot " ++ command
                else "run --rm --entrypoint '" ++ command ++ "' nautobot")
               {| kw_env := kw_env kw; kw_service := kw_service kw;
                  kw_pty := Some (match kw_pty kw with Some p => p | None => true end);
                  kw_echo := kw_echo kw; kw_hide := kw_hide kw |} ;;
             ret tt)).
  apply through_compose_bind; [ apply through_compose_docker_compose | intros r ].
  apply through_compose_bind; [ apply through_compose_docker_compose | intros _ ].
  apply through_compose_ret.
Qed.

Ltac through_compose :=
  repeat
    lazymatch goal with
    | |- through_compose (run_command _ _ _) =>
        apply through_compose_run_command; assumption
    | |- through_compose (docker_compose _ _ _) =>
        apply through_compose_docker_compose
    | |- through_compose (print _) => apply through_compose_print
    | |- through_compose (ret _) => apply through_compose_ret
    | |- through_compose (lift _) => apply through_compose_lift
    | |- through_compose (if ?b then _ else _) => destruct b
    | |- through_compose (bind _ _) =>
        apply through_compose_bind; [ | intros ? ]
    end.

(** X20. With a falsy [local], [tests] runs nothing on the host itself:
    every command it issues, whichever of them fails, is a
    [docker compose] command line, and the first of them is the
    [up --detach] that starts the containers. *)
Theorem tests_container_mode (context : settings)
  (failfast keepdb lint_only : bool) (w : world) :
  docker_mode context ->
  Forall is_compose
    (commands (snd (tests context failfast keepdb lint_only w [])))
  /\ exists rest,
       commands (snd (tests context failfast keepdb lint_only w []))
       = compose_command_line context "up --detach" (Some "") :: rest.
Proof.
  intros Hd. split.
  - assert (H : through_compose (tests context failfast keepdb lint_only)).
    { unfold tests, start, black, ruff, flake8, bandit, yamllint, lock,
        check_migrations, pylint, build_and_check_docs, unittest,
        unittest_coverage.
      through_compose. }
    apply H. constructor.
  - unfold tests. unfold bind at 1, lift. rewrite Hd. cbn [negb].
    unfold bind at 1. unfold bind at 1. cbn [print].
    unfold start. unfold bind at 1. cbn [print]. unfold bind at 1.
    rewrite docker_compose_run. cbn zeta.
    destruct (exited _ =? 0)%Z.
    + cbn [ret].
      match goal with
      | |- exists rest, commands (snd (?k w ?t)) = _ =>
          assert (Hg : grows k)
      end.
      { unfold black, ruff, flake8, bandit, yamllint, lock,
          check_migrations, pylint, build_and_check_docs, unittest,
          unittest_coverage, run_command.
        repeat first
          [ apply grows_bind; [ | intros ? ]
          | match goal with
            | |- grows (if ?b then _ else _) => destruct b
            | |- grows (lift _) => intros ? ?; eexists; symmetry; apply app_nil_r
            end
          | solve [ auto with grows ] ]. }
      match goal with
      | |- exists rest, commands (snd (?k w ?t)) = _ =>
          destruct (Hg w t) as [ext Hext]; rewrite Hext
      end.
      rewrite !commands_app.
      cbn [app commands compose_invocation inv_command kw_service].
      eexists. reflexivity.
    + cbn [snd]. rewrite !commands_app.
      cbn [app commands compose_invocation inv_command kw_service].
      eexists. reflexivity.
Qed.

Lemma tests_container_mode_witness :
  docker_mode shipped
  /\ Forall is_compose
       (commands (snd (tests shipped false false true calm_world [])))
  /\ exists rest,
       commands (snd (tests shipped false false true calm_world []))
       = compose_command_line shipped "up --detach" (Some "") :: rest.
Proof.
  split; [ reflexivity | ].
  apply (tests_container_mode shipped false false true calm_world).
  reflexivity.
Defined.

Lemma through_compose_raise {A} (e : exn) : through_compose (@raise A e).
Proof. intros w tr H. exact H. Qed.

Lemma through_compose_start (context : settings) (service : string) :
  through_compose (start context service).
Proof. unfold start. through_compose. Qed.

(** X21. In container mode no task of the list below runs its tool on the
    host: whatever their arguments, and whether they return or fail, every
    command they issue is a [docker compose] command line.  (The tasks left
    out are [tests], treated above, [vscode], which always runs [code] on
    the host, and [destroy], [import_db] and [backup_db], which call
    [docker inspect] and [docker stop] themselves.) *)
Theorem tasks_container_mode (context : settings)
  (force_rm cache check all follow autoformat_ fix_ keepdb failfast buffer
     verbose : bool)
  (tail : Z)
  (service user name version file command db_name input_file output_file
     query action output_format label pattern : string)
  (m : io unit) :
  docker_mode context ->
  In m
    [ build context force_rm cache; generate_packages context;
      lock context check; debug context service; start context service;
      restart context service; stop context service; export context;
      ps_task context all; logs context service follow tail;
      nbshell context file; shell_plus context; cli context;
      createsuperuser context user; makemigrations context name;
      migrate context; post_upgrade context;
      exec context service command file;
      dbshell context db_name input_file output_file query;
      docs context; build_and_check_docs context;
      generate_release_notes context version;
      black context autoformat_; flake8 context; hadolint context;
      pylint context; autoformat context;
      ruff context action fix_ output_format; bandit context;
      yamllint context; check_migrations context;
      unittest context keepdb label failfast buffer pattern verbose;
      unittest_coverage context ] ->
  through_compose m.
Proof.
  intros Hd Hin. cbn [In] in Hin.
  repeat (destruct Hin as [<- | Hin]); try contradiction;
    unfold autoformat, docs;
    unfold build, generate_packages, lock, debug, restart, stop, export,
      ps_task, logs, nbshell, shell_plus, cli, createsuperuser,
      makemigrations, migrate, post_upgrade, exec, dbshell,
      build_and_check_docs, generate_release_notes, black, flake8, hadolint,
      pylint, ruff, bandit, yamllint, check_migrations, unittest,
      unittest_coverage;
    cbn zeta;
    repeat
      lazymatch goal with
      | |- through_compose (run_command _ _ _) =>
          apply through_compose_run_command; assumption
      | |- through_compose (docker_compose _ _ _) =>
          apply through_compose_docker_compose
      | |- through_compose (start _ _) => apply through_compose_start
      | |- through_compose (print _) => apply through_compose_print
      | |- through_compose (ret _) => apply through_compose_ret
      | |- through_compose (raise _) => apply through_compose_raise
      | |- through_compose (lift _) => apply through_compose_lift
      | |- through_compose (if ?b then _ else _) => destruct b
      | |- through_compose (bind _ _) =>
          apply through_compose_bind; [ | intros ? ]
      end.
Qed.

Lemma tasks_container_mode_witness :
  docker_mode shipped
  /\ through_compose (createsuperuser shipped "admin").
Proof.
  split; [ reflexivity | ].
  apply (tasks_container_mode shipped false false false false false false
           false false false false false 0%Z
           "" "admin" "" "" "" "" "" "" "" "" "" "" "" "").
  - reflexivity.
  - cbn [In]. do 13 right. left. reflexivity.
Defined.

(** X22. [_await_healthy_service] waits for the container docker compose
    names: when it returns it has asked docker compose for the container id
    of the service ([ps -q -- <service>]) and then polled, one or more
    times, the health of the container whose id is that answer stripped of
    surrounding whitespace, and it has issued no other command. *)
Theorem await_healthy_service_polls_named_container (steps : nat)
  (context : settings) (service : string) (w : world) (tr : list event) :
  fst (_await_healthy_service steps context service w tr) = Ret tt ->
  exists container_id k,
    (k < steps)%nat
    /\ container_id
       = strip (stdout (respond w
           (tr +++ [Print (compose_notice ("ps -q -- " ++ service))])
           (compose_invocation context ("ps -q -- " ++ service) hidden_kwargs)))
    /\ commands (snd (_await_healthy_service steps context service w tr))
       = commands tr
         +++ [ compose_command_line context ("ps -q -- " ++ service) None ]
         +++ repeat (inspect_command container_id) (S k).
Proof.
  destruct (_await_healthy_service steps context service w tr)
    as [r tre] eqn:E.
  cbn [fst snd]. intros ->. unfold _await_healthy_service in E.
  fold hidden_kwargs in E. unfold bind at 1 in E.
  rewrite docker_compose_run in E. cbn zeta in E.
  destruct (exited _ =? 0)%Z; [ | discriminate ].
  set (container_id := strip (stdout (respond w _ _))) in E.
  pose proof (await_healthy_container_returns steps context container_id w _
                (f_equal fst E)) as (k & Hk & Hs).
  rewrite E in Hs. cbn [fst snd] in Hs. subst tre.
  exists container_id, k. split; [ exact Hk | ]. split; [ reflexivity | ].
  rewrite !commands_app, commands_rounds.
  change (inv_command (inspect_invocation container_id))
    with (inspect_command container_id).
  cbn [commands app compose_invocation inv_command hidden_kwargs kw_service].
  rewrite <- repeat_cons. rewrite app_nil_r, <- app_assoc. reflexivity.
Qed.

Lemma await_healthy_service_polls_named_container_witness :
  fst (_await_healthy_service 4 shipped "db" (slow_world 1) []) = Ret tt
  /\ exists container_id k,
       (k < 4)%nat
       /\ container_id
          = strip (stdout (respond (slow_world 1)
              ([] +++ [Print (compose_notice ("ps -q -- " ++ "db"))])
              (compose_invocation shipped ("ps -q -- " ++ "db") hidden_kwargs)))
       /\ commands (snd (_await_healthy_service 4 shipped "db" (slow_world 1) []))
          = commands []
            +++ [ compose_command_line shipped ("ps -q -- " ++ "db") None ]
            +++ repeat (inspect_command container_id) (S k).
Proof.
  split; [ vm_compute; reflexivity | ].
  apply (await_healthy_service_polls_named_container 4 shipped "db"
           (slow_world 1) []).
  vm_compute. reflexivity.
Defined.
